(** * Real-time pod services (nucleus pod.c): thread state machine and hooks

    A shallow embedding of the thread-level services of the pod: suspend,
    resume, unblock, start, delete, renice, set_thread_mode, the periodic
    wait and the hook registry.  Flag words are integers handled with the
    bit operations of the C text; the pod, its scheduler slots and its
    threads are records; a service is a function from world to world.

    The build modelled is the production one: the nucleus debug switch is
    off (the file itself defaults CONFIG_XENO_OPT_DEBUG_NUCLEUS to 0) and
    the simulator hooks (__XENO_SIM__) are absent.  The other configuration
    switches are kept as booleans, so every statement covers each build. *)

From Stdlib Require Import ZArith List Bool Lia Btauto.
Import ListNotations.
Open Scope Z_scope.

(** ** Flag words *)

Module Flags.

(** testbits(flags, mask): ((flags) & (mask)) *)
Definition testbits (flags mask : Z) : Z := Z.land flags mask.

(** __setbits(flags, mask): flags |= mask *)
Definition setbits (flags mask : Z) : Z := Z.lor flags mask.

(** __clrbits(flags, mask): flags &= ~mask *)
Definition clrbits (flags mask : Z) : Z := Z.land flags (Z.lnot mask).

(** The truth value C gives to an integer used as a condition. *)
Definition nz (x : Z) : bool := negb (x =? 0).

End Flags.
Import Flags.

(** ** Constants of the nucleus headers

    Modelled from the spec: the headers nucleus/thread.h, nucleus/sched.h
    and nucleus/pod.h that give the flags their values are not among the
    sources.  Each flag named in the data model is one bit of its own, and
    the two groups are the ones the data model lists: the blocking bits
    {SUSP, DELAY, PEND, DORMANT, RELAX} and the mode bits documented for
    set_thread_mode. *)

Definition XNSUSP    : Z := 0x00000001.
Definition XNPEND    : Z := 0x00000002.
Definition XNDELAY   : Z := 0x00000004.
Definition XNREADY   : Z := 0x00000008.
Definition XNDORMANT : Z := 0x00000010.
Definition XNZOMBIE  : Z := 0x00000020.
Definition XNRESTART : Z := 0x00000040.
Definition XNSTARTED : Z := 0x00000080.
Definition XNRELAX   : Z := 0x00000200.
Definition XNMIGRATE : Z := 0x00000400.
Definition XNBOOST   : Z := 0x00000800.
Definition XNLOCK    : Z := 0x00002000.
Definition XNRRB     : Z := 0x00004000.
Definition XNASDI    : Z := 0x00008000.
Definition XNSHIELD  : Z := 0x00010000.
Definition XNRPIOFF  : Z := 0x00040000.
Definition XNFPU     : Z := 0x00100000.
Definition XNSHADOW  : Z := 0x00200000.
Definition XNROOT    : Z := 0x00400000.

Definition XNTHREAD_BLOCK_BITS : Z :=
  Z.lor XNSUSP (Z.lor XNPEND (Z.lor XNDELAY (Z.lor XNDORMANT XNRELAX))).

Definition XNTHREAD_MODE_BITS : Z :=
  Z.lor XNLOCK (Z.lor XNRRB (Z.lor XNASDI (Z.lor XNSHIELD XNRPIOFF))).

(** Information bits. *)
Definition XNTIMEO   : Z := 0x00000001.
Definition XNRMID    : Z := 0x00000002.
Definition XNBREAK   : Z := 0x00000004.
Definition XNKICKED  : Z := 0x00000008.
Definition XNWAKEN   : Z := 0x00000010.
Definition XNROBBED  : Z := 0x00000020.
Definition XNPRIOSET : Z := 0x00000100.

(** Scheduler slot status bits. *)
Definition XNKCOUT  : Z := 0x80000000.
Definition XNINIRQ  : Z := 0x08000000.
Definition XNSWLOCK : Z := 0x04000000.

(** Synchronization object status bit consulted by renice. *)
Definition XNSYNCH_DREORD : Z := 0x00000004.

(** Hook types. *)
Definition XNHOOK_THREAD_START  : Z := 1.
Definition XNHOOK_THREAD_SWITCH : Z := 2.
Definition XNHOOK_THREAD_DELETE : Z := 3.

(** Error numbers. *)
Definition EINTR       : Z := 4.
Definition EWOULDBLOCK : Z := 11.
Definition ENOMEM      : Z := 12.
Definition EBUSY       : Z := 16.
Definition EINVAL      : Z := 22.
Definition ETIMEDOUT   : Z := 110.

(** Timeout specification. *)
Definition XN_INFINITE : Z := 0.

Inductive xntmode : Type := XN_RELATIVE | XN_ABSOLUTE | XN_REALTIME.

Definition xntmode_eqb (a b : xntmode) : bool :=
  match a, b with
  | XN_RELATIVE, XN_RELATIVE => true
  | XN_ABSOLUTE, XN_ABSOLUTE => true
  | XN_REALTIME, XN_REALTIME => true
  | _, _ => false
  end.

(** (xnsticks_t)x for a 64-bit tick count. *)
Definition xnsticks (x : Z) : Z :=
  let m := x mod 2 ^ 64 in if m <? 2 ^ 63 then m else m - 2 ^ 64.

(** ** Build configuration *)

Record config : Type := mk_config {
  CONFIG_XENO_OPT_PERVASIVE : bool;
  CONFIG_SMP : bool;
  CONFIG_XENO_OPT_ISHIELD : bool;
  CONFIG_XENO_HW_FPU : bool;
  CONFIG_XENO_HW_UNLOCKED_SWITCH : bool
}.

(** ** Data model *)

(** A thread control block is named by its address. *)
Definition tid : Type := nat.

(** A hook routine is named by its address. *)
Definition routine : Type := Z.

(** A timer of the timer wheel, as far as the pod looks into it. *)
Record xntimer : Type := mk_timer {
  tm_running : bool;
  tm_sched : nat;
  tm_pexpect : Z;
  tm_interval : Z
}.

Record xnthread : Type := mk_thread {
  state : Z;
  info : Z;
  wchan : option nat;
  bprio : Z;
  cprio : Z;
  sched : nat;
  affinity : Z;
  imask : Z;
  imode : Z;
  entry : Z;
  cookie : Z;
  rrperiod : Z;
  rrcredit : Z;
  schedlck : Z;
  user_task : bool;
  rtimer : xntimer;
  ptimer : xntimer
}.

Record xnsched : Type := mk_sched {
  curr : tid;
  resched : Z;
  status : Z;
  runnable : list tid;
  fpuholder : option tid
}.

Record xnpod : Type := mk_pod {
  threadq : list tid;
  threadq_rev : Z;
  tstartq : list routine;
  tswitchq : list routine;
  tdeleteq : list routine
}.

(** Calls that leave the pod: user routines, the architecture layer, the
    shadow bridge, the synch layer's reordering.  They are recorded in the
    order they are made. *)
Inductive event : Type :=
| EvCallout (r : routine) (thread : tid)
| EvArchInitThread (thread : tid)
| EvCleanupTcb (thread : tid)
| EvFinalizeNoSwitch (thread : tid)
| EvFreeSync
| EvSynchRenice (thread : tid)
| EvShadowSuspend (thread : tid)
| EvShadowSendSig (thread : tid)
| EvShadowRenice (thread : tid)
| EvShadowResetShield.

Record world : Type := mk_world {
  threads : tid -> xnthread;
  slots : nat -> xnsched;
  nkpod : xnpod;
  current_cpu : nat;
  cpu_online_map : Z;
  nkaffinity : Z;
  rawclock : Z;
  synch_status : nat -> Z;
  trace : list event
}.

(** ** Field updates *)

Definition upd {A : Type} (f : nat -> A) (k : nat) (v : A) : nat -> A :=
  fun x => if Nat.eqb x k then v else f x.

Definition with_state (s : Z) (th : xnthread) : xnthread :=
  mk_thread s (info th) (wchan th) (bprio th) (cprio th) (sched th)
    (affinity th) (imask th) (imode th) (entry th) (cookie th) (rrperiod th)
    (rrcredit th) (schedlck th) (user_task th) (rtimer th) (ptimer th).

Definition with_info (i : Z) (th : xnthread) : xnthread :=
  mk_thread (state th) i (wchan th) (bprio th) (cprio th) (sched th)
    (affinity th) (imask th) (imode th) (entry th) (cookie th) (rrperiod th)
    (rrcredit th) (schedlck th) (user_task th) (rtimer th) (ptimer th).

Definition with_wchan (c : option nat) (th : xnthread) : xnthread :=
  mk_thread (state th) (info th) c (bprio th) (cprio th) (sched th)
    (affinity th) (imask th) (imode th) (entry th) (cookie th) (rrperiod th)
    (rrcredit th) (schedlck th) (user_task th) (rtimer th) (ptimer th).

Definition with_bprio (p : Z) (th : xnthread) : xnthread :=
  mk_thread (state th) (info th) (wchan th) p (cprio th) (sched th)
    (affinity th) (imask th) (imode th) (entry th) (cookie th) (rrperiod th)
    (rrcredit th) (schedlck th) (user_task th) (rtimer th) (ptimer th).

Definition with_cprio (p : Z) (th : xnthread) : xnthread :=
  mk_thread (state th) (info th) (wchan th) (bprio th) p (sched th)
    (affinity th) (imask th) (imode th) (entry th) (cookie th) (rrperiod th)
    (rrcredit th) (schedlck th) (user_task th) (rtimer th) (ptimer th).

Definition with_sched (c : nat) (th : xnthread) : xnthread :=
  mk_thread (state th) (info th) (wchan th) (bprio th) (cprio th) c
    (affinity th) (imask th) (imode th) (entry th) (cookie th) (rrperiod th)
    (rrcredit th) (schedlck th) (user_task th) (rtimer th) (ptimer th).

Definition with_affinity (a : Z) (th : xnthread) : xnthread :=
  mk_thread (state th) (info th) (wchan th) (bprio th) (cprio th) (sched th)
    a (imask th) (imode th) (entry th) (cookie th) (rrperiod th)
    (rrcredit th) (schedlck th) (user_task th) (rtimer th) (ptimer th).

Definition with_start_params (im md en ck : Z) (th : xnthread) : xnthread :=
  mk_thread (state th) (info th) (wchan th) (bprio th) (cprio th) (sched th)
    (affinity th) im md en ck (rrperiod th)
    (rrcredit th) (schedlck th) (user_task th) (rtimer th) (ptimer th).

Definition with_rrcredit (c : Z) (th : xnthread) : xnthread :=
  mk_thread (state th) (info th) (wchan th) (bprio th) (cprio th) (sched th)
    (affinity th) (imask th) (imode th) (entry th) (cookie th) (rrperiod th)
    c (schedlck th) (user_task th) (rtimer th) (ptimer th).

Definition with_schedlck (c : Z) (th : xnthread) : xnthread :=
  mk_thread (state th) (info th) (wchan th) (bprio th) (cprio th) (sched th)
    (affinity th) (imask th) (imode th) (entry th) (cookie th) (rrperiod th)
    (rrcredit th) c (user_task th) (rtimer th) (ptimer th).

Definition with_rtimer (t : xntimer) (th : xnthread) : xnthread :=
  mk_thread (state th) (info th) (wchan th) (bprio th) (cprio th) (sched th)
    (affinity th) (imask th) (imode th) (entry th) (cookie th) (rrperiod th)
    (rrcredit th) (schedlck th) (user_task th) t (ptimer th).

Definition with_ptimer (t : xntimer) (th : xnthread) : xnthread :=
  mk_thread (state th) (info th) (wchan th) (bprio th) (cprio th) (sched th)
    (affinity th) (imask th) (imode th) (entry th) (cookie th) (rrperiod th)
    (rrcredit th) (schedlck th) (user_task th) (rtimer th) t.

Definition with_threads (f : tid -> xnthread) (w : world) : world :=
  mk_world f (slots w) (nkpod w) (current_cpu w) (cpu_online_map w)
    (nkaffinity w) (rawclock w) (synch_status w) (trace w).

Definition with_slots (f : nat -> xnsched) (w : world) : world :=
  mk_world (threads w) f (nkpod w) (current_cpu w) (cpu_online_map w)
    (nkaffinity w) (rawclock w) (synch_status w) (trace w).

Definition with_pod (p : xnpod) (w : world) : world :=
  mk_world (threads w) (slots w) p (current_cpu w) (cpu_online_map w)
    (nkaffinity w) (rawclock w) (synch_status w) (trace w).

Definition emit (e : event) (w : world) : world :=
  mk_world (threads w) (slots w) (nkpod w) (current_cpu w) (cpu_online_map w)
    (nkaffinity w) (rawclock w) (synch_status w) (trace w ++ [e]).

(** Apply [f] to the control block at address [t]. *)
Definition on_thread (t : tid) (f : xnthread -> xnthread) (w : world) : world :=
  with_threads (upd (threads w) t (f (threads w t))) w.

(** Apply [f] to the scheduler slot of CPU [c]. *)
Definition on_slot (c : nat) (f : xnsched -> xnsched) (w : world) : world :=
  with_slots (upd (slots w) c (f (slots w c))) w.

(** ** Accessors of nucleus/thread.h *)

Definition xnthread_test_state (th : xnthread) (flags : Z) : Z :=
  testbits (state th) flags.

Definition xnthread_test_info (th : xnthread) (flags : Z) : Z :=
  testbits (info th) flags.

Definition xnthread_set_state (flags : Z) (th : xnthread) : xnthread :=
  with_state (setbits (state th) flags) th.

Definition xnthread_clear_state (flags : Z) (th : xnthread) : xnthread :=
  with_state (clrbits (state th) flags) th.

Definition xnthread_set_info (flags : Z) (th : xnthread) : xnthread :=
  with_info (setbits (info th) flags) th.

Definition xnthread_clear_info (flags : Z) (th : xnthread) : xnthread :=
  with_info (clrbits (info th) flags) th.

Definition with_resched (m : Z) (s : xnsched) : xnsched :=
  mk_sched (curr s) m (status s) (runnable s) (fpuholder s).

Definition with_status (m : Z) (s : xnsched) : xnsched :=
  mk_sched (curr s) (resched s) m (runnable s) (fpuholder s).

Definition with_runnable (q : list tid) (s : xnsched) : xnsched :=
  mk_sched (curr s) (resched s) (status s) q (fpuholder s).

Definition with_fpuholder (h : option tid) (s : xnsched) : xnsched :=
  mk_sched (curr s) (resched s) (status s) (runnable s) h.

Definition with_threadq (q : list tid) (rev : Z) (p : xnpod) : xnpod :=
  mk_pod q rev (tstartq p) (tswitchq p) (tdeleteq p).

Definition is_some {A : Type} (o : option A) : bool :=
  match o with Some _ => true | None => false end.

(** ** Collaborators with a model

    The pod calls into the scheduling class, the synch layer, the timer
    wheel and its own inline helpers.  None of them is among the sources;
    what follows is the part of each that acts on the pod's data model. *)

(** Modelled from the spec: xnsched_set_resched of nucleus/sched.h is
    missing.  A slot's resched mask is "this slot's own bit plus peers it
    has poked": the bit of the target slot is raised in the mask of the
    slot of the calling CPU. *)
Definition xnsched_set_resched (cpu : nat) (w : world) : world :=
  on_slot (current_cpu w)
    (fun s => with_resched (setbits (resched s) (Z.shiftl 1 (Z.of_nat cpu))) s) w.

(** Modelled from the spec: the scheduling class's enqueue is missing.  The
    thread joins the ready queue of its slot; the order inside the queue
    is the class's policy and is not modelled. *)
Definition xnsched_enqueue (thread : tid) (w : world) : world :=
  on_slot (sched (threads w thread))
    (fun s => with_runnable (runnable s ++ [thread]) s) w.

(** Modelled from the spec: the scheduling class's dequeue is missing.  The
    thread leaves the ready queue of its slot. *)
Definition xnsched_dequeue (thread : tid) (w : world) : world :=
  on_slot (sched (threads w thread))
    (fun s => with_runnable (remove Nat.eq_dec thread (runnable s)) s) w.

(** Modelled from the spec: the scheduling class's putback is missing.  It
    "reinserts [the thread] into the ready queue to reflect its new
    position": a queued thread is taken out, one that is not queued gets
    READY, then the thread is enqueued and its slot flagged. *)
Definition xnsched_putback (thread : tid) (w : world) : world :=
  let w1 :=
    if nz (xnthread_test_state (threads w thread) XNREADY)
    then xnsched_dequeue thread w
    else on_thread thread (xnthread_set_state XNREADY) w in
  let w2 := xnsched_enqueue thread w1 in
  xnsched_set_resched (sched (threads w2 thread)) w2.

(** Modelled from the spec: xnsynch_forget_sleeper of the synch layer is
    missing.  The thread stops sleeping on its wait channel: the channel
    pointer is cleared, and with it PEND, since PEND holds exactly while
    the wait channel is set.  The queues of the synchronization object
    are not part of the data model. *)
Definition xnsynch_forget_sleeper (thread : tid) (w : world) : world :=
  on_thread thread
    (fun th => with_wchan None (xnthread_clear_state XNPEND th)) w.

(** Modelled from the spec: the accessors of nucleus/timer.h are missing. *)
Definition xntimer_running_p (tm : xntimer) : bool := tm_running tm.

Definition xntimer_pexpect (tm : xntimer) : Z := tm_pexpect tm.

Definition xntimer_set_sched (tm : xntimer) (cpu : nat) : xntimer :=
  mk_timer (tm_running tm) cpu (tm_pexpect tm) (tm_interval tm).

Definition xntimer_stop (tm : xntimer) : xntimer :=
  mk_timer false (tm_sched tm) (tm_pexpect tm) (tm_interval tm).

Definition xntimer_destroy (tm : xntimer) : xntimer := xntimer_stop tm.

(** xnpod_current_sched(), xnpod_current_thread(), xnpod_current_p(). *)
Definition xnpod_current_sched (w : world) : xnsched := slots w (current_cpu w).

Definition xnpod_current_thread (w : world) : tid := curr (xnpod_current_sched w).

Definition xnpod_current_p (thread : tid) (w : world) : bool :=
  Nat.eqb (xnpod_current_thread w) thread.

(** Modelled from the spec: xnpod_userspace_p of nucleus/pod.h is missing.
    The caller is a user-space context when it runs neither an interrupt
    handler nor a callout and the current thread is the root thread or a
    shadow. *)
Definition xnpod_userspace_p (w : world) : bool :=
  negb (nz (testbits (status (xnpod_current_sched w)) (Z.lor XNKCOUT XNINIRQ)))
  && nz (xnthread_test_state (threads w (xnpod_current_thread w))
           (Z.lor XNROOT XNSHADOW)).

(** Modelled from the spec: xnpod_lock_sched of nucleus/pod.h is missing.
    The scheduler lock nests: the count of the current thread goes up, and
    the first level sets LOCK. *)
Definition xnpod_lock_sched (w : world) : world :=
  on_thread (xnpod_current_thread w)
    (fun th =>
       with_schedlck (schedlck th + 1)
         (if schedlck th =? 0 then xnthread_set_state XNLOCK th else th)) w.

(** xnarch_first_cpu(mask): the lowest CPU of a non-empty mask. *)
Definition xnarch_first_cpu (mask : Z) : nat :=
  Z.to_nat (Z.log2 (Z.land mask (- mask))).

(** ** Collaborators without a model

    The timer wheel decides whether a date can still be armed and counts
    overruns; the heap may be exhausted; the rescheduling procedure hands
    the CPU to other threads, which run any service before the caller
    resumes; releasing ownerships wakes up sleepers of the synch layer;
    the shadow bridge starts a user-space mate.  These are parameters. *)

Class Collaborators : Type := {
  (** xntimer_start(timer, value, interval, mode), with the clock it reads:
      the error code and the timer afterwards *)
  xntimer_start : Z -> xntimer -> Z -> Z -> xntmode -> Z * xntimer;
  (** xntimer_get_overruns(timer, now): the count and the timer afterwards *)
  xntimer_get_overruns : xntimer -> Z -> Z * xntimer;
  (** whether xnmalloc() finds room for a hook record *)
  xnmalloc : world -> bool;
  xnpod_schedule : world -> world;
  xnsynch_release_all_ownerships : tid -> world -> world;
  xnshadow_start : tid -> world -> world
}.

(** ** Hook queues *)

(** Modelled from the spec: the queue primitives of nucleus/queue.h are
    missing.  A queue is the list of its elements from the head;
    getheadq/nextq walk it from the head, prependq puts the new element at
    the head, removeq takes one element out. *)
Definition prependq {A : Type} (q : list A) (x : A) : list A := x :: q.

Definition emptyq_p {A : Type} (q : list A) : bool :=
  match q with [] => true | _ => false end.

Inductive hookq_id : Type := Q_START | Q_SWITCH | Q_DELETE.

Definition hookq_eqb (a b : hookq_id) : bool :=
  match a, b with
  | Q_START, Q_START | Q_SWITCH, Q_SWITCH | Q_DELETE, Q_DELETE => true
  | _, _ => false
  end.

(** The switch on the hook type of add_hook and remove_hook. *)
Definition select_hookq (type : Z) : option hookq_id :=
  if type =? XNHOOK_THREAD_START then Some Q_START
  else if type =? XNHOOK_THREAD_SWITCH then Some Q_SWITCH
  else if type =? XNHOOK_THREAD_DELETE then Some Q_DELETE
  else None.

Definition get_hookq (q : hookq_id) (p : xnpod) : list routine :=
  match q with
  | Q_START => tstartq p
  | Q_SWITCH => tswitchq p
  | Q_DELETE => tdeleteq p
  end.

Definition set_hookq (q : hookq_id) (l : list routine) (p : xnpod) : xnpod :=
  match q with
  | Q_START => mk_pod (threadq p) (threadq_rev p) l (tswitchq p) (tdeleteq p)
  | Q_SWITCH => mk_pod (threadq p) (threadq_rev p) (tstartq p) l (tdeleteq p)
  | Q_DELETE => mk_pod (threadq p) (threadq_rev p) (tstartq p) (tswitchq p) l
  end.

(** The search loop of remove_hook: the queue without the first record
    whose routine is [r], or nothing when no record has it. *)
Fixpoint remove_first_hook (r : routine) (q : list routine) : option (list routine) :=
  match q with
  | [] => None
  | h :: rest =>
      if h =? r then Some rest
      else match remove_first_hook r rest with
           | Some rest' => Some (h :: rest')
           | None => None
           end
  end.

(** xnpod_fire_callouts: the routines of the queue are called from the
    head on, with KCOUT raised in the slot of the calling CPU.  A call is
    recorded in the trace; what the user routine does is its own. *)
Definition xnpod_fire_callouts (hookq : list routine) (thread : tid) (w : world) : world :=
  let cpu := current_cpu w in
  let w1 := on_slot cpu (fun s => with_status (setbits (status s) XNKCOUT) s) w in
  let w2 := fold_left (fun acc r => emit (EvCallout r thread) acc) hookq w1 in
  on_slot cpu (fun s => with_status (clrbits (status s) XNKCOUT) s) w2.

(** The routines called by the events of a trace, in call order. *)
Definition callouts (tr : list event) : list routine :=
  flat_map (fun e => match e with EvCallout r _ => [r] | _ => [] end) tr.

(** ** The services of pod.c *)

Section PodServices.

Context (cfg : config) {col : Collaborators}.

(** __xnpod_giveup_fpu: empty without CONFIG_XENO_HW_FPU. *)
Definition xnpod_giveup_fpu (cpu : nat) (thread : tid) (w : world) : world :=
  if CONFIG_XENO_HW_FPU cfg then
    match fpuholder (slots w cpu) with
    | Some h => if Nat.eqb thread h
                then on_slot cpu (with_fpuholder None) w
                else w
    | None => w
    end
  else w.

(** *** xnpod_suspend_thread *)

(** From the test of READY to the end of the function. *)
Definition suspend_block (thread : tid) (cpu : nat) (mask : Z)
    (wchan : option nat) (w : world) : world :=
  let w1 :=
    if nz (xnthread_test_state (threads w thread) XNREADY)
    then on_thread thread (xnthread_clear_state XNREADY)
           (xnsched_dequeue thread w)
    else w in
  let w2 := on_thread thread (xnthread_set_state mask) w1 in
  let w3 :=
    match wchan with
    | Some c => on_thread thread (with_wchan (Some c)) w2
    | None => w2
    end in
  if Nat.eqb thread (curr (slots w3 cpu)) then xnpod_schedule w3
  else if CONFIG_XENO_OPT_PERVASIVE cfg
          && (xnthread_test_state (threads w3 thread)
                (Z.lor XNSHADOW (Z.lor XNRELAX XNDORMANT))
              =? Z.lor XNSHADOW XNRELAX)
          && nz (Z.land mask (Z.lor XNDELAY XNSUSP))
  then emit (EvShadowSuspend thread) w3
  else w3.

(** From the test of the timeout to the end of the function. *)
Definition suspend_arm (thread : tid) (cpu : nat) (mask timeout : Z)
    (timeout_mode : xntmode) (wchan : option nat) (w : world) : world :=
  if negb (timeout =? XN_INFINITE) || negb (xntmode_eqb timeout_mode XN_RELATIVE)
  then
    let th := threads w thread in
    let '(err, tm) :=
      xntimer_start (rawclock w) (xntimer_set_sched (rtimer th) (sched th))
        timeout XN_INFINITE timeout_mode in
    let w1 := on_thread thread (with_rtimer tm) w in
    if nz err then
      (* (absolute) timeout value in the past, bail out. *)
      let w2 :=
        match wchan with
        | Some c =>
            xnsynch_forget_sleeper thread
              (on_thread thread (with_wchan (Some c)) w1)
        | None => w1
        end in
      on_thread thread (xnthread_set_info XNTIMEO) w2
    else
      suspend_block thread cpu mask wchan
        (on_thread thread (xnthread_set_state XNDELAY) w1)
  else suspend_block thread cpu mask wchan w.

Definition xnpod_suspend_thread (thread : tid) (mask timeout : Z)
    (timeout_mode : xntmode) (wchan : option nat) (w : world) : world :=
  let cpu := sched (threads w thread) in
  let w1 :=
    if Nat.eqb thread (curr (slots w cpu))
    then xnsched_set_resched cpu w
    else w in
  (* Is the thread ready to run? *)
  if negb (nz (xnthread_test_state (threads w1 thread) XNTHREAD_BLOCK_BITS))
  then
    if CONFIG_XENO_OPT_PERVASIVE cfg
       && nz (xnthread_test_info (threads w1 thread) XNKICKED)
    then
      on_thread thread
        (fun th => xnthread_set_info XNBREAK
                     (xnthread_clear_info (Z.lor XNRMID XNTIMEO) th)) w1
    else
      suspend_arm thread cpu mask timeout timeout_mode wchan
        (on_thread thread
           (xnthread_clear_info
              (Z.lor XNRMID (Z.lor XNTIMEO (Z.lor XNBREAK (Z.lor XNWAKEN XNROBBED)))))
           w1)
  else suspend_arm thread cpu mask timeout timeout_mode wchan w1.

(** *** xnpod_resume_thread *)

(** Label enqueue. *)
Definition resume_enqueue (thread : tid) (cpu : nat) (w : world) : world :=
  xnsched_set_resched cpu
    (on_thread thread (xnthread_set_state XNREADY) (xnsched_enqueue thread w)).

(** Label clear_wchan. *)
Definition resume_clear_wchan (thread : tid) (cpu : nat) (mask : Z)
    (w : world) : world :=
  resume_enqueue thread cpu
    (if nz (Z.land mask (Z.lnot XNDELAY)) && is_some (wchan (threads w thread))
     then xnsynch_forget_sleeper thread w
     else w).

Definition stop_rtimer (th : xnthread) : xnthread :=
  with_rtimer (xntimer_stop (rtimer th)) th.

Definition xnpod_resume_thread (thread : tid) (mask : Z) (w : world) : world :=
  let cpu := sched (threads w thread) in
  if negb (nz (xnthread_test_state (threads w thread) XNTHREAD_BLOCK_BITS))
  then
    resume_enqueue thread cpu
      (if nz (xnthread_test_state (threads w thread) XNREADY)
       then xnsched_dequeue thread w
       else w)
  else
    (* Clear the specified block bit(s) *)
    let w1 := on_thread thread (xnthread_clear_state mask) w in
    let w2 :=
      if nz (Z.land mask XNDELAY) then on_thread thread stop_rtimer w1 else w1 in
    if negb (nz (xnthread_test_state (threads w2 thread) XNTHREAD_BLOCK_BITS))
    then resume_clear_wchan thread cpu mask w2
    else if nz (Z.land mask XNDELAY) then
      let mask' := xnthread_test_state (threads w2 thread) XNPEND in
      if mask' =? 0 then w2
      else if is_some (wchan (threads w2 thread)) then
        let w3 := xnsynch_forget_sleeper thread w2 in
        if nz (xnthread_test_state (threads w3 thread) XNTHREAD_BLOCK_BITS)
        then w3
        else resume_clear_wchan thread cpu mask' w3
      else resume_clear_wchan thread cpu mask' w2
    else if nz (xnthread_test_state (threads w2 thread) XNDELAY) then
      let w3 :=
        if nz (Z.land mask XNPEND)
        then on_thread thread
               (fun th => xnthread_clear_state XNDELAY (stop_rtimer th)) w2
        else w2 in
      if nz (xnthread_test_state (threads w3 thread) XNTHREAD_BLOCK_BITS)
      then w3
      else resume_clear_wchan thread cpu mask w3
    else
      (* The thread is still suspended, but is no more pending on a
         resource. *)
      if nz (Z.land mask XNPEND) && is_some (wchan (threads w2 thread))
      then xnsynch_forget_sleeper thread w2
      else w2.

(** *** xnpod_unblock_thread *)

Definition xnpod_unblock_thread (thread : tid) (w : world) : Z * world :=
  let '(ret, w1) :=
    if nz (xnthread_test_state (threads w thread) XNDELAY)
    then (1, xnpod_resume_thread thread XNDELAY w)
    else if nz (xnthread_test_state (threads w thread) XNPEND)
    then (1, xnpod_resume_thread thread XNPEND w)
    else (0, w) in
  (ret, if nz ret then on_thread thread (xnthread_set_info XNBREAK) w1 else w1).

(** *** xnpod_start_thread *)

Definition xnpod_start_thread (thread : tid) (mode imask aff entry cookie : Z)
    (w : world) : Z * world :=
  if negb (nz (xnthread_test_state (threads w thread) XNDORMANT))
  then (- EBUSY, w)
  else
    (* xnarch_cpus_and(affinity, affinity, nkaffinity) *)
    let aff := Z.land aff (nkaffinity w) in
    let w1 := on_thread thread (with_affinity (cpu_online_map w)) w in
    let w2 :=
      on_thread thread
        (fun th => with_affinity (Z.land aff (affinity th)) th) w1 in
    if affinity (threads w2 thread) =? 0 then (- EINVAL, w2)
    else
      let w3 :=
        if CONFIG_SMP cfg
           && negb (Z.testbit (affinity (threads w2 thread))
                      (Z.of_nat (sched (threads w2 thread))))
        then on_thread thread
               (fun th => with_sched (xnarch_first_cpu (affinity th)) th) w2
        else w2 in
      if nz (xnthread_test_state (threads w3 thread) XNSTARTED)
      then (- EBUSY, w3)
      else
        let mode :=
          if CONFIG_XENO_OPT_ISHIELD cfg then mode else clrbits mode XNSHIELD in
        let w4 :=
          on_thread thread
            (xnthread_set_state
               (Z.lor (Z.land mode (Z.lor XNTHREAD_MODE_BITS XNSUSP)) XNSTARTED))
            w3 in
        let w5 :=
          on_thread thread
            (with_start_params imask (Z.land mode XNTHREAD_MODE_BITS) entry cookie)
            w4 in
        let w6 :=
          if nz (xnthread_test_state (threads w5 thread) XNRRB)
          then on_thread thread (fun th => with_rrcredit (rrperiod th) th) w5
          else w5 in
        if CONFIG_XENO_OPT_PERVASIVE cfg
           && nz (xnthread_test_state (threads w6 thread) XNSHADOW)
        then (0, xnpod_schedule (xnshadow_start thread w6))
        else
          (* Setup the initial stack frame. *)
          let w7 := emit (EvArchInitThread thread) w6 in
          let w8 := xnpod_resume_thread thread XNDORMANT w7 in
          let w9 :=
            if negb (emptyq_p (tstartq (nkpod w8)))
               && negb (nz (xnthread_test_state (threads w8 thread) XNROOT))
            then xnpod_fire_callouts (tstartq (nkpod w8)) thread w8
            else w8 in
          (0, xnpod_schedule w9).

(** *** xnpod_delete_thread

    The revision counter of the thread list is kept as an unbounded
    integer. *)
Definition xnpod_delete_thread (thread : tid) (w : world) : world :=
  if nz (xnthread_test_state (threads w thread) XNZOMBIE)
  then w (* No double-deletion. *)
  else
    let cpu := sched (threads w thread) in
    if CONFIG_XENO_OPT_PERVASIVE cfg
       && user_task (threads w thread)
       && negb (nz (xnthread_test_state (threads w thread) XNDORMANT))
       && negb (xnpod_current_p thread w)
    then
      if negb (xnpod_userspace_p w) then emit (EvShadowSendSig thread) w else w
    else
      let w1 :=
        with_pod
          (with_threadq (remove Nat.eq_dec thread (threadq (nkpod w)))
             (threadq_rev (nkpod w) + 1) (nkpod w)) w in
      let w2 :=
        if nz (xnthread_test_state (threads w1 thread) XNREADY)
        then on_thread thread (xnthread_clear_state XNREADY)
               (xnsched_dequeue thread w1)
        else w1 in
      let w3 :=
        on_thread thread
          (fun th => with_ptimer (xntimer_destroy (ptimer th))
                       (with_rtimer (xntimer_destroy (rtimer th)) th)) w2 in
      let w4 :=
        if nz (xnthread_test_state (threads w3 thread) XNPEND)
        then xnsynch_forget_sleeper thread w3
        else w3 in
      let w5 := xnsynch_release_all_ownerships thread w4 in
      let w6 := xnpod_giveup_fpu cpu thread w5 in
      let w7 := on_thread thread (xnthread_set_state XNZOMBIE) w6 in
      if Nat.eqb (curr (slots w7 cpu)) thread
      then xnpod_schedule (xnsched_set_resched cpu w7)
      else if negb (CONFIG_XENO_HW_UNLOCKED_SWITCH cfg)
              || (negb (nz (testbits (status (slots w7 cpu)) XNSWLOCK))
                  && negb (nz (xnthread_test_state (threads w7 thread) XNMIGRATE)))
      then
        let w8 :=
          if negb (emptyq_p (tdeleteq (nkpod w7)))
             && negb (nz (xnthread_test_state (threads w7 thread) XNROOT))
          then xnpod_fire_callouts (tdeleteq (nkpod w7)) thread w7
          else w7 in
        let w9 := emit (EvFinalizeNoSwitch thread) (emit (EvCleanupTcb thread) w8) in
        if nz (xnthread_test_state (threads w9 (curr (slots w9 cpu))) XNROOT)
        then emit EvFreeSync w9
        else w9
      else w7.

(** *** xnpod_renice_thread *)

Definition xnpod_renice_thread_inner (thread : tid) (prio propagate : Z)
    (w : world) : world :=
  let oldprio := cprio (threads w thread) in
  let w1 := on_thread thread (with_bprio prio) w in
  let w2 :=
    if negb (nz (xnthread_test_state (threads w1 thread) XNBOOST))
       || (prio >? oldprio)
    then
      let w3 := on_thread thread (with_cprio prio) w1 in
      let w4 :=
        match wchan (threads w3 thread) with
        | Some c =>
            if negb (prio =? oldprio)
               && negb (nz (testbits (synch_status w3 c) XNSYNCH_DREORD))
            then emit (EvSynchRenice thread) w3
            else w3
        | None => w3
        end in
      if negb (nz (xnthread_test_state (threads w4 thread)
                     (Z.lor XNTHREAD_BLOCK_BITS XNLOCK)))
      then xnsched_putback thread w4
      else w4
    else w1 in
  if CONFIG_XENO_OPT_PERVASIVE cfg && nz propagate then
    if nz (xnthread_test_state (threads w2 thread) XNRELAX)
    then emit (EvShadowRenice thread) w2
    else if nz (xnthread_test_state (threads w2 thread) XNSHADOW)
    then on_thread thread (xnthread_set_info XNPRIOSET) w2
    else w2
  else w2.

Definition xnpod_renice_thread (thread : tid) (prio : Z) (w : world) : world :=
  xnpod_renice_thread_inner thread prio 1 w.

(** *** xnpod_set_thread_mode: the old mode and the world afterwards *)

Definition xnpod_set_thread_mode (thread : tid) (clrmask setmask : Z)
    (w : world) : Z * world :=
  let current := xnpod_current_thread w in
  let setmask :=
    if CONFIG_XENO_OPT_ISHIELD cfg then setmask else clrbits setmask XNSHIELD in
  let oldmode := Z.land (state (threads w thread)) XNTHREAD_MODE_BITS in
  let w1 :=
    on_thread thread
      (xnthread_clear_state (Z.land clrmask XNTHREAD_MODE_BITS)) w in
  let w2 :=
    on_thread thread
      (xnthread_set_state (Z.land setmask XNTHREAD_MODE_BITS)) w1 in
  let w3 :=
    if Nat.eqb current thread then
      if negb (nz (Z.land oldmode XNLOCK)) then
        if nz (xnthread_test_state (threads w2 thread) XNLOCK)
        then xnpod_lock_sched w2 (* Actually grab the scheduler lock. *)
        else w2
      else if negb (nz (xnthread_test_state (threads w2 thread) XNLOCK))
      then on_thread thread (with_schedlck 0) w2
      else w2
    else w2 in
  let w4 :=
    if negb (nz (Z.land oldmode XNRRB))
       && nz (xnthread_test_state (threads w3 thread) XNRRB)
    then on_thread thread (fun th => with_rrcredit (rrperiod th) th) w3
    else w3 in
  let w5 :=
    if CONFIG_XENO_OPT_ISHIELD cfg
       && Nat.eqb current thread
       && nz (xnthread_test_state (threads w4 thread) XNSHADOW)
       && nz (Z.land (Z.lor clrmask setmask) XNSHIELD)
    then emit EvShadowResetShield w4
    else w4 in
  (oldmode, w5).

(** *** xnpod_add_hook, xnpod_remove_hook *)

Definition xnpod_add_hook (type : Z) (r : routine) (w : world) : Z * world :=
  match select_hookq type with
  | None => (- EINVAL, w)
  | Some q =>
      if xnmalloc w
      then (0, with_pod (set_hookq q (prependq (get_hookq q (nkpod w)) r) (nkpod w)) w)
      else (- ENOMEM, w)
  end.

Definition xnpod_remove_hook (type : Z) (r : routine) (w : world) : Z * world :=
  match select_hookq type with
  | None => (- EINVAL, w)
  | Some q =>
      match remove_first_hook r (get_hookq q (nkpod w)) with
      | Some l => (0, with_pod (set_hookq q l (nkpod w)) w)
      | None => (- EINVAL, w)
      end
  end.

(** *** xnpod_wait_thread_period

    The result is the error code, what is stored through overruns_r (if
    anything), and the world afterwards; [overruns_r] tells whether the
    pointer is non-NULL. *)

(** From the call of xntimer_get_overruns on. *)
Definition wait_period_overruns (thread : tid) (overruns_r : bool) (now : Z)
    (w : world) : Z * option Z * world :=
  let '(overruns, tm) := xntimer_get_overruns (ptimer (threads w thread)) now in
  let w1 := on_thread thread (with_ptimer tm) w in
  (if nz overruns then - ETIMEDOUT else 0,
   if overruns_r then Some overruns else None,
   w1).

Definition xnpod_wait_thread_period (overruns_r : bool) (w : world)
    : Z * option Z * world :=
  let thread := xnpod_current_thread w in
  if negb (xntimer_running_p (ptimer (threads w thread)))
  then (- EWOULDBLOCK, None, w)
  else
    let now := rawclock w in
    if xnsticks (now - xntimer_pexpect (ptimer (threads w thread))) <? 0 then
      let w1 := xnpod_suspend_thread thread XNDELAY XN_INFINITE XN_RELATIVE None w in
      if nz (xnthread_test_info (threads w1 thread) XNBREAK)
      then (- EINTR, None, w1)
      else wait_period_overruns thread overruns_r (rawclock w1) w1
    else wait_period_overruns thread overruns_r now w.

End PodServices.

(** ** The five operations of the thread state machine *)

Inductive operation : Type :=
| OpSuspend (thread : tid) (mask timeout : Z) (timeout_mode : xntmode)
    (wchan : option nat)
| OpResume (thread : tid) (mask : Z)
| OpUnblock (thread : tid)
| OpStart (thread : tid) (mode imask aff entry cookie : Z)
| OpDelete (thread : tid).

Definition run_operation (cfg : config) {col : Collaborators}
    (w : world) (op : operation) : world :=
  match op with
  | OpSuspend t mask timeout tmode wchan =>
      xnpod_suspend_thread cfg t mask timeout tmode wchan w
  | OpResume t mask => xnpod_resume_thread t mask w
  | OpUnblock t => snd (xnpod_unblock_thread t w)
  | OpStart t mode imask aff entry cookie =>
      snd (xnpod_start_thread cfg t mode imask aff entry cookie w)
  | OpDelete t => xnpod_delete_thread cfg t w
  end.

(** A suspension is admissible when its mask is made of blocking bits and
    a wait channel comes with PEND; the other operations take any
    argument. *)
Definition admissible (op : operation) : Prop :=
  match op with
  | OpSuspend _ mask _ _ wchan =>
      Z.ldiff mask XNTHREAD_BLOCK_BITS = 0
      /\ (Z.land mask XNPEND <> 0 -> wchan <> None)
  | _ => True
  end.

(** ** Invariants *)

(** READY together with a blocking bit. *)
Definition ready_and_blocked (th : xnthread) : bool :=
  nz (xnthread_test_state th XNREADY)
  && nz (xnthread_test_state th XNTHREAD_BLOCK_BITS).

(** PEND comes with a wait channel. *)
Definition pend_ok (th : xnthread) : Prop :=
  nz (xnthread_test_state th XNPEND) = true -> wchan th <> None.

(** The two invariants of a control block that the state machine keeps
    together: READY excludes the blocking bits, and PEND comes with a wait
    channel. *)
Definition thread_ok (th : xnthread) : Prop :=
  ready_and_blocked th = false /\ pend_ok th.

Definition pod_ok (w : world) : Prop := forall t, thread_ok (threads w t).

(** What a property of the world needs from the collaborators that are
    parameters. *)
Definition collaborators_keep (col : Collaborators) (P : world -> Prop) : Prop :=
  (forall w, P w -> P (xnpod_schedule w))
  /\ (forall t w, P w -> P (xnsynch_release_all_ownerships t w))
  /\ (forall t w, P w -> P (xnshadow_start t w)).

(** ** Sample collaborators and worlds *)

(** A timer wheel that arms any relative delay and refuses an absolute
    date that is not ahead of the clock. *)
Definition sample_timer_start (now : Z) (tm : xntimer) (value interval : Z)
    (mode : xntmode) : Z * xntimer :=
  match mode with
  | XN_RELATIVE => (0, mk_timer true (tm_sched tm) (tm_pexpect tm) interval)
  | _ =>
      if value <=? now then (- ETIMEDOUT, tm)
      else (0, mk_timer true (tm_sched tm) (tm_pexpect tm) interval)
  end.

(** Overruns: the whole periods elapsed since the expected release. *)
Definition sample_get_overruns (tm : xntimer) (now : Z) : Z * xntimer :=
  let delta := now - tm_pexpect tm in
  let n := if (0 <? tm_interval tm) && (tm_interval tm <=? delta)
           then delta / tm_interval tm else 0 in
  (n, mk_timer (tm_running tm) (tm_sched tm)
        (tm_pexpect tm + tm_interval tm * (n + 1)) (tm_interval tm)).

(** Collaborators that leave the pod as it is: nobody else runs. *)
Definition quiet : Collaborators := {|
  xntimer_start := sample_timer_start;
  xntimer_get_overruns := sample_get_overruns;
  xnmalloc := fun _ => true;
  xnpod_schedule := fun w => w;
  xnsynch_release_all_ownerships := fun _ w => w;
  xnshadow_start := fun t w => xnpod_resume_thread t XNDORMANT w
|}.

(** Collaborators where, each time the current thread gives up the CPU,
    another thread unblocks it and the clock moves on. *)
Definition interrupting : Collaborators := {|
  xntimer_start := sample_timer_start;
  xntimer_get_overruns := sample_get_overruns;
  xnmalloc := fun _ => true;
  xnpod_schedule := fun w => snd (xnpod_unblock_thread (xnpod_current_thread w) w);
  xnsynch_release_all_ownerships := fun _ w => w;
  xnshadow_start := fun t w => xnpod_resume_thread t XNDORMANT w
|}.

(** Collaborators where the heap is exhausted. *)
Definition starved : Collaborators := {|
  xntimer_start := sample_timer_start;
  xntimer_get_overruns := sample_get_overruns;
  xnmalloc := fun _ => false;
  xnpod_schedule := fun w => w;
  xnsynch_release_all_ownerships := fun _ w => w;
  xnshadow_start := fun t w => xnpod_resume_thread t XNDORMANT w
|}.

Definition all_on : config := mk_config true true true true true.
Definition all_off : config := mk_config false false false false false.

Definition idle_timer : xntimer := mk_timer false 0%nat 0 0.

(** A control block with the given state and information words. *)
Definition sample_thread (st inf : Z) (chan : option nat) : xnthread :=
  mk_thread st inf chan 10 10 0%nat 1 0 0 0 0 0 0 0 false idle_timer idle_timer.

(** One CPU; thread 0 is the root thread and runs, the thread at address
    1 is as given, every other address holds a dormant block. *)
Definition sample_world (th1 : xnthread) : world :=
  mk_world
    (fun t => match t with
              | O => sample_thread XNROOT 0 None
              | S O => th1
              | _ => sample_thread XNDORMANT 0 None
              end)
    (fun _ => mk_sched 0%nat 0 0 [] None)
    (mk_pod [0%nat; 1%nat] 2 [] [] [])
    0%nat 1 1 100 (fun _ => 0) [].

(** The same world with the thread at address 1 running. *)
Definition sample_world_running (th1 : xnthread) : world :=
  with_slots (fun _ => mk_sched 1%nat 0 0 [] None) (sample_world th1).

(** The sample world with routines in the start and delete queues. *)
Definition hooked_world : world :=
  with_pod (mk_pod [0%nat; 1%nat] 2 [5; 7; 9; 7] [] [4])
    (sample_world (sample_thread XNDORMANT 0 None)).

(** Successive registrations of routines under one hook type. *)
Definition add_hooks {col : Collaborators} (type : Z) (rs : list routine)
    (w : world) : world :=
  fold_left (fun acc r => snd (xnpod_add_hook type r acc)) rs w.

(** Two worlds whose threads look the same through [v]. *)
Definition same_view {A : Type} (v : xnthread -> A) (w0 w1 : world) : Prop :=
  forall t, v (threads w1 t) = v (threads w0 t).

(** Two worlds that differ in the control block at [thread] at most. *)
Definition same_except (thread : tid) (w0 w1 : world) : Prop :=
  forall t, t <> thread -> threads w1 t = threads w0 t.


(** ** Further services of pod.c *)

Definition EPERM : Z := 1.

Definition with_rr (period credit : Z) (th : xnthread) : xnthread :=
  mk_thread (state th) (info th) (wchan th) (bprio th) (cprio th) (sched th)
    (affinity th) (imask th) (imode th) (entry th) (cookie th) period
    credit (schedlck th) (user_task th) (rtimer th) (ptimer th).

(** xnpod_activate_rr: the walk over the thread list of the pod. *)
Definition xnpod_activate_rr (quantum : Z) (w : world) : world :=
  fold_left
    (fun acc thread =>
       if nz (xnthread_test_state (threads acc thread) XNRRB)
       then on_thread thread (with_rr quantum quantum) acc
       else acc)
    (threadq (nkpod w)) w.

(** xnpod_deactivate_rr *)
Definition xnpod_deactivate_rr (w : world) : world :=
  fold_left
    (fun acc thread =>
       if nz (xnthread_test_state (threads acc thread) XNRRB)
       then on_thread thread (with_rrcredit XN_INFINITE) acc
       else acc)
    (threadq (nkpod w)) w.

(** Modelled from the spec: xnpod_asynch_p and xnpod_locked_p of
    nucleus/pod.h are missing.  The caller is in an asynchronous context
    when its slot runs an interrupt handler or a callout; the scheduler is
    locked when the current thread holds LOCK. *)
Definition xnpod_asynch_p (w : world) : bool :=
  nz (testbits (status (xnpod_current_sched w)) (Z.lor XNKCOUT XNINIRQ)).

Definition xnpod_locked_p (w : world) : bool :=
  nz (xnthread_test_state (threads w (xnpod_current_thread w)) XNLOCK).

(** Modelled from the spec: xnsched_resched_p of nucleus/sched.h is
    missing: a slot needs rescheduling when its resched mask is not
    empty. *)
Definition xnsched_resched_p (s : xnsched) : bool := negb (resched s =? 0).

(** __xnpod_test_resched on the slot of CPU [cpu]: the result, the mask
    the resched IPI is sent to (if one is sent), and the slot afterwards. *)
Definition xnpod_test_resched (smp : bool) (cpu : nat) (s : xnsched)
    : Z * option Z * xnsched :=
  let r := if Z.testbit (resched s) (Z.of_nat cpu) then 1 else 0 in
  let s1 := with_resched (clrbits (resched s) (Z.shiftl 1 (Z.of_nat cpu))) s in
  if smp && xnsched_resched_p s1
  then (r, Some (resched s1), with_resched 0 s1)
  else (r, None, s1).

(** What the FPU unit of a CPU is asked to do. *)
Inductive fpu_action : Type :=
| FpuSave (thread : tid)
| FpuRestore (thread : tid)
| FpuEnable (thread : tid)
| FpuInit (thread : tid).

Section MorePodServices.

Context (cfg : config) {col : Collaborators}.

(** xnpod_abort_thread *)
Definition xnpod_abort_thread (thread : tid) (w : world) : world :=
  let w1 :=
    if negb (xnpod_current_p thread w)
    then xnpod_suspend_thread cfg thread XNDORMANT XN_INFINITE XN_RELATIVE None w
    else w in
  xnpod_delete_thread cfg thread w1.

(** __xnpod_release_fpu: empty without CONFIG_XENO_HW_FPU.  The save of
    the registers goes to the backup area of the thread, which the data
    model does not hold. *)
Definition xnpod_release_fpu (thread : tid) (w : world) : world :=
  if CONFIG_XENO_HW_FPU cfg then
    if nz (xnthread_test_state (threads w thread) XNFPU)
    then on_slot (sched (threads w thread)) (with_fpuholder None) w
    else w
  else w.

(** xnpod_migrate_thread: the error code and the world afterwards.  The
    reset of the execution time statistics is outside the data model. *)
Definition xnpod_migrate_thread (cpu : nat) (w : world) : Z * world :=
  if xnpod_asynch_p w then (- EPERM, w)
  else if xnpod_locked_p w then (- EBUSY, w)
  else
    let thread := xnpod_current_thread w in
    if negb (Z.testbit (affinity (threads w thread)) (Z.of_nat cpu))
    then (- EPERM, w)
    else if Nat.eqb cpu (current_cpu w) then (0, w)
    else
      let w1 := xnpod_release_fpu thread w in
      let w2 :=
        if nz (xnthread_test_state (threads w1 thread) XNREADY)
        then on_thread thread (xnthread_clear_state XNREADY)
               (xnsched_dequeue thread w1)
        else w1 in
      let w3 := xnsched_set_resched (sched (threads w2 thread)) w2 in
      let w4 := on_thread thread (with_sched cpu) w3 in
      (* Migrate the thread periodic timer. *)
      let w5 :=
        on_thread thread
          (fun th => with_ptimer (xntimer_set_sched (ptimer th) (sched th)) th) w4 in
      let w6 :=
        if CONFIG_XENO_HW_UNLOCKED_SWITCH cfg
        then on_thread thread (xnthread_set_state XNMIGRATE) w5
        else xnsched_putback thread w5 in
      (0, xnpod_schedule w6).

(** __xnpod_switch_fpu on the slot of CPU [cpu]; [fpu_ptr] gives the
    backup area of a thread (xnarch_fpu_ptr of its architecture block). *)
Definition xnpod_switch_fpu (fpu_ptr : tid -> Z) (cpu : nat) (w : world)
    : list fpu_action * world :=
  if negb (CONFIG_XENO_HW_FPU cfg) then ([], w)
  else
    let current := curr (slots w cpu) in
    if negb (nz (xnthread_test_state (threads w current) XNFPU)) then ([], w)
    else
      match fpuholder (slots w cpu) with
      | Some h =>
          if Nat.eqb h current then ([FpuEnable current], w)
          else if negb (fpu_ptr h =? fpu_ptr current)
          then ([FpuSave h; FpuRestore current],
                on_slot cpu (with_fpuholder (Some current)) w)
          else ([FpuEnable current],
                on_slot cpu (with_fpuholder (Some current)) w)
      | None =>
          ([FpuRestore current], on_slot cpu (with_fpuholder (Some current)) w)
      end.

(** __xnpod_init_fpu *)
Definition xnpod_init_fpu (fpu_ptr : tid -> Z) (cpu : nat) (thread : tid)
    (w : world) : list fpu_action * world :=
  if negb (CONFIG_XENO_HW_FPU cfg) then ([], w)
  else if nz (xnthread_test_state (threads w thread) XNFPU) then
    ((match fpuholder (slots w cpu) with
      | Some h => if negb (fpu_ptr h =? fpu_ptr thread) then [FpuSave h] else []
      | None => []
      end) ++ [FpuInit thread],
     on_slot cpu (with_fpuholder (Some thread)) w)
  else ([], w).

(** Modelled from the spec: the accessors xntimer_interval and
    xntimer_pexpect_forward of nucleus/timer.h are missing; the expected
    date is a 64-bit tick count. *)
Definition xntimer_interval (tm : xntimer) : Z := tm_interval tm.

Definition xntimer_pexpect_forward (tm : xntimer) (delta : Z) : xntimer :=
  mk_timer (tm_running tm) (tm_sched tm) ((tm_pexpect tm + delta) mod 2 ^ 64)
    (tm_interval tm).

(** xnpod_set_thread_periodic.  The time base of the thread is not in the
    data model: whether the thread is timed, whether its base is
    periodic, the latency figure nklatency and the wallclock offset of the
    base are arguments. *)
Definition xnpod_set_thread_periodic (timed periodic_base : bool)
    (nklatency wallclock_offset : Z) (thread : tid) (idate period : Z)
    (w : world) : Z * world :=
  if negb timed then (- EWOULDBLOCK, w)
  else if period =? XN_INFINITE then
    (0, if xntimer_running_p (ptimer (threads w thread))
        then on_thread thread
               (fun th => with_ptimer (xntimer_stop (ptimer th)) th) w
        else w)
  else if negb periodic_base && (period <? nklatency) then (- EINVAL, w)
  else
    let w1 :=
      on_thread thread
        (fun th => with_ptimer (xntimer_set_sched (ptimer th) (sched th)) th) w in
    if idate =? XN_INFINITE then
      let '(_, tm) :=
        xntimer_start (rawclock w1) (ptimer (threads w1 thread)) period period
          XN_RELATIVE in
      (0, on_thread thread (with_ptimer tm) w1)
    else
      let idate' := (idate - wallclock_offset) mod 2 ^ 64 in
      let '(err, tm) :=
        xntimer_start (rawclock w1) (ptimer (threads w1 thread)) idate' period
          XN_ABSOLUTE in
      let w2 := on_thread thread (with_ptimer tm) w1 in
      if nz err then (err, w2)
      else
        let w3 :=
          on_thread thread
            (fun th =>
               with_ptimer
                 (xntimer_pexpect_forward (ptimer th) (xntimer_interval (ptimer th)))
                 th) w2 in
        (0, xnpod_suspend_thread cfg thread XNDELAY XN_INFINITE XN_RELATIVE None w3).

(** xnpod_init_thread.  xnthread_init, which fills the control block, is
    not among the sources: [thread_init] stands for it, with the priority,
    the flags and the stack size it is given; XNARCH_THREAD_STACKSZ is
    the argument [default_stacksz]. *)
Definition xnpod_init_thread
    (thread_init : tid -> Z -> Z -> Z -> world -> Z * world)
    (default_stacksz : Z) (thread : tid) (prio flags stacksize : Z)
    (w : world) : Z * world :=
  if nz (Z.land flags
           (Z.lnot (Z.lor XNFPU (Z.lor XNSHADOW (Z.lor XNSHIELD XNSUSP)))))
  then (- EINVAL, w)
  else
    let flags :=
      if CONFIG_XENO_OPT_ISHIELD cfg then flags else clrbits flags XNSHIELD in
    let stacksize := if stacksize =? 0 then default_stacksz else stacksize in
    let '(err, w1) :=
      thread_init thread prio (clrbits flags XNSUSP) stacksize w in
    if nz err then (err, w1)
    else
      let w2 := on_thread thread (with_sched (current_cpu w1)) w1 in
      let w3 :=
        with_pod
          (with_threadq (threadq (nkpod w2) ++ [thread])
             (threadq_rev (nkpod w2) + 1) (nkpod w2)) w2 in
      (0, xnpod_suspend_thread cfg thread
            (Z.lor XNDORMANT (Z.land flags XNSUSP)) XN_INFINITE XN_RELATIVE None w3).

End MorePodServices.

(** ** The core time source

    xnpod_enable_timesource and xnpod_disable_timesource work on the master
    time base and on the hardware timers of the online CPUs, which the
    world of the thread services does not hold.  The calls into the
    architecture layer and the timer wheel are recorded in the order they
    are made. *)

Definition ENOSYS : Z := 38.

Inductive clock_call : Type :=
| ArchStartTimer (cpu : nat)
| ArchStopTimer (cpu : nat)
| HtimerStart (cpu : nat) (value interval : Z)
| WdtimerStart (cpu : nat)
| TimerFreeze.

Record timesource : Type := mk_timesource {
  pod_active : bool;          (* xnpod_active_p() *)
  tbase_status : Z;           (* nktbase.status *)
  tbase_wallclock_offset : Z; (* nktbase.wallclock_offset *)
  clock_calls : list clock_call
}.

Definition clock_call_made (c : clock_call) (ts : timesource) : timesource :=
  mk_timesource (pod_active ts) (tbase_status ts) (tbase_wallclock_offset ts)
    (clock_calls ts ++ [c]).

Definition with_tbase_status (s : Z) (ts : timesource) : timesource :=
  mk_timesource (pod_active ts) s (tbase_wallclock_offset ts) (clock_calls ts).

Definition with_tbase_wallclock_offset (o : Z) (ts : timesource) : timesource :=
  mk_timesource (pod_active ts) (tbase_status ts) o (clock_calls ts).

Section TimeSource.

(** The flag XNTBRUN of nucleus/timebase.h, the result of
    xnarch_start_timer for each CPU (the host tick value, or a negative
    error code), the number of online CPUs, the host time and the CPU
    time read when the time base is started, and whether the build has
    CONFIG_XENO_OPT_WATCHDOG. *)
Variable XNTBRUN : Z.
Variable xnarch_start_timer : nat -> Z.
Variable xnarch_num_online_cpus : nat.
Variable xnarch_get_host_time xnarch_get_cpu_time : Z.
Variable CONFIG_XENO_OPT_WATCHDOG : bool.

(** Modelled from the spec: xntbase_enabled_p of nucleus/timebase.h is
    missing; a time base is enabled when it is flagged as running. *)
Definition xntbase_enabled_p (ts : timesource) : bool :=
  nz (testbits (tbase_status ts) XNTBRUN).

(** while (--cpu >= 0) xnarch_stop_timer(cpu); *)
Fixpoint stop_timers_below (cpu : nat) (ts : timesource) : timesource :=
  match cpu with
  | O => ts
  | S c => stop_timers_below c (clock_call_made (ArchStopTimer c) ts)
  end.

(** The loop over the online CPUs of xnpod_enable_timesource, from CPU
    [cpu] on, with [n] CPUs left. *)
Fixpoint enable_timesource_loop (n cpu : nat) (ts : timesource) : Z * timesource :=
  match n with
  | O => (0, ts)
  | S n' =>
      let htickval := xnarch_start_timer cpu in
      let ts1 := clock_call_made (ArchStartTimer cpu) ts in
      if htickval <? 0 then (htickval, stop_timers_below cpu ts1)
      else
        let ts2 :=
          if htickval >? 1
          then clock_call_made (HtimerStart cpu htickval htickval) ts1
          else clock_call_made (HtimerStart cpu 0 0) ts1 in
        let ts3 :=
          if CONFIG_XENO_OPT_WATCHDOG
          then clock_call_made (WdtimerStart cpu) ts2
          else ts2 in
        enable_timesource_loop n' (S cpu) ts3
  end.

(** xnpod_enable_timesource.  The interrupt object set up under
    CONFIG_XENO_OPT_STATS is for statistics only and is left out; the
    wallclock offset is a 64-bit tick count. *)
Definition xnpod_enable_timesource (ts : timesource) : Z * timesource :=
  if negb (pod_active ts) then (- ENOSYS, ts)
  else
    let ts1 := with_tbase_status XNTBRUN ts in
    let ts2 :=
      with_tbase_wallclock_offset
        ((xnarch_get_host_time + xnarch_get_cpu_time) mod 2 ^ 64) ts1 in
    enable_timesource_loop xnarch_num_online_cpus 0 ts2.

(** for (cpu = 0; cpu < xnarch_num_online_cpus(); cpu++)
      xnarch_stop_timer(cpu); *)
Definition stop_all_timers (ts : timesource) : timesource :=
  fold_left (fun acc cpu => clock_call_made (ArchStopTimer cpu) acc)
    (seq 0 xnarch_num_online_cpus) ts.

(** xnpod_disable_timesource *)
Definition xnpod_disable_timesource (ts : timesource) : timesource :=
  if negb (pod_active ts) || negb (xntbase_enabled_p ts) then ts
  else
    let ts1 := with_tbase_status (clrbits (tbase_status ts) XNTBRUN) ts in
    clock_call_made TimerFreeze (stop_all_timers ts1).

End TimeSource.

(** What the calls recorded for one CPU whose hardware timer starts with
    host tick value [htickval] are. *)
Definition timer_started_calls (watchdog : bool) (start : nat -> Z) (cpu : nat)
    : list clock_call :=
  [ArchStartTimer cpu;
   if start cpu >? 1 then HtimerStart cpu (start cpu) (start cpu)
   else HtimerStart cpu 0 0]
  ++ (if watchdog then [WdtimerStart cpu] else []).

(** ** Alchemy condition variables (lib/alchemy/cond.c)

    Pointers and handles are integers, NULL being 0.  The services guard
    themselves against thread cancellation (COPPERPLATE_PROTECT), which has
    no part in their results and is left out.  The calls to the POSIX
    condition variables are recorded in the order they are made; the
    attribute object of rt_cond_create lives on the stack of the call and
    is not recorded. *)

Definition EIDRM : Z := 43.

Inductive pthread_call : Type :=
| CondInit (ccb : Z)
| CondDestroy (ccb : Z)
| CondSignal (ccb : Z)
| CondBroadcast (ccb : Z)
| CondWait (ccb mcb : Z)
| CondTimedWait (ccb mcb ts : Z).

(** struct alchemy_cond, as far as cond.c looks into it; the name is an
    opaque value. *)
Record alchemy_cond : Type := mk_alchemy_cond {
  ccb_magic : Z;
  ccb_name : Z
}.

Record cond_heap : Type := mk_cond_heap {
  rt_cond_handle : Z -> Z;     (* cond->handle of the descriptor at an address *)
  ccb_at : Z -> alchemy_cond;  (* the control block at an address *)
  pthread_calls : list pthread_call
}.

Definition updz {A : Type} (f : Z -> A) (k : Z) (v : A) : Z -> A :=
  fun x => if x =? k then v else f x.

Definition with_rt_cond_handle (cond handle : Z) (h : cond_heap) : cond_heap :=
  mk_cond_heap (updz (rt_cond_handle h) cond handle) (ccb_at h) (pthread_calls h).

Definition with_ccb_magic (ccb magic : Z) (h : cond_heap) : cond_heap :=
  mk_cond_heap (rt_cond_handle h)
    (updz (ccb_at h) ccb (mk_alchemy_cond magic (ccb_name (ccb_at h ccb))))
    (pthread_calls h).


Definition pthread_call_made (c : pthread_call) (h : cond_heap) : cond_heap :=
  mk_cond_heap (rt_cond_handle h) (ccb_at h) (pthread_calls h ++ [c]).

(** ~magic for the unsigned int magic of a control block. *)
Definition complement32 (m : Z) : Z := Z.lxor m (2 ^ 32 - 1).

Section CondServices.

(** What cond.c takes from headers and libraries that are not among the
    sources: sizeof(intptr_t), the magic of a condition variable, the two
    special timeouts, the translation between handles and addresses of
    the main heap, the name generator, the results of the POSIX calls,
    the look-up of a mutex descriptor, the conversions of dates, and the
    release of a block. *)
Variable sizeof_intptr : Z.
Variable cond_magic : Z.
Variable TM_INFINITE TM_NONBLOCK : Z.
Variable mainheap_deref mainheap_ref : Z -> Z.
Variable alchemy_build_name : Z -> Z.
Variable pthread_rc : pthread_call -> cond_heap -> Z.
Variable find_alchemy_mutex : Z -> cond_heap -> Z + Z.
Variable clockobj_ticks_to_timespec : Z -> Z.
Variable alchemy_rel2abs_timeout : Z -> Z.
Variable xnfree : Z -> cond_heap -> cond_heap.

(** ((intptr_t)p & (sizeof(intptr_t)-1)) != 0 *)
Definition misaligned (p : Z) : bool :=
  negb (Z.land p (sizeof_intptr - 1) =? 0).

(** find_alchemy_cond: the control block, or the error stored through
    err_r. *)
Definition find_alchemy_cond (cond : Z) (h : cond_heap) : Z + Z :=
  if (cond =? 0) || misaligned cond then inr (- EINVAL)
  else
    let ccb := mainheap_deref (rt_cond_handle h cond) in
    if (ccb =? 0) || misaligned ccb then inr (- EINVAL)
    else if ccb_magic (ccb_at h ccb) =? complement32 cond_magic then inr (- EIDRM)
    else if ccb_magic (ccb_at h ccb) =? cond_magic then inl ccb
    else inr (- EINVAL).


(** rt_cond_delete; the removal from the cluster is not modelled. *)
Definition rt_cond_delete (async : bool) (cond : Z) (h : cond_heap)
    : Z * cond_heap :=
  if async then (- EPERM, h)
  else
    match find_alchemy_cond cond h with
    | inr err => (err, h)
    | inl ccb =>
        let ret := - pthread_rc (CondDestroy ccb) h in
        let h1 := pthread_call_made (CondDestroy ccb) h in
        if negb (ret =? 0) then (ret, h1)
        else (ret, xnfree ccb (with_ccb_magic ccb (complement32 cond_magic) h1))
    end.

Definition rt_cond_signal (cond : Z) (h : cond_heap) : Z * cond_heap :=
  match find_alchemy_cond cond h with
  | inr err => (err, h)
  | inl ccb =>
      (- pthread_rc (CondSignal ccb) h, pthread_call_made (CondSignal ccb) h)
  end.

Definition rt_cond_broadcast (cond : Z) (h : cond_heap) : Z * cond_heap :=
  match find_alchemy_cond cond h with
  | inr err => (err, h)
  | inl ccb =>
      (- pthread_rc (CondBroadcast ccb) h, pthread_call_made (CondBroadcast ccb) h)
  end.

Definition rt_cond_wait_until (cond mutex timeout : Z) (h : cond_heap)
    : Z * cond_heap :=
  if timeout =? TM_NONBLOCK then (- EWOULDBLOCK, h)
  else
    match find_alchemy_cond cond h with
    | inr err => (err, h)
    | inl ccb =>
        match find_alchemy_mutex mutex h with
        | inr err => (err, h)
        | inl mcb =>
            let call :=
              if negb (timeout =? TM_INFINITE)
              then CondTimedWait ccb mcb (clockobj_ticks_to_timespec timeout)
              else CondWait ccb mcb in
            (- pthread_rc call h, pthread_call_made call h)
        end
    end.

Definition rt_cond_wait (cond mutex timeout : Z) (h : cond_heap) : Z * cond_heap :=
  rt_cond_wait_until cond mutex (alchemy_rel2abs_timeout timeout) h.

(** rt_cond_inquire: the error code and the name copied to info->name, if
    any. *)
Definition rt_cond_inquire (cond : Z) (h : cond_heap) : Z * option Z :=
  match find_alchemy_cond cond h with
  | inr err => (err, None)
  | inl ccb => (0, Some (ccb_name (ccb_at h ccb)))
  end.

(** rt_cond_unbind writes cond->handle without a test of the descriptor:
    for a NULL descriptor the write faults and the call has no result. *)
Definition rt_cond_unbind (cond : Z) (h : cond_heap)
    : option (Z * cond_heap) :=
  if cond =? 0 then None
  else Some (0, with_rt_cond_handle cond 0 h).

End CondServices.

(** * Properties *)

(** ** Flag words *)

Lemma nz_true (x : Z) : nz x = true <-> x <> 0.
Proof.
  unfold nz. rewrite negb_true_iff, Z.eqb_neq. reflexivity.
Qed.

Lemma nz_false (x : Z) : nz x = false <-> x = 0.
Proof.
  unfold nz. rewrite negb_false_iff, Z.eqb_eq. reflexivity.
Qed.

(** Equalities of flag words are checked bit by bit. *)
Ltac bits :=
  apply Z.bits_inj'; intros ?n ?Hn;
  repeat (rewrite ?Z.lor_spec, ?Z.land_spec, ?Z.ldiff_spec, ?Z.bits_0,
            ?Z.lnot_spec by assumption);
  try btauto.

Lemma clrbits_ldiff (s m : Z) : clrbits s m = Z.ldiff s m.
Proof. unfold clrbits. bits. Qed.

Lemma testbits_setbits (s m x : Z) :
  testbits (setbits s m) x = Z.lor (testbits s x) (testbits m x).
Proof. unfold testbits, setbits. bits. Qed.

Lemma testbits_clrbits (s m x : Z) :
  testbits (clrbits s m) x = Z.ldiff (testbits s x) m.
Proof. unfold testbits, clrbits. bits. Qed.

(** A flag word without any bit of [x] keeps none after bits are cleared. *)
Lemma testbits_clrbits_0 (s m x : Z) :
  testbits s x = 0 -> testbits (clrbits s m) x = 0.
Proof.
  intros H. rewrite testbits_clrbits, H. apply Z.ldiff_0_l.
Qed.

(** Bits of [x] found inside the part [y] of a word are found in [y]. *)
Lemma testbits_sub (s x y : Z) :
  Z.land x y = x -> testbits s y = 0 -> testbits s x = 0.
Proof.
  unfold testbits. intros Hxy H.
  rewrite <- Hxy.
  replace (Z.land s (Z.land x y)) with (Z.land (Z.land s y) x) by bits.
  rewrite H. apply Z.land_0_l.
Qed.

(** ** The world under updates *)

Lemma upd_same {A : Type} (f : nat -> A) (k : nat) (v : A) : upd f k v k = v.
Proof. unfold upd. rewrite Nat.eqb_refl. reflexivity. Qed.

Lemma upd_other {A : Type} (f : nat -> A) (k k' : nat) (v : A) :
  k' <> k -> upd f k v k' = f k'.
Proof.
  intros H. unfold upd. apply Nat.eqb_neq in H. rewrite H. reflexivity.
Qed.

Lemma threads_on_thread_same (t : tid) (f : xnthread -> xnthread) (w : world) :
  threads (on_thread t f w) t = f (threads w t).
Proof. apply upd_same. Qed.

Lemma threads_on_thread_other (t t' : tid) (f : xnthread -> xnthread) (w : world) :
  t' <> t -> threads (on_thread t f w) t' = threads w t'.
Proof. intros H. simpl. apply upd_other. exact H. Qed.

(** ** Hook registry *)

Lemma select_hookq_valid (type : Z) :
  select_hookq type <> None <->
  type = XNHOOK_THREAD_START \/ type = XNHOOK_THREAD_SWITCH
  \/ type = XNHOOK_THREAD_DELETE.
Proof.
  unfold select_hookq.
  destruct (Z.eqb_spec type XNHOOK_THREAD_START);
    destruct (Z.eqb_spec type XNHOOK_THREAD_SWITCH);
    destruct (Z.eqb_spec type XNHOOK_THREAD_DELETE);
    split; intros H; try discriminate; try tauto;
    destruct H as [H | [H | H]]; contradiction.
Qed.

Lemma get_set_hookq (q q' : hookq_id) (l : list routine) (p : xnpod) :
  get_hookq q' (set_hookq q l p) = if hookq_eqb q q' then l else get_hookq q' p.
Proof. destruct q, q'; reflexivity. Qed.

Lemma remove_first_hook_absent (r : routine) (q : list routine) :
  ~ In r q -> remove_first_hook r q = None.
Proof.
  induction q as [|h rest IH]; intros Hnot; simpl.
  - reflexivity.
  - destruct (Z.eqb_spec h r) as [->|Hne].
    + exfalso. apply Hnot. left. reflexivity.
    + rewrite IH; [reflexivity|]. intros Hin. apply Hnot. right. exact Hin.
Qed.

Lemma remove_first_hook_split (r : routine) (before after : list routine) :
  ~ In r before ->
  remove_first_hook r (before ++ r :: after) = Some (before ++ after).
Proof.
  induction before as [|h rest IH]; intros Hnot; simpl.
  - rewrite Z.eqb_refl. reflexivity.
  - destruct (Z.eqb_spec h r) as [->|Hne].
    + exfalso. apply Hnot. left. reflexivity.
    + rewrite IH; [reflexivity|]. intros Hin. apply Hnot. right. exact Hin.
Qed.

(** C10. xnpod_remove_hook answers -EINVAL for an unknown hook type and
    also for a routine that is not in the queue of a valid type, and then
    leaves the world, hence the three hook queues, as they were; when the
    routine is in the queue the answer is 0, the first record holding the
    routine is the one taken out and the two other queues are untouched. *)
Theorem remove_hook_first_match (type : Z) (r : routine) (w : world) :
  (select_hookq type = None ->
   xnpod_remove_hook type r w = (- EINVAL, w))
  /\ (forall q, select_hookq type = Some q ->
      ~ In r (get_hookq q (nkpod w)) ->
      xnpod_remove_hook type r w = (- EINVAL, w))
  /\ (forall q before after, select_hookq type = Some q ->
      get_hookq q (nkpod w) = before ++ r :: after ->
      ~ In r before ->
      fst (xnpod_remove_hook type r w) = 0
      /\ forall q', get_hookq q' (nkpod (snd (xnpod_remove_hook type r w)))
                    = if hookq_eqb q q' then before ++ after
                      else get_hookq q' (nkpod w)).
Proof.
  unfold xnpod_remove_hook. split; [|split].
  - intros ->. reflexivity.
  - intros q -> Hnot. rewrite (remove_first_hook_absent _ _ Hnot). reflexivity.
  - intros q before after -> -> Hnot.
    rewrite (remove_first_hook_split _ _ _ Hnot). simpl. split.
    + reflexivity.
    + intros q'. apply get_set_hookq.
Qed.

Lemma remove_hook_first_match_witness :
  xnpod_remove_hook 9 7 hooked_world = (- EINVAL, hooked_world)
  /\ xnpod_remove_hook XNHOOK_THREAD_SWITCH 7 hooked_world = (- EINVAL, hooked_world)
  /\ fst (xnpod_remove_hook XNHOOK_THREAD_START 7 hooked_world) = 0
  /\ tstartq (nkpod (snd (xnpod_remove_hook XNHOOK_THREAD_START 7 hooked_world)))
     = [5; 9; 7]
  /\ tdeleteq (nkpod (snd (xnpod_remove_hook XNHOOK_THREAD_START 7 hooked_world)))
     = [4].
Proof.
  split.
  { apply (proj1 (remove_hook_first_match 9 7 hooked_world)). reflexivity. }
  split.
  { apply (proj1 (proj2 (remove_hook_first_match XNHOOK_THREAD_SWITCH 7 hooked_world))
             Q_SWITCH).
    - reflexivity.
    - simpl. tauto. }
  assert (Hnot : ~ In 7 [5]) by (simpl; intros [H | []]; discriminate H).
  destruct (proj2 (proj2 (remove_hook_first_match XNHOOK_THREAD_START 7 hooked_world))
              Q_START [5] [9; 7] eq_refl eq_refl Hnot) as [H0 Hq].
  split; [exact H0|].
  split; [exact (Hq Q_START) | exact (Hq Q_DELETE)].
Defined.

(** A successful registration puts the routine at the head of the queue
    of its type and leaves the rest of the world alone. *)
Lemma add_hook_prepends {col : Collaborators} (type : Z) (q : hookq_id)
    (r : routine) (w : world) :
  select_hookq type = Some q ->
  fst (xnpod_add_hook type r w) = 0 ->
  snd (xnpod_add_hook type r w)
  = with_pod (set_hookq q (r :: get_hookq q (nkpod w)) (nkpod w)) w.
Proof.
  unfold xnpod_add_hook. intros ->.
  destruct (xnmalloc w); simpl.
  - reflexivity.
  - discriminate.
Qed.

Lemma callouts_app (a b : list event) : callouts (a ++ b) = callouts a ++ callouts b.
Proof. unfold callouts. apply flat_map_app. Qed.

Lemma trace_fold_emit (thread : tid) (q : list routine) (w : world) :
  trace (fold_left (fun acc r => emit (EvCallout r thread) acc) q w)
  = trace w ++ map (fun r => EvCallout r thread) q.
Proof.
  revert w. induction q as [|r q IH]; intros w; simpl.
  - rewrite app_nil_r. reflexivity.
  - rewrite IH. simpl. rewrite <- app_assoc. reflexivity.
Qed.

(** Firing a queue calls its routines from the head to the tail. *)
Lemma fire_callouts_order (q : list routine) (thread : tid) (w : world) :
  callouts (trace (xnpod_fire_callouts q thread w)) = callouts (trace w) ++ q.
Proof.
  unfold xnpod_fire_callouts. cbn [trace on_slot with_slots].
  rewrite trace_fold_emit. cbn [trace on_slot with_slots].
  rewrite callouts_app. f_equal.
  induction q as [|r q IH]; simpl; [reflexivity|].
  f_equal. exact IH.
Qed.

(** With a heap that never runs out, registering the routines [rs] one
    after the other leaves them in the queue in the reverse order. *)
Lemma add_hooks_reverses {col : Collaborators} (type : Z) (q : hookq_id)
    (rs : list routine) (w : world) :
  (forall w', xnmalloc w' = true) ->
  select_hookq type = Some q ->
  get_hookq q (nkpod (add_hooks type rs w)) = rev rs ++ get_hookq q (nkpod w).
Proof.
  intros Hheap Hq. unfold add_hooks. revert w.
  induction rs as [|r rs IH]; intros w; simpl.
  - reflexivity.
  - rewrite IH. unfold xnpod_add_hook. rewrite Hq, Hheap. simpl.
    rewrite get_set_hookq.
    replace (hookq_eqb q q) with true by (destruct q; reflexivity).
    unfold prependq. rewrite <- app_assoc. reflexivity.
Qed.

(** C2. Two routines, 7 then 8, are registered with success under
    THREAD_START; when the start event fires, here through
    xnpod_start_thread, routine 8 is called first and routine 7 last:
    the reverse of the order of registration. *)
Theorem hooks_fire_last_registered_first :
  let w0 := sample_world (sample_thread XNDORMANT 0 None) in
  let r1 := xnpod_add_hook (col := quiet) XNHOOK_THREAD_START 7 w0 in
  let r2 := xnpod_add_hook (col := quiet) XNHOOK_THREAD_START 8 (snd r1) in
  let started :=
    xnpod_start_thread all_off (col := quiet) 1%nat 0 0 1 0 0 (snd r2) in
  fst r1 = 0 /\ fst r2 = 0 /\ fst started = 0
  /\ tstartq (nkpod (snd r2)) = [8; 7]
  /\ callouts (trace (snd started)) = [8; 7].
Proof. vm_compute. repeat split. Qed.

(** C5. Deleting a thread that is already a zombie is a no-op: the world,
    with the thread, the thread list of the pod and every scheduler slot,
    comes back as it was, so that deleting twice is deleting once. *)
Theorem delete_zombie_is_noop (cfg : config) {col : Collaborators}
    (thread : tid) (w : world) :
  nz (xnthread_test_state (threads w thread) XNZOMBIE) = true ->
  xnpod_delete_thread cfg thread w = w
  /\ xnpod_delete_thread cfg thread (xnpod_delete_thread cfg thread w)
     = xnpod_delete_thread cfg thread w.
Proof.
  intros Hz.
  assert (H : xnpod_delete_thread cfg thread w = w).
  { unfold xnpod_delete_thread. rewrite Hz. reflexivity. }
  split; [exact H|]. rewrite H. exact H.
Qed.

Lemma delete_zombie_is_noop_witness :
  let w := sample_world (sample_thread (Z.lor XNSTARTED XNZOMBIE) 0 None) in
  xnpod_delete_thread all_on (col := quiet) 1%nat w = w
  /\ xnpod_delete_thread all_on (col := quiet) 1%nat
       (xnpod_delete_thread all_on (col := quiet) 1%nat w)
     = xnpod_delete_thread all_on (col := quiet) 1%nat w.
Proof.
  apply (delete_zombie_is_noop all_on (col := quiet) 1%nat). reflexivity.
Defined.

(** ** Priorities *)

(** The queue operations of the scheduling class, events and information
    bits leave the priorities of every thread alone. *)
Lemma putback_prios (thread t : tid) (w : world) :
  bprio (threads (xnsched_putback thread w) t) = bprio (threads w t)
  /\ cprio (threads (xnsched_putback thread w) t) = cprio (threads w t).
Proof.
  unfold xnsched_putback.
  destruct (nz (xnthread_test_state (threads w thread) XNREADY)); simpl.
  - split; reflexivity.
  - unfold upd. destruct (Nat.eqb t thread) eqn:E.
    + apply Nat.eqb_eq in E. subst t. split; reflexivity.
    + split; reflexivity.
Qed.

(** C7. xnpod_renice_thread always stores the new priority as the base
    priority, and stores it as the current priority exactly when the
    thread is not boosted or the new priority is above the old current
    one; otherwise the current priority stays. *)
Theorem renice_sets_base_and_maybe_current (cfg : config) (thread : tid)
    (prio : Z) (w : world) :
  let th := threads w thread in
  let th' := threads (xnpod_renice_thread cfg thread prio w) thread in
  bprio th' = prio
  /\ cprio th' = if negb (nz (xnthread_test_state th XNBOOST)) || (prio >? cprio th)
                 then prio else cprio th.
Proof.
  cbv zeta. unfold xnpod_renice_thread, xnpod_renice_thread_inner.
  set (w1 := on_thread thread (with_bprio prio) w).
  assert (Hboost : xnthread_test_state (threads w1 thread) XNBOOST
                   = xnthread_test_state (threads w thread) XNBOOST).
  { unfold w1. rewrite threads_on_thread_same. reflexivity. }
  rewrite Hboost.
  set (cond := negb (nz (xnthread_test_state (threads w thread) XNBOOST))
               || (prio >? cprio (threads w thread))).
  set (w2 := if cond then _ else w1).
  assert (H2 : bprio (threads w2 thread) = prio
               /\ cprio (threads w2 thread)
                  = if cond then prio else cprio (threads w thread)).
  { unfold w2. destruct cond.
    - set (w3 := on_thread thread (with_cprio prio) w1).
      set (w4 := match wchan (threads w3 thread) with Some _ => _ | None => w3 end).
      assert (H4 : threads w4 = threads w3).
      { unfold w4. destruct (wchan (threads w3 thread)); [|reflexivity].
        destruct (_ && _); reflexivity. }
      assert (H3 : bprio (threads w3 thread) = prio /\ cprio (threads w3 thread) = prio).
      { unfold w3, w1. rewrite !threads_on_thread_same. split; reflexivity. }
      destruct (negb (nz (xnthread_test_state (threads w4 thread) _))).
      + destruct (putback_prios thread thread w4) as [Hb Hc].
        rewrite Hb, Hc, H4. exact H3.
      + rewrite H4. exact H3.
    - unfold w1. rewrite threads_on_thread_same. split; reflexivity. }
  destruct (CONFIG_XENO_OPT_PERVASIVE cfg && nz 1); [|exact H2].
  destruct (nz (xnthread_test_state (threads w2 thread) XNRELAX)); [exact H2|].
  destruct (nz (xnthread_test_state (threads w2 thread) XNSHADOW)); [|exact H2].
  rewrite threads_on_thread_same. exact H2.
Qed.

(** A boosted thread of current priority 10 keeps it when reniced to 5 and
    takes 15 when reniced to 15; a thread that is not boosted takes 5. *)
Example renice_samples :
  let boosted := sample_world (sample_thread (Z.lor XNSTARTED (Z.lor XNREADY XNBOOST)) 0 None) in
  let plain := sample_world (sample_thread (Z.lor XNSTARTED XNREADY) 0 None) in
  let prios w := (bprio (threads w 1%nat), cprio (threads w 1%nat)) in
  prios (xnpod_renice_thread all_on 1%nat 5 boosted) = (5, 10)
  /\ prios (xnpod_renice_thread all_on 1%nat 15 boosted) = (15, 15)
  /\ prios (xnpod_renice_thread all_on 1%nat 5 plain) = (5, 5).
Proof. vm_compute. repeat split. Qed.

(** ** Mode bits *)

Lemma lock_is_mode_bit : Z.land XNLOCK XNTHREAD_MODE_BITS = XNLOCK.
Proof. reflexivity. Qed.

Lemma shield_is_mode_bit : Z.land XNSHIELD XNTHREAD_MODE_BITS = XNSHIELD.
Proof. reflexivity. Qed.

(** An update of a control block that keeps its state word keeps the
    state word of every thread. *)
Lemma state_on_thread_keep (thread t : tid) (f : xnthread -> xnthread) (w : world) :
  (forall th, state (f th) = state th) ->
  state (threads (on_thread thread f w) t) = state (threads w t).
Proof.
  intros Hf. unfold on_thread. simpl. unfold upd.
  destruct (Nat.eqb t thread) eqn:E; [|reflexivity].
  apply Nat.eqb_eq in E. subst t. apply Hf.
Qed.

(** xnpod_lock_sched changes the state of the current thread by LOCK at
    most, and the state of no other thread. *)
Lemma lock_sched_nonmode_bits (w : world) (t : tid) :
  Z.ldiff (state (threads (xnpod_lock_sched w) t)) XNTHREAD_MODE_BITS
  = Z.ldiff (state (threads w t)) XNTHREAD_MODE_BITS.
Proof.
  unfold xnpod_lock_sched, on_thread. simpl. unfold upd.
  destruct (Nat.eqb t (xnpod_current_thread w)) eqn:E; [|reflexivity].
  apply Nat.eqb_eq in E. subst t.
  destruct (schedlck (threads w (xnpod_current_thread w)) =? 0); simpl.
  - rewrite <- lock_is_mode_bit. unfold setbits. bits.
  - reflexivity.
Qed.

Lemma shield_test_mode_part (clrmask sm sm' : Z) :
  Z.land sm XNTHREAD_MODE_BITS = Z.land sm' XNTHREAD_MODE_BITS ->
  Z.land (Z.lor clrmask sm) XNSHIELD
  = Z.land (Z.lor (Z.land clrmask XNTHREAD_MODE_BITS) sm') XNSHIELD.
Proof.
  intros H. rewrite <- shield_is_mode_bit.
  replace (Z.land (Z.lor clrmask sm) (Z.land XNSHIELD XNTHREAD_MODE_BITS))
    with (Z.land (Z.lor (Z.land clrmask XNTHREAD_MODE_BITS)
                    (Z.land sm XNTHREAD_MODE_BITS)) XNSHIELD) by bits.
  rewrite H. bits.
Qed.

(** C9. xnpod_set_thread_mode returns the mode bits the thread had on
    entry; the bits of the two masks outside the mode bits play no part;
    and no state bit outside the mode bits changes, for the thread or for
    any other. *)
Theorem set_thread_mode_touches_mode_bits_only (cfg : config) (thread : tid)
    (clrmask setmask : Z) (w : world) :
  let r := xnpod_set_thread_mode cfg thread clrmask setmask w in
  fst r = Z.land (state (threads w thread)) XNTHREAD_MODE_BITS
  /\ r = xnpod_set_thread_mode cfg thread
           (Z.land clrmask XNTHREAD_MODE_BITS) (Z.land setmask XNTHREAD_MODE_BITS) w
  /\ forall t,
       Z.ldiff (state (threads (snd r) t)) XNTHREAD_MODE_BITS
       = Z.ldiff (state (threads w t)) XNTHREAD_MODE_BITS.
Proof.
  cbv zeta. split; [reflexivity|]. split.
  - unfold xnpod_set_thread_mode.
    set (sm := if CONFIG_XENO_OPT_ISHIELD cfg then setmask
               else clrbits setmask XNSHIELD).
    set (sm' := if CONFIG_XENO_OPT_ISHIELD cfg
                then Z.land setmask XNTHREAD_MODE_BITS
                else clrbits (Z.land setmask XNTHREAD_MODE_BITS) XNSHIELD).
    assert (Hsm : Z.land sm XNTHREAD_MODE_BITS = Z.land sm' XNTHREAD_MODE_BITS).
    { unfold sm, sm', clrbits. destruct (CONFIG_XENO_OPT_ISHIELD cfg); bits. }
    assert (Hclr : Z.land (Z.land clrmask XNTHREAD_MODE_BITS) XNTHREAD_MODE_BITS
                   = Z.land clrmask XNTHREAD_MODE_BITS) by bits.
    rewrite Hclr, <- Hsm.
    rewrite <- (shield_test_mode_part clrmask sm sm' Hsm).
    reflexivity.
  - intros t. unfold xnpod_set_thread_mode. cbn [snd].
    set (sm := if CONFIG_XENO_OPT_ISHIELD cfg then setmask
               else clrbits setmask XNSHIELD).
    set (w1 := on_thread thread _ w).
    set (w2 := on_thread thread _ w1).
    assert (H2 : Z.ldiff (state (threads w2 t)) XNTHREAD_MODE_BITS
                 = Z.ldiff (state (threads w t)) XNTHREAD_MODE_BITS).
    { unfold w2, w1, on_thread. simpl. unfold upd.
      destruct (Nat.eqb t thread) eqn:E; [|reflexivity].
      apply Nat.eqb_eq in E. subst t. simpl.
      rewrite Nat.eqb_refl. simpl. unfold setbits, clrbits. bits. }
    set (w3 := if Nat.eqb (xnpod_current_thread w) thread then _ else w2).
    assert (H3 : Z.ldiff (state (threads w3 t)) XNTHREAD_MODE_BITS
                 = Z.ldiff (state (threads w t)) XNTHREAD_MODE_BITS).
    { unfold w3. destruct (Nat.eqb (xnpod_current_thread w) thread); [|exact H2].
      destruct (negb (nz (Z.land _ XNLOCK))).
      - destruct (nz (xnthread_test_state (threads w2 thread) XNLOCK)); [|exact H2].
        rewrite lock_sched_nonmode_bits. exact H2.
      - destruct (negb (nz (xnthread_test_state (threads w2 thread) XNLOCK)));
          [|exact H2].
        rewrite state_on_thread_keep by reflexivity. exact H2. }
    set (w4 := if negb (nz (Z.land _ XNRRB)) && _ then _ else w3).
    assert (H4 : Z.ldiff (state (threads w4 t)) XNTHREAD_MODE_BITS
                 = Z.ldiff (state (threads w t)) XNTHREAD_MODE_BITS).
    { unfold w4. destruct (negb (nz (Z.land _ XNRRB)) && _); [|exact H3].
      rewrite state_on_thread_keep by reflexivity. exact H3. }
    destruct (_ && _ && _ && _); exact H4.
Qed.

(** A thread with LOCK: clearing LOCK and READY and setting RRB and SUSP
    returns LOCK, drops LOCK, adds RRB, and leaves READY and SUSP as they
    were. *)
Example set_thread_mode_sample :
  let w := sample_world (sample_thread (Z.lor XNSTARTED (Z.lor XNREADY XNLOCK)) 0 None) in
  let r := xnpod_set_thread_mode all_on 1%nat (Z.lor XNLOCK XNREADY) (Z.lor XNRRB XNSUSP) w in
  fst r = XNLOCK
  /\ state (threads (snd r) 1%nat) = Z.lor XNSTARTED (Z.lor XNREADY XNRRB).
Proof. vm_compute. split; reflexivity. Qed.

(** ** Frames: what a step leaves alone in every control block *)

Section Views.

Context {A : Type} (v : xnthread -> A).

Lemma same_view_refl (w : world) : same_view v w w.
Proof. intros t. reflexivity. Qed.

Lemma same_view_on_thread (thread : tid) (f : xnthread -> xnthread)
    (w0 w1 : world) :
  (forall th, v (f th) = v th) ->
  same_view v w0 w1 -> same_view v w0 (on_thread thread f w1).
Proof.
  intros Hf H t. rewrite <- (H t). unfold on_thread. simpl. unfold upd.
  destruct (Nat.eqb t thread) eqn:E; [|reflexivity].
  apply Nat.eqb_eq in E. subst t. apply Hf.
Qed.

Lemma same_view_on_slot (cpu : nat) (f : xnsched -> xnsched) (w0 w1 : world) :
  same_view v w0 w1 -> same_view v w0 (on_slot cpu f w1).
Proof. intros H t. exact (H t). Qed.

Lemma same_view_emit (e : event) (w0 w1 : world) :
  same_view v w0 w1 -> same_view v w0 (emit e w1).
Proof. intros H t. exact (H t). Qed.

Lemma same_view_with_pod (p : xnpod) (w0 w1 : world) :
  same_view v w0 w1 -> same_view v w0 (with_pod p w1).
Proof. intros H t. exact (H t). Qed.

Lemma same_view_fold_emit (thread : tid) (q : list routine) (w0 w1 : world) :
  same_view v w0 w1 ->
  same_view v w0 (fold_left (fun acc r => emit (EvCallout r thread) acc) q w1).
Proof.
  revert w1. induction q as [|r q IH]; intros w1 H; simpl.
  - exact H.
  - apply IH. apply same_view_emit. exact H.
Qed.

End Views.

(** Peel the steps of a world off, one update at a time; an update of a
    control block must keep the view by computation. *)
Ltac view_step :=
  first
    [ assumption
    | apply same_view_refl
    | apply same_view_on_thread; [intros ?; reflexivity|]
    | apply same_view_on_slot
    | apply same_view_emit
    | apply same_view_with_pod
    | apply same_view_fold_emit
    | match goal with
      | |- same_view _ _ (if ?b then _ else _) => destruct b
      | |- same_view _ _ (match ?o with Some _ => _ | None => _ end) => destruct o
      end ].

Ltac view :=
  unfold xnpod_fire_callouts, xnsched_putback, xnsched_set_resched,
    xnsched_enqueue, xnsched_dequeue, xnsynch_forget_sleeper;
  cbv zeta; repeat view_step.

(** ** Unblocking *)

(** xnpod_resume_thread never touches an information word. *)
Lemma resume_keeps_info (thread : tid) (mask : Z) (w : world) :
  same_view info w (xnpod_resume_thread thread mask w).
Proof.
  unfold xnpod_resume_thread, resume_clear_wchan, resume_enqueue, stop_rtimer.
  view.
Qed.

(** C4. xnpod_unblock_thread returns nonzero exactly when the thread has
    DELAY or PEND on entry; it then resumes DELAY if DELAY is set, PEND
    otherwise, and raises BREAK in the information word of the thread.
    With neither bit set it returns 0 and the world, so every information
    word, is as before. *)
Theorem unblock_reports_and_breaks (thread : tid) (w : world) :
  let th := threads w thread in
  let delayed := nz (xnthread_test_state th XNDELAY) in
  let pending := nz (xnthread_test_state th XNPEND) in
  let r := xnpod_unblock_thread thread w in
  (fst r <> 0 <-> delayed || pending = true)
  /\ snd r = (if delayed
              then on_thread thread (xnthread_set_info XNBREAK)
                     (xnpod_resume_thread thread XNDELAY w)
              else if pending
              then on_thread thread (xnthread_set_info XNBREAK)
                     (xnpod_resume_thread thread XNPEND w)
              else w)
  /\ forall t,
       info (threads (snd r) t)
       = if (delayed || pending) && Nat.eqb t thread
         then setbits (info (threads w t)) XNBREAK
         else info (threads w t).
Proof.
  cbv zeta. unfold xnpod_unblock_thread.
  destruct (nz (xnthread_test_state (threads w thread) XNDELAY));
    [|destruct (nz (xnthread_test_state (threads w thread) XNPEND))];
    cbn [fst snd orb andb nz Z.eqb negb].
  - split; [split; [reflexivity | discriminate]|]. split; [reflexivity|].
    intros t. unfold on_thread. simpl. unfold upd.
    destruct (Nat.eqb t thread) eqn:E.
    + apply Nat.eqb_eq in E. subst t. simpl.
      rewrite (resume_keeps_info thread XNDELAY w thread). reflexivity.
    + apply resume_keeps_info.
  - split; [split; [reflexivity | discriminate]|]. split; [reflexivity|].
    intros t. unfold on_thread. simpl. unfold upd.
    destruct (Nat.eqb t thread) eqn:E.
    + apply Nat.eqb_eq in E. subst t. simpl.
      rewrite (resume_keeps_info thread XNPEND w thread). reflexivity.
    + apply resume_keeps_info.
  - split; [split; [intros H; exfalso; apply H; reflexivity | discriminate]|].
    split; reflexivity.
Qed.

(** A thread that pends with a timeout is unblocked: the call reports it,
    the thread is READY and carries BREAK.  A thread that is only
    suspended is left alone. *)
Example unblock_samples :
  let pending :=
    sample_world (sample_thread (Z.lor XNSTARTED (Z.lor XNPEND XNDELAY)) 0 (Some 5%nat)) in
  let suspended := sample_world (sample_thread (Z.lor XNSTARTED XNSUSP) 0 None) in
  let r1 := xnpod_unblock_thread 1%nat pending in
  let r2 := xnpod_unblock_thread 1%nat suspended in
  fst r1 = 1
  /\ state (threads (snd r1) 1%nat) = Z.lor XNSTARTED XNREADY
  /\ info (threads (snd r1) 1%nat) = XNBREAK
  /\ wchan (threads (snd r1) 1%nat) = None
  /\ fst r2 = 0
  /\ threads (snd r2) 1%nat = threads suspended 1%nat.
Proof. vm_compute. repeat split. Qed.

(** ** Starting a thread *)

(** C6. xnpod_start_thread fails with -EBUSY when the thread is not
    DORMANT or is already STARTED, and with -EINVAL when the intersection
    of the requested affinity, the pod affinity and the online CPUs is
    empty.  Where two of these conditions hold together the answer is one
    of the two codes, the one of the check that comes first: a thread that
    is not DORMANT gets -EBUSY; otherwise an empty intersection gets
    -EINVAL; otherwise a thread already STARTED gets -EBUSY; otherwise the
    call succeeds.  Whenever it fails, the state word of every thread is
    as before: STARTED is not set and DORMANT is not released. *)
Theorem start_thread_failures (cfg : config) {col : Collaborators}
    (thread : tid) (mode imask aff entry cookie : Z) (w : world) :
  let th := threads w thread in
  let cpus := Z.land (Z.land aff (nkaffinity w)) (cpu_online_map w) in
  let r := xnpod_start_thread cfg thread mode imask aff entry cookie w in
  fst r = (if negb (nz (xnthread_test_state th XNDORMANT)) then - EBUSY
           else if cpus =? 0 then - EINVAL
           else if nz (xnthread_test_state th XNSTARTED) then - EBUSY
           else 0)
  /\ (fst r = 0 \/ same_view state w (snd r)).
Proof.
  cbv zeta. unfold xnpod_start_thread.
  destruct (negb (nz (xnthread_test_state (threads w thread) XNDORMANT))).
  { split; [reflexivity|]. right. apply same_view_refl. }
  set (w1 := on_thread thread (with_affinity (cpu_online_map w)) w).
  set (w2 := on_thread thread _ w1).
  assert (Haff : affinity (threads w2 thread)
                 = Z.land (Z.land aff (nkaffinity w)) (cpu_online_map w)).
  { unfold w2, w1. rewrite !threads_on_thread_same. reflexivity. }
  assert (H2 : same_view state w w2) by (unfold w2, w1; view).
  rewrite Haff.
  destruct (Z.land (Z.land aff (nkaffinity w)) (cpu_online_map w) =? 0).
  { split; [reflexivity|]. right. exact H2. }
  set (w3 := if CONFIG_SMP cfg && _ then _ else w2).
  assert (H3 : same_view state w w3) by (unfold w3; view).
  assert (Hst : xnthread_test_state (threads w3 thread) XNSTARTED
                = xnthread_test_state (threads w thread) XNSTARTED).
  { unfold xnthread_test_state. rewrite (H3 thread). reflexivity. }
  rewrite Hst.
  destruct (nz (xnthread_test_state (threads w thread) XNSTARTED)).
  { split; [reflexivity|]. right. exact H3. }
  destruct (CONFIG_XENO_OPT_PERVASIVE cfg && _);
    (split; [reflexivity | left; reflexivity]).
Qed.

(** The four answers on sample worlds, with the state word afterwards. *)
Example start_thread_samples :
  let start st aff :=
    let r := xnpod_start_thread all_on (col := quiet) 1%nat XNRRB 0 aff 0 0
               (sample_world (sample_thread st 0 None)) in
    (fst r, state (threads (snd r) 1%nat)) in
  start XNSTARTED 1 = (- EBUSY, XNSTARTED)
  /\ start XNDORMANT 2 = (- EINVAL, XNDORMANT)
  /\ start (Z.lor XNDORMANT XNSTARTED) 1 = (- EBUSY, Z.lor XNDORMANT XNSTARTED)
  /\ start XNDORMANT 1 = (0, Z.lor XNSTARTED (Z.lor XNREADY XNRRB)).
Proof. vm_compute. repeat split. Qed.

(** Where the conditions overlap the order of the checks decides: a
    thread that is DORMANT and already STARTED, started with an empty
    affinity, meets both the condition of -EBUSY and the condition of
    -EINVAL and is answered -EINVAL, with its state word as before. *)
Example start_thread_overlap_sample :
  let w := sample_world (sample_thread (Z.lor XNDORMANT XNSTARTED) 0 None) in
  let r := xnpod_start_thread all_off (col := quiet) 1%nat 0 0 0 0 0 w in
  fst r = - EINVAL
  /\ state (threads (snd r) 1%nat) = Z.lor XNDORMANT XNSTARTED.
Proof. vm_compute. split; reflexivity. Qed.

(** ** Periodic wait *)

(** C8. xnpod_wait_thread_period answers -EWOULDBLOCK, and does nothing,
    when the periodic timer of the caller is not running.  Otherwise the
    caller sleeps on DELAY if the release point is still ahead; when it
    slept and comes back with BREAK in its information word the answer is
    -EINTR and nothing is stored.  Otherwise the overrun count of the
    timer decides: nonzero, the answer is -ETIMEDOUT and the count is
    stored through overruns_r; zero, the answer is 0 and zero is
    stored. *)
Theorem wait_thread_period_outcomes (cfg : config) {col : Collaborators}
    (overruns_r : bool) (w : world) :
  let thread := xnpod_current_thread w in
  let tm := ptimer (threads w thread) in
  let '(err, stored, w') := xnpod_wait_thread_period cfg overruns_r w in
  if negb (xntimer_running_p tm)
  then err = - EWOULDBLOCK /\ stored = None /\ w' = w
  else
    let early := xnsticks (rawclock w - xntimer_pexpect tm) <? 0 in
    let w1 :=
      if early
      then xnpod_suspend_thread cfg thread XNDELAY XN_INFINITE XN_RELATIVE None w
      else w in
    if early && nz (xnthread_test_info (threads w1 thread) XNBREAK)
    then err = - EINTR /\ stored = None /\ w' = w1
    else
      let overruns :=
        fst (xntimer_get_overruns (ptimer (threads w1 thread)) (rawclock w1)) in
      if nz overruns
      then err = - ETIMEDOUT
           /\ stored = (if overruns_r then Some overruns else None)
      else err = 0 /\ stored = (if overruns_r then Some 0 else None).
Proof.
  cbv zeta. unfold xnpod_wait_thread_period.
  destruct (negb (xntimer_running_p (ptimer (threads w (xnpod_current_thread w))))).
  { repeat split. }
  destruct (xnsticks _ <? 0); cbn [andb].
  - destruct (nz (xnthread_test_info _ XNBREAK)).
    + repeat split.
    + unfold wait_period_overruns.
      destruct (xntimer_get_overruns _ _) as [overruns tm]. cbn [fst].
      destruct (nz overruns) eqn:E.
      * split; reflexivity.
      * apply nz_false in E. subst overruns. split; reflexivity.
  - unfold wait_period_overruns.
    destruct (xntimer_get_overruns _ _) as [overruns tm]. cbn [fst].
    destruct (nz overruns) eqn:E.
    + split; reflexivity.
    + apply nz_false in E. subst overruns. split; reflexivity.
Qed.

(** The four outcomes on sample worlds: the timer is idle; the sleeper is
    unblocked by another thread; the release point was missed by two
    periods and more; the release point is reached in time. *)
Example wait_thread_period_samples :
  let th := sample_thread XNSTARTED 0 None in
  let periodic pexpect := with_ptimer (mk_timer true 0%nat pexpect 10) th in
  let outcome (r : Z * option Z * world) := (fst (fst r), snd (fst r)) in
  outcome (xnpod_wait_thread_period all_off (col := quiet) true
             (sample_world_running th)) = (- EWOULDBLOCK, None)
  /\ outcome (xnpod_wait_thread_period all_off (col := interrupting) true
                (sample_world_running (periodic 150))) = (- EINTR, None)
  /\ outcome (xnpod_wait_thread_period all_off (col := quiet) true
                (sample_world_running (periodic 75))) = (- ETIMEDOUT, Some 2)
  /\ outcome (xnpod_wait_thread_period all_off (col := quiet) true
                (sample_world_running (periodic 95))) = (0, Some 0).
Proof. vm_compute. repeat split. Qed.

(** ** Suspension with a deadline in the past *)

(** When the timer wheel refuses the date, suspend_arm stores the timer,
    forgets the wait channel it was given and raises TIMEO. *)
Lemma suspend_arm_refused (cfg : config) {col : Collaborators}
    (thread : tid) (cpu : nat) (mask timeout : Z) (tmode : xntmode)
    (chan : option nat) (w : world) :
  let th := threads w thread in
  let started :=
    xntimer_start (rawclock w) (xntimer_set_sched (rtimer th) (sched th))
      timeout XN_INFINITE tmode in
  negb (timeout =? XN_INFINITE) || negb (xntmode_eqb tmode XN_RELATIVE) = true ->
  nz (fst started) = true ->
  suspend_arm cfg thread cpu mask timeout tmode chan w
  = on_thread thread (xnthread_set_info XNTIMEO)
      (match chan with
       | Some c =>
           xnsynch_forget_sleeper thread
             (on_thread thread (with_wchan (Some c))
                (on_thread thread (with_rtimer (snd started)) w))
       | None => on_thread thread (with_rtimer (snd started)) w
       end).
Proof.
  cbv zeta. intros Htimed Hpast. unfold suspend_arm. rewrite Htimed.
  destruct (xntimer_start _ _ _ _ _) as [err tm]. cbn [fst snd] in *.
  rewrite Hpast. reflexivity.
Qed.

(** C3, as the code has it.  The timer wheel refuses the deadline of a
    suspension (the date is in the past), and the thread is not a runnable
    shadow that was kicked.  Then the call returns without blocking the
    thread: the state word keeps every bit, but for PEND when a wait
    channel was passed and forgotten; the information word gets TIMEO,
    after RMID, TIMEO, BREAK, WAKEN and ROBBED were cleared if the thread
    had no blocking bit; no other thread, no queue of the pod and no event
    is touched; among the scheduler slots only the resched mask of the
    calling CPU changes, and only when the thread is the current one of
    its slot. *)
Theorem suspend_past_deadline (cfg : config) {col : Collaborators}
    (thread : tid) (mask timeout : Z) (tmode : xntmode) (chan : option nat)
    (w : world) :
  let th := threads w thread in
  let runnable_p := negb (nz (xnthread_test_state th XNTHREAD_BLOCK_BITS)) in
  let w' := xnpod_suspend_thread cfg thread mask timeout tmode chan w in
  negb (timeout =? XN_INFINITE) || negb (xntmode_eqb tmode XN_RELATIVE) = true ->
  nz (fst (xntimer_start (rawclock w) (xntimer_set_sched (rtimer th) (sched th))
             timeout XN_INFINITE tmode)) = true ->
  CONFIG_XENO_OPT_PERVASIVE cfg && runnable_p
    && nz (xnthread_test_info th XNKICKED) = false ->
  state (threads w' thread)
  = (if is_some chan then clrbits (state th) XNPEND else state th)
  /\ info (threads w' thread)
     = setbits
         (if runnable_p
          then clrbits (info th)
                 (Z.lor XNRMID (Z.lor XNTIMEO (Z.lor XNBREAK (Z.lor XNWAKEN XNROBBED))))
          else info th)
         XNTIMEO
  /\ (forall t, t <> thread -> threads w' t = threads w t)
  /\ slots w'
     = slots (if Nat.eqb thread (curr (slots w (sched th)))
              then xnsched_set_resched (sched th) w else w)
  /\ nkpod w' = nkpod w
  /\ trace w' = trace w.
Proof.
  intros th runnable_p w' Htimed Hpast Hkick.
  unfold w', xnpod_suspend_thread. fold th.
  set (w1 := if Nat.eqb thread (curr (slots w (sched th)))
             then xnsched_set_resched (sched th) w else w).
  assert (H1 : threads w1 = threads w /\ rawclock w1 = rawclock w
               /\ nkpod w1 = nkpod w /\ trace w1 = trace w).
  { unfold w1. destruct (Nat.eqb thread (curr (slots w (sched th))));
      repeat split. }
  destruct H1 as [Hth1 [Hclk1 [Hpod1 Htr1]]].
  rewrite Hth1. fold th. fold runnable_p.
  assert (Hother : forall f (w0 : world) t, t <> thread ->
            threads (on_thread thread f w0) t = threads w0 t).
  { intros f w0 t Ht. apply threads_on_thread_other. exact Ht. }
  assert (Hfinal : forall (w2 : world) (tm : xntimer),
            threads w2 thread = (if runnable_p
                                 then xnthread_clear_info
                                        (Z.lor XNRMID (Z.lor XNTIMEO (Z.lor XNBREAK
                                           (Z.lor XNWAKEN XNROBBED)))) th
                                 else th) ->
            (forall t, t <> thread -> threads w2 t = threads w t) ->
            slots w2 = slots w1 -> nkpod w2 = nkpod w -> trace w2 = trace w ->
            let wf :=
              on_thread thread (xnthread_set_info XNTIMEO)
                (match chan with
                 | Some c =>
                     xnsynch_forget_sleeper thread
                       (on_thread thread (with_wchan (Some c))
                          (on_thread thread (with_rtimer tm) w2))
                 | None => on_thread thread (with_rtimer tm) w2
                 end) in
            state (threads wf thread)
            = (if is_some chan then clrbits (state th) XNPEND else state th)
            /\ info (threads wf thread)
               = setbits
                   (if runnable_p
                    then clrbits (info th)
                           (Z.lor XNRMID (Z.lor XNTIMEO (Z.lor XNBREAK
                              (Z.lor XNWAKEN XNROBBED))))
                    else info th)
                   XNTIMEO
            /\ (forall t, t <> thread -> threads wf t = threads w t)
            /\ slots wf = slots w1
            /\ nkpod wf = nkpod w
            /\ trace wf = trace w).
  { intros w2 tm Hth2 Hoth2 Hsl2 Hpod2 Htr2 wf.
    split; [|split; [|split; [|split; [|split]]]].
    - unfold wf, xnsynch_forget_sleeper.
      destruct chan; rewrite !threads_on_thread_same, Hth2;
        destruct runnable_p; reflexivity.
    - unfold wf, xnsynch_forget_sleeper.
      destruct chan; rewrite !threads_on_thread_same, Hth2;
        destruct runnable_p; reflexivity.
    - intros t Ht. unfold wf, xnsynch_forget_sleeper.
      destruct chan; rewrite !Hother by exact Ht; apply Hoth2; exact Ht.
    - rewrite <- Hsl2. unfold wf. destruct chan; reflexivity.
    - rewrite <- Hpod2. unfold wf. destruct chan; reflexivity.
    - rewrite <- Htr2. unfold wf. destruct chan; reflexivity. }
  destruct runnable_p eqn:Hrun.
  - rewrite andb_true_r in Hkick. rewrite Hkick.
    set (w2 := on_thread thread _ w1).
    rewrite (suspend_arm_refused cfg thread (sched th) mask timeout tmode chan w2).
    + apply Hfinal.
      * unfold w2. rewrite threads_on_thread_same, Hth1. reflexivity.
      * intros t Ht. unfold w2. rewrite Hother by exact Ht.
        rewrite Hth1. reflexivity.
      * reflexivity.
      * exact Hpod1.
      * exact Htr1.
    + exact Htimed.
    + unfold w2. rewrite threads_on_thread_same, Hth1.
      cbn [rawclock on_thread with_threads]. rewrite Hclk1. exact Hpast.
  - rewrite (suspend_arm_refused cfg thread (sched th) mask timeout tmode chan w1).
    + apply Hfinal.
      * rewrite Hth1. reflexivity.
      * intros t Ht. rewrite Hth1. reflexivity.
      * reflexivity.
      * exact Hpod1.
      * exact Htr1.
    + exact Htimed.
    + rewrite Hth1, Hclk1. exact Hpast.
Qed.

Lemma suspend_past_deadline_witness :
  let w := sample_world_running (sample_thread XNSTARTED XNBREAK None) in
  let w' :=
    xnpod_suspend_thread all_off (col := quiet) 1%nat XNDELAY 50 XN_ABSOLUTE None w in
  state (threads w' 1%nat) = XNSTARTED
  /\ info (threads w' 1%nat) = XNTIMEO
  /\ resched (slots w' 0%nat) = 1
  /\ trace w' = [].
Proof.
  cbv zeta.
  destruct (suspend_past_deadline all_off (col := quiet) 1%nat XNDELAY 50
              XN_ABSOLUTE None
              (sample_world_running (sample_thread XNSTARTED XNBREAK None)))
    as [Hs [Hi [_ [Hsl [_ Htr]]]]]; [reflexivity | reflexivity | reflexivity |].
  split; [exact Hs|]. split; [exact Hi|].
  split; [rewrite Hsl; reflexivity | exact Htr].
Defined.

(** C3, as the specification has it, fails.  The running thread 1 still
    carries BREAK from an earlier wait and is suspended until date 50 while
    the clock reads 100.  The timer wheel refuses the date and the thread
    is not blocked, but TIMEO is not the only change: BREAK is gone from
    the information word, and the resched mask of the slot has the bit of
    the CPU raised. *)
Lemma suspend_past_deadline_changes_more_than_timeo :
  let w := sample_world_running (sample_thread XNSTARTED XNBREAK None) in
  let w' :=
    xnpod_suspend_thread all_off (col := quiet) 1%nat XNDELAY 50 XN_ABSOLUTE None w in
  fst (xntimer_start (Collaborators := quiet) (rawclock w)
         (xntimer_set_sched (rtimer (threads w 1%nat)) (sched (threads w 1%nat)))
         50 XN_INFINITE XN_ABSOLUTE) = - ETIMEDOUT
  /\ state (threads w' 1%nat) = state (threads w 1%nat)
  /\ info (threads w' 1%nat) <> setbits (info (threads w 1%nat)) XNTIMEO
  /\ resched (slots w' 0%nat) <> resched (slots w 0%nat).
Proof.
  vm_compute. repeat split; intros H; discriminate H.
Qed.

(** ** READY excludes the blocking bits *)

Lemma pend_is_blocking : Z.land XNPEND XNTHREAD_BLOCK_BITS = XNPEND.
Proof. reflexivity. Qed.

(** A mask made of blocking bits has no bit outside them. *)
Lemma blocking_mask_disjoint (mask x : Z) :
  Z.ldiff mask XNTHREAD_BLOCK_BITS = 0 ->
  Z.land XNTHREAD_BLOCK_BITS x = 0 ->
  Z.land mask x = 0.
Proof.
  intros Hm Hx.
  replace (Z.land mask x)
    with (Z.lor (Z.land (Z.ldiff mask XNTHREAD_BLOCK_BITS) x)
            (Z.land mask (Z.land XNTHREAD_BLOCK_BITS x))) by bits.
  rewrite Hm, Hx, Z.land_0_l, Z.land_0_r. reflexivity.
Qed.

Section ThreadLevel.

Variable th : xnthread.

Lemma thread_ok_same (th' : xnthread) :
  state th' = state th -> wchan th' = wchan th ->
  thread_ok th -> thread_ok th'.
Proof.
  unfold thread_ok, pend_ok, ready_and_blocked, xnthread_test_state.
  intros -> ->. tauto.
Qed.

Lemma not_ready_and_blocked_clear (m : Z) :
  ready_and_blocked th = false ->
  ready_and_blocked (xnthread_clear_state m th) = false.
Proof.
  unfold ready_and_blocked, xnthread_test_state. cbn [state xnthread_clear_state with_state].
  rewrite !andb_false_iff, !nz_false.
  intros [H | H]; [left | right]; apply testbits_clrbits_0; exact H.
Qed.

Lemma pend_ok_clear (m : Z) :
  pend_ok th -> pend_ok (xnthread_clear_state m th).
Proof.
  unfold pend_ok, xnthread_test_state. cbn [state wchan xnthread_clear_state with_state].
  intros H Hp. apply H. apply nz_true. intros H0.
  apply nz_true in Hp. apply Hp. apply testbits_clrbits_0. exact H0.
Qed.

Lemma thread_ok_clear (m : Z) :
  thread_ok th -> thread_ok (xnthread_clear_state m th).
Proof.
  intros [H1 H2]. split;
    [apply not_ready_and_blocked_clear | apply pend_ok_clear]; assumption.
Qed.

(** Label enqueue: READY is set on a thread without blocking bit. *)
Lemma thread_ok_set_ready :
  nz (xnthread_test_state th XNTHREAD_BLOCK_BITS) = false ->
  thread_ok (xnthread_set_state XNREADY th).
Proof.
  unfold thread_ok, pend_ok, ready_and_blocked, xnthread_test_state.
  cbn [state wchan xnthread_set_state with_state].
  rewrite nz_false. intros Hb. split.
  - apply andb_false_iff. right. apply nz_false.
    rewrite testbits_setbits, Hb. reflexivity.
  - intros Hp. exfalso. apply nz_true in Hp. apply Hp.
    rewrite testbits_setbits.
    rewrite (testbits_sub _ _ _ pend_is_blocking Hb). reflexivity.
Qed.

(** The thread forgets its wait channel. *)
Lemma thread_ok_forget :
  ready_and_blocked th = false ->
  thread_ok (with_wchan None (xnthread_clear_state XNPEND th)).
Proof.
  intros H. split.
  - apply (not_ready_and_blocked_clear XNPEND) in H. exact H.
  - unfold pend_ok, xnthread_test_state.
    cbn [state wchan xnthread_clear_state with_state with_wchan].
    intros Hp. exfalso. apply nz_true in Hp. apply Hp.
    unfold testbits, clrbits. bits.
Qed.

(** Bits that are neither READY nor blocking bits are set. *)
Lemma thread_ok_set_neutral (m : Z) :
  Z.land m XNREADY = 0 -> Z.land m XNTHREAD_BLOCK_BITS = 0 ->
  thread_ok th -> thread_ok (xnthread_set_state m th).
Proof.
  unfold thread_ok, pend_ok, ready_and_blocked, xnthread_test_state.
  cbn [state wchan xnthread_set_state with_state].
  intros Hr Hb [H1 H2].
  assert (Hp : testbits m XNPEND = 0)
    by (apply (testbits_sub _ _ _ pend_is_blocking); exact Hb).
  rewrite !testbits_setbits. unfold testbits at 2 4 6.
  unfold testbits in Hp. rewrite Hr, Hb, Hp, !Z.lor_0_r. tauto.
Qed.

End ThreadLevel.

Lemma pend_ok_set (th : xnthread) (m : Z) :
  Z.land m XNPEND = 0 -> pend_ok th -> pend_ok (xnthread_set_state m th).
Proof.
  unfold pend_ok, xnthread_test_state. cbn [state wchan xnthread_set_state with_state].
  intros Hm H. rewrite testbits_setbits. unfold testbits at 2.
  rewrite Hm, Z.lor_0_r. exact H.
Qed.

(** The edits of suspend_block on the control block: READY goes, the mask
    comes, the wait channel is stored. *)
Lemma thread_ok_block (th : xnthread) (mask : Z) (chan : option nat) :
  pend_ok th ->
  Z.ldiff mask XNTHREAD_BLOCK_BITS = 0 ->
  (Z.land mask XNPEND <> 0 -> chan <> None) ->
  let th1 := if nz (xnthread_test_state th XNREADY)
             then xnthread_clear_state XNREADY th else th in
  let th2 := xnthread_set_state mask th1 in
  thread_ok (match chan with Some c => with_wchan (Some c) th2 | None => th2 end).
Proof.
  intros Hp Hm Hc th1 th2.
  assert (Hmr : Z.land mask XNREADY = 0).
  { apply blocking_mask_disjoint; [exact Hm | reflexivity]. }
  assert (H1 : testbits (state th1) XNREADY = 0).
  { unfold th1. destruct (nz (xnthread_test_state th XNREADY)) eqn:E.
    - cbn [state xnthread_clear_state with_state]. unfold testbits, clrbits. bits.
    - apply nz_false in E. exact E. }
  assert (Hp1 : pend_ok th1).
  { unfold th1. destruct (nz (xnthread_test_state th XNREADY));
      [apply pend_ok_clear|]; exact Hp. }
  assert (H2 : ready_and_blocked th2 = false).
  { unfold ready_and_blocked, xnthread_test_state, th2.
    cbn [state xnthread_set_state with_state].
    apply andb_false_iff. left. apply nz_false.
    rewrite testbits_setbits, H1. exact Hmr. }
  destruct chan as [c|].
  - split; [exact H2|]. intros _. discriminate.
  - split; [exact H2|].
    apply pend_ok_set; [|exact Hp1].
    destruct (Z.eq_dec (Z.land mask XNPEND) 0) as [H0|Hn]; [exact H0|].
    exfalso. apply (Hc Hn). reflexivity.
Qed.

(** ** The invariant of the pod under the steps of a service *)

Lemma same_except_refl (thread : tid) (w : world) : same_except thread w w.
Proof. intros t _. reflexivity. Qed.

Lemma same_except_on_thread (thread : tid) (f : xnthread -> xnthread)
    (w0 w1 : world) :
  same_except thread w0 w1 -> same_except thread w0 (on_thread thread f w1).
Proof.
  intros H t Ht. rewrite threads_on_thread_other by exact Ht. apply H. exact Ht.
Qed.

Lemma same_except_on_slot (thread : tid) (cpu : nat) (f : xnsched -> xnsched)
    (w0 w1 : world) :
  same_except thread w0 w1 -> same_except thread w0 (on_slot cpu f w1).
Proof. intros H t Ht. exact (H t Ht). Qed.

Lemma same_except_emit (thread : tid) (e : event) (w0 w1 : world) :
  same_except thread w0 w1 -> same_except thread w0 (emit e w1).
Proof. intros H t Ht. exact (H t Ht). Qed.

Lemma same_except_with_pod (thread : tid) (p : xnpod) (w0 w1 : world) :
  same_except thread w0 w1 -> same_except thread w0 (with_pod p w1).
Proof. intros H t Ht. exact (H t Ht). Qed.

Lemma pod_ok_target (thread : tid) (w0 w1 : world) :
  pod_ok w0 -> same_except thread w0 w1 -> thread_ok (threads w1 thread) ->
  pod_ok w1.
Proof.
  intros H0 Hex Ht t. destruct (Nat.eq_dec t thread) as [->|Hne].
  - exact Ht.
  - rewrite (Hex t Hne). apply H0.
Qed.

Lemma pod_ok_threads (w0 w1 : world) :
  threads w1 = threads w0 -> pod_ok w0 -> pod_ok w1.
Proof. intros E H t. rewrite E. apply H. Qed.

Lemma threads_fold_emit (thread : tid) (q : list routine) (w : world) :
  threads (fold_left (fun acc r => emit (EvCallout r thread) acc) q w) = threads w.
Proof.
  revert w. induction q as [|r q IH]; intros w; simpl; [reflexivity|].
  rewrite IH. reflexivity.
Qed.

Lemma threads_fire_callouts (q : list routine) (thread : tid) (w : world) :
  threads (xnpod_fire_callouts q thread w) = threads w.
Proof.
  unfold xnpod_fire_callouts. cbn [threads on_slot with_slots].
  rewrite threads_fold_emit. reflexivity.
Qed.

(** Bring the control blocks of a world made of updates into view. *)
Ltac simp_threads :=
  repeat first
    [ rewrite threads_on_thread_same
    | rewrite threads_fire_callouts
    | progress cbn [threads on_slot with_slots emit with_pod
                      xnsched_set_resched xnsched_enqueue xnsched_dequeue] ].

Ltac except_step :=
  first
    [ assumption
    | apply same_except_refl
    | apply same_except_on_thread
    | match goal with
      | |- same_except _ _ (if ?b then _ else _) => destruct b
      | |- same_except _ _ (match ?o with Some _ => _ | None => _ end) => destruct o
      end
    | apply same_except_on_slot
    | apply same_except_emit
    | apply same_except_with_pod ].

Ltac except :=
  unfold xnsynch_forget_sleeper, xnsched_set_resched, xnsched_enqueue,
    xnsched_dequeue;
  cbv zeta; repeat except_step.

Section Suspend.

Context (cfg : config) {col : Collaborators}.
Context (thread : tid) (mask : Z) (chan : option nat).
Hypothesis Hkeep : collaborators_keep col pod_ok.
Hypothesis Hmask : Z.ldiff mask XNTHREAD_BLOCK_BITS = 0.
Hypothesis Hchan : Z.land mask XNPEND <> 0 -> chan <> None.

Lemma suspend_block_ok (cpu : nat) (w0 w : world) :
  pod_ok w0 -> same_except thread w0 w -> pend_ok (threads w thread) ->
  pod_ok (suspend_block cfg thread cpu mask chan w).
Proof.
  intros H0 Hex Hp. unfold suspend_block.
  set (w1 := if nz (xnthread_test_state (threads w thread) XNREADY) then _ else w).
  set (w2 := on_thread thread (xnthread_set_state mask) w1).
  set (w3 := match chan with Some c => _ | None => w2 end).
  assert (H3 : pod_ok w3).
  { apply (pod_ok_target thread w0); [exact H0 | |].
    - unfold w3, w2, w1. except.
    - pose proof (thread_ok_block (threads w thread) mask chan Hp Hmask Hchan) as Hb.
      cbv zeta in Hb. unfold w3, w2, w1.
      destruct chan; destruct (nz (xnthread_test_state (threads w thread) XNREADY));
        simp_threads; exact Hb. }
  destruct (Nat.eqb thread (curr (slots w3 cpu))).
  - apply Hkeep. exact H3.
  - destruct (_ && _ && _); [|exact H3].
    apply (pod_ok_threads w3); [reflexivity | exact H3].
Qed.

Lemma suspend_arm_ok (cpu : nat) (timeout : Z) (tmode : xntmode) (w0 w : world) :
  pod_ok w0 -> same_except thread w0 w -> thread_ok (threads w thread) ->
  pod_ok (suspend_arm cfg thread cpu mask timeout tmode chan w).
Proof.
  intros H0 Hex Hok. unfold suspend_arm.
  destruct (negb (timeout =? XN_INFINITE) || negb (xntmode_eqb tmode XN_RELATIVE)).
  - destruct (xntimer_start _ _ _ _ _) as [err tm].
    destruct (nz err).
    + apply (pod_ok_target thread w0); [exact H0 | except |].
      destruct chan; unfold xnsynch_forget_sleeper; simp_threads.
      * apply (thread_ok_same
                 (with_wchan None (xnthread_clear_state XNPEND (threads w thread))));
          [reflexivity | reflexivity |].
        apply thread_ok_forget. apply Hok.
      * apply (thread_ok_same (threads w thread)); [reflexivity | reflexivity | exact Hok].
    + apply (suspend_block_ok cpu w0); [exact H0 | except |].
      simp_threads. apply pend_ok_set; [reflexivity|].
      apply Hok.
  - apply (suspend_block_ok cpu w0); [exact H0 | exact Hex | apply Hok].
Qed.

Lemma suspend_ok (timeout : Z) (tmode : xntmode) (w : world) :
  pod_ok w ->
  pod_ok (xnpod_suspend_thread cfg thread mask timeout tmode chan w).
Proof.
  intros H0. unfold xnpod_suspend_thread.
  set (cpu := sched (threads w thread)).
  set (w1 := if Nat.eqb thread (curr (slots w cpu)) then _ else w).
  assert (E1 : threads w1 = threads w).
  { unfold w1. destruct (Nat.eqb thread (curr (slots w cpu))); reflexivity. }
  assert (Hex1 : same_except thread w w1).
  { intros t _. rewrite E1. reflexivity. }
  rewrite E1.
  destruct (negb (nz (xnthread_test_state (threads w thread) XNTHREAD_BLOCK_BITS))).
  - destruct (CONFIG_XENO_OPT_PERVASIVE cfg && _).
    + apply (pod_ok_target thread w); [exact H0 | except |].
      simp_threads. rewrite E1.
      apply (thread_ok_same (threads w thread)); [reflexivity | reflexivity | apply H0].
    + apply (suspend_arm_ok cpu timeout tmode w); [exact H0 | except |].
      simp_threads. rewrite E1.
      apply (thread_ok_same (threads w thread)); [reflexivity | reflexivity | apply H0].
  - apply (suspend_arm_ok cpu timeout tmode w); [exact H0 | exact Hex1 |].
    rewrite E1. apply H0.
Qed.

End Suspend.

(** ** Resume *)

Lemma resume_enqueue_ok (thread : tid) (cpu : nat) (w0 w : world) :
  pod_ok w0 -> same_except thread w0 w ->
  nz (xnthread_test_state (threads w thread) XNTHREAD_BLOCK_BITS) = false ->
  pod_ok (resume_enqueue thread cpu w).
Proof.
  intros H0 Hex Hb. unfold resume_enqueue.
  apply (pod_ok_target thread w0); [exact H0 | except |].
  simp_threads. apply thread_ok_set_ready. exact Hb.
Qed.

Lemma forget_unblocked (th : xnthread) :
  nz (xnthread_test_state th XNTHREAD_BLOCK_BITS) = false ->
  nz (xnthread_test_state
        (with_wchan None (xnthread_clear_state XNPEND th)) XNTHREAD_BLOCK_BITS)
  = false.
Proof.
  unfold xnthread_test_state. cbn [state xnthread_clear_state with_state with_wchan].
  rewrite !nz_false. apply testbits_clrbits_0.
Qed.

Lemma resume_clear_wchan_ok (thread : tid) (cpu : nat) (m : Z) (w0 w : world) :
  pod_ok w0 -> same_except thread w0 w ->
  nz (xnthread_test_state (threads w thread) XNTHREAD_BLOCK_BITS) = false ->
  pod_ok (resume_clear_wchan thread cpu m w).
Proof.
  intros H0 Hex Hb. unfold resume_clear_wchan.
  destruct (nz (Z.land m (Z.lnot XNDELAY)) && is_some (wchan (threads w thread))).
  - apply (resume_enqueue_ok thread cpu w0); [exact H0 | except |].
    unfold xnsynch_forget_sleeper. simp_threads.
    apply forget_unblocked. exact Hb.
  - apply (resume_enqueue_ok thread cpu w0); assumption.
Qed.

Lemma forget_sleeper_ok (thread : tid) (w0 w : world) :
  pod_ok w0 -> same_except thread w0 w -> thread_ok (threads w thread) ->
  pod_ok (xnsynch_forget_sleeper thread w).
Proof.
  intros H0 Hex Hok.
  apply (pod_ok_target thread w0); [exact H0 | except |].
  unfold xnsynch_forget_sleeper. simp_threads.
  apply thread_ok_forget. apply Hok.
Qed.

Lemma resume_ok (thread : tid) (mask : Z) (w : world) :
  pod_ok w -> pod_ok (xnpod_resume_thread thread mask w).
Proof.
  intros H0. unfold xnpod_resume_thread.
  set (cpu := sched (threads w thread)).
  destruct (negb (nz (xnthread_test_state (threads w thread) XNTHREAD_BLOCK_BITS)))
    eqn:EA.
  { apply negb_true_iff in EA.
    apply (resume_enqueue_ok thread cpu w); [exact H0 | except |].
    destruct (nz (xnthread_test_state (threads w thread) XNREADY));
      simp_threads; exact EA. }
  set (w1 := on_thread thread (xnthread_clear_state mask) w).
  set (w2 := if nz (Z.land mask XNDELAY) then on_thread thread stop_rtimer w1 else w1).
  assert (Hex2 : same_except thread w w2) by (unfold w2, w1; except).
  assert (Hok2 : thread_ok (threads w2 thread)).
  { apply (thread_ok_same (xnthread_clear_state mask (threads w thread))).
    - unfold w2, w1. destruct (nz (Z.land mask XNDELAY)); simp_threads; reflexivity.
    - unfold w2, w1. destruct (nz (Z.land mask XNDELAY)); simp_threads; reflexivity.
    - apply thread_ok_clear. apply H0. }
  assert (H2 : pod_ok w2) by (apply (pod_ok_target thread w); assumption).
  clearbody w2. clear w1.
  destruct (negb (nz (xnthread_test_state (threads w2 thread) XNTHREAD_BLOCK_BITS)))
    eqn:EB.
  { apply negb_true_iff in EB.
    apply (resume_clear_wchan_ok thread cpu mask w); assumption. }
  destruct (nz (Z.land mask XNDELAY)).
  - (* the delay is over *)
    destruct (xnthread_test_state (threads w2 thread) XNPEND =? 0) eqn:EP;
      [exact H2|].
    destruct (is_some (wchan (threads w2 thread))) eqn:EW.
    + set (w3 := xnsynch_forget_sleeper thread w2).
      assert (Hex3 : same_except thread w w3) by (unfold w3; except).
      assert (H3 : pod_ok w3)
        by (apply (forget_sleeper_ok thread w); assumption).
      destruct (nz (xnthread_test_state (threads w3 thread) XNTHREAD_BLOCK_BITS))
        eqn:E3; [exact H3|].
      apply (resume_clear_wchan_ok thread cpu _ w); assumption.
    + exfalso. destruct Hok2 as [_ Hp]. unfold pend_ok in Hp.
      destruct (wchan (threads w2 thread)); [discriminate EW|].
      apply Hp; [|reflexivity]. unfold nz. rewrite EP. reflexivity.
  - destruct (nz (xnthread_test_state (threads w2 thread) XNDELAY)).
    + (* the resource came before the watchdog *)
      set (w3 := if nz (Z.land mask XNPEND) then _ else w2).
      assert (Hex3 : same_except thread w w3) by (unfold w3; except).
      assert (H3 : pod_ok w3).
      { apply (pod_ok_target thread w); [exact H0 | exact Hex3 |].
        unfold w3. destruct (nz (Z.land mask XNPEND)); [|exact Hok2].
        simp_threads.
        apply (thread_ok_same (xnthread_clear_state XNDELAY (threads w2 thread)));
          [reflexivity | reflexivity |].
        apply thread_ok_clear. exact Hok2. }
      destruct (nz (xnthread_test_state (threads w3 thread) XNTHREAD_BLOCK_BITS))
        eqn:E3; [exact H3|].
      apply (resume_clear_wchan_ok thread cpu mask w); assumption.
    + destruct (nz (Z.land mask XNPEND) && is_some (wchan (threads w2 thread)));
        [|exact H2].
      apply (forget_sleeper_ok thread w); assumption.
Qed.

Lemma unblock_ok (thread : tid) (w : world) :
  pod_ok w -> pod_ok (snd (xnpod_unblock_thread thread w)).
Proof.
  intros H0. unfold xnpod_unblock_thread.
  assert (Hinfo : forall w1, pod_ok w1 ->
            pod_ok (on_thread thread (xnthread_set_info XNBREAK) w1)).
  { intros w1 H1. apply (pod_ok_target thread w1); [exact H1 | except |].
    simp_threads.
    apply (thread_ok_same (threads w1 thread)); [reflexivity | reflexivity | apply H1]. }
  destruct (nz (xnthread_test_state (threads w thread) XNDELAY)).
  - cbn [snd nz Z.eqb negb]. apply Hinfo. apply resume_ok. exact H0.
  - destruct (nz (xnthread_test_state (threads w thread) XNPEND)).
    + cbn [snd nz Z.eqb negb]. apply Hinfo. apply resume_ok. exact H0.
    + exact H0.
Qed.

(** ** Start and delete *)

Lemma pod_ok_on_thread (thread : tid) (f : xnthread -> xnthread) (w : world) :
  pod_ok w -> thread_ok (f (threads w thread)) -> pod_ok (on_thread thread f w).
Proof.
  intros H0 Hf. apply (pod_ok_target thread w); [exact H0 | except |].
  simp_threads. exact Hf.
Qed.

(** The bits start_thread sets hold neither READY nor PEND. *)
Lemma start_bits (mode : Z) :
  let m := Z.lor (Z.land mode (Z.lor XNTHREAD_MODE_BITS XNSUSP)) XNSTARTED in
  Z.land m XNREADY = 0 /\ Z.land m XNPEND = 0.
Proof.
  cbv zeta. split.
  - replace (Z.land (Z.lor (Z.land mode (Z.lor XNTHREAD_MODE_BITS XNSUSP)) XNSTARTED)
               XNREADY)
      with (Z.lor (Z.land mode (Z.land (Z.lor XNTHREAD_MODE_BITS XNSUSP) XNREADY))
              (Z.land XNSTARTED XNREADY)) by bits.
    change (Z.land (Z.lor XNTHREAD_MODE_BITS XNSUSP) XNREADY) with 0.
    rewrite Z.land_0_r. reflexivity.
  - replace (Z.land (Z.lor (Z.land mode (Z.lor XNTHREAD_MODE_BITS XNSUSP)) XNSTARTED)
               XNPEND)
      with (Z.lor (Z.land mode (Z.land (Z.lor XNTHREAD_MODE_BITS XNSUSP) XNPEND))
              (Z.land XNSTARTED XNPEND)) by bits.
    change (Z.land (Z.lor XNTHREAD_MODE_BITS XNSUSP) XNPEND) with 0.
    rewrite Z.land_0_r. reflexivity.
Qed.

(** Bits without READY and PEND are set on a thread that is not READY. *)
Lemma thread_ok_set_unready (th : xnthread) (m : Z) :
  nz (xnthread_test_state th XNREADY) = false ->
  Z.land m XNREADY = 0 -> Z.land m XNPEND = 0 ->
  thread_ok th -> thread_ok (xnthread_set_state m th).
Proof.
  intros Hr Hmr Hmp [_ Hp]. split.
  - unfold ready_and_blocked, xnthread_test_state.
    cbn [state xnthread_set_state with_state].
    apply andb_false_iff. left. apply nz_false.
    apply nz_false in Hr. unfold xnthread_test_state in Hr.
    rewrite testbits_setbits, Hr. exact Hmr.
  - apply pend_ok_set; assumption.
Qed.

(** A dormant thread that satisfies the invariant is not READY. *)
Lemma dormant_not_ready (th : xnthread) :
  thread_ok th ->
  nz (xnthread_test_state th XNDORMANT) = true ->
  nz (xnthread_test_state th XNREADY) = false.
Proof.
  intros [Hrb _] Hd. unfold ready_and_blocked in Hrb.
  apply andb_false_iff in Hrb. destruct Hrb as [H | H]; [exact H|].
  exfalso. apply nz_true in Hd. apply Hd. apply nz_false in H.
  apply (testbits_sub _ XNDORMANT XNTHREAD_BLOCK_BITS); [reflexivity | exact H].
Qed.

Section StartDelete.

Context (cfg : config) {col : Collaborators}.
Hypothesis Hkeep : collaborators_keep col pod_ok.

Lemma start_ok (thread : tid) (mode imask aff entry cookie : Z) (w : world) :
  pod_ok w ->
  pod_ok (snd (xnpod_start_thread cfg thread mode imask aff entry cookie w)).
Proof.
  intros H0. unfold xnpod_start_thread.
  destruct (negb (nz (xnthread_test_state (threads w thread) XNDORMANT))) eqn:ED;
    [exact H0|].
  apply negb_false_iff in ED.
  set (w1 := on_thread thread (with_affinity (cpu_online_map w)) w).
  set (w2 := on_thread thread _ w1).
  assert (E2 : state (threads w2 thread) = state (threads w thread)
               /\ wchan (threads w2 thread) = wchan (threads w thread)).
  { unfold w2, w1. simp_threads. split; reflexivity. }
  assert (H2 : pod_ok w2).
  { apply (pod_ok_target thread w); [exact H0 | unfold w2, w1; except |].
    apply (thread_ok_same (threads w thread)); [apply E2 | apply E2 | apply H0]. }
  destruct (affinity (threads w2 thread) =? 0); [exact H2|].
  set (w3 := if CONFIG_SMP cfg && _ then _ else w2).
  assert (E3 : state (threads w3 thread) = state (threads w thread)
               /\ wchan (threads w3 thread) = wchan (threads w thread)).
  { unfold w3. destruct (CONFIG_SMP cfg && _); [|exact E2].
    simp_threads. exact E2. }
  assert (H3 : pod_ok w3).
  { apply (pod_ok_target thread w); [exact H0 | unfold w3, w2, w1; except |].
    apply (thread_ok_same (threads w thread)); [apply E3 | apply E3 | apply H0]. }
  clearbody w3. clear w1 w2 E2 H2.
  destruct (nz (xnthread_test_state (threads w3 thread) XNSTARTED)); [exact H3|].
  set (m := Z.lor (Z.land _ (Z.lor XNTHREAD_MODE_BITS XNSUSP)) XNSTARTED).
  set (w4 := on_thread thread (xnthread_set_state m) w3).
  assert (H4 : pod_ok w4).
  { apply pod_ok_on_thread; [exact H3|].
    destruct (start_bits (if CONFIG_XENO_OPT_ISHIELD cfg then mode
                          else clrbits mode XNSHIELD)) as [Hmr Hmp].
    apply thread_ok_set_unready; [| exact Hmr | exact Hmp | apply H3].
    apply dormant_not_ready; [apply H3|].
    unfold xnthread_test_state. rewrite (proj1 E3). exact ED. }
  set (w5 := on_thread thread (with_start_params _ _ _ _) w4).
  assert (H5 : pod_ok w5).
  { apply pod_ok_on_thread; [exact H4|].
    apply (thread_ok_same (threads w4 thread)); [reflexivity | reflexivity | apply H4]. }
  set (w6 := if nz (xnthread_test_state (threads w5 thread) XNRRB) then _ else w5).
  assert (H6 : pod_ok w6).
  { unfold w6. destruct (nz (xnthread_test_state (threads w5 thread) XNRRB));
      [|exact H5].
    apply pod_ok_on_thread; [exact H5|].
    apply (thread_ok_same (threads w5 thread)); [reflexivity | reflexivity | apply H5]. }
  clearbody w6. clear w4 w5 H4 H5.
  destruct Hkeep as [Hsched [_ Hshadow]].
  destruct (CONFIG_XENO_OPT_PERVASIVE cfg && _); cbn [snd].
  - apply Hsched. apply Hshadow. exact H6.
  - apply Hsched.
    set (w8 := xnpod_resume_thread thread XNDORMANT _).
    assert (H8 : pod_ok w8).
    { apply resume_ok. apply (pod_ok_threads w6); [reflexivity | exact H6]. }
    destruct (_ && _); [|exact H8].
    apply (pod_ok_threads w8); [apply threads_fire_callouts | exact H8].
Qed.

Lemma delete_ok (thread : tid) (w : world) :
  pod_ok w -> pod_ok (xnpod_delete_thread cfg thread w).
Proof.
  intros H0. unfold xnpod_delete_thread.
  destruct (nz (xnthread_test_state (threads w thread) XNZOMBIE)); [exact H0|].
  set (cpu := sched (threads w thread)).
  destruct (_ && _ && _ && _).
  { destruct (negb (xnpod_userspace_p w)); [|exact H0].
    apply (pod_ok_threads w); [reflexivity | exact H0]. }
  set (w1 := with_pod _ w).
  assert (H1 : pod_ok w1) by (apply (pod_ok_threads w); [reflexivity | exact H0]).
  set (w2 := if nz (xnthread_test_state (threads w1 thread) XNREADY) then _ else w1).
  assert (H2 : pod_ok w2).
  { unfold w2. destruct (nz (xnthread_test_state (threads w1 thread) XNREADY));
      [|exact H1].
    apply pod_ok_on_thread.
    - apply (pod_ok_threads w1); [reflexivity | exact H1].
    - simp_threads. apply thread_ok_clear. apply H1. }
  set (w3 := on_thread thread _ w2).
  assert (H3 : pod_ok w3).
  { apply pod_ok_on_thread; [exact H2|].
    apply (thread_ok_same (threads w2 thread)); [reflexivity | reflexivity | apply H2]. }
  set (w4 := if nz (xnthread_test_state (threads w3 thread) XNPEND) then _ else w3).
  assert (H4 : pod_ok w4).
  { unfold w4. destruct (nz (xnthread_test_state (threads w3 thread) XNPEND));
      [|exact H3].
    apply (forget_sleeper_ok thread w3);
      [exact H3 | apply same_except_refl | apply H3]. }
  clearbody w4. clear w1 w2 w3 H1 H2 H3.
  destruct Hkeep as [Hsched [Hrel _]].
  set (w5 := xnsynch_release_all_ownerships thread w4).
  assert (H5 : pod_ok w5) by (apply Hrel; exact H4).
  set (w6 := xnpod_giveup_fpu cfg cpu thread w5).
  assert (H6 : pod_ok w6).
  { apply (pod_ok_threads w5); [|exact H5].
    unfold w6, xnpod_giveup_fpu. destruct (CONFIG_XENO_HW_FPU cfg); [|reflexivity].
    destruct (fpuholder (slots w5 cpu)); [|reflexivity].
    destruct (Nat.eqb thread t); reflexivity. }
  set (w7 := on_thread thread (xnthread_set_state XNZOMBIE) w6).
  assert (H7 : pod_ok w7).
  { apply pod_ok_on_thread; [exact H6|].
    apply thread_ok_set_neutral; [reflexivity | reflexivity | apply H6]. }
  clearbody w7. clear w5 w6 H5 H6.
  destruct (Nat.eqb (curr (slots w7 cpu)) thread).
  { apply Hsched. apply (pod_ok_threads w7); [reflexivity | exact H7]. }
  destruct (_ || _); [|exact H7].
  set (w8 := if _ && _ then _ else w7).
  assert (E8 : threads w8 = threads w7).
  { unfold w8. destruct (_ && _); [apply threads_fire_callouts | reflexivity]. }
  clearbody w8.
  apply (pod_ok_threads w7); [|exact H7].
  set (w9 := emit (EvFinalizeNoSwitch thread) (emit (EvCleanupTcb thread) w8)).
  destruct (nz (xnthread_test_state (threads w9 (curr (slots w9 cpu))) XNROOT));
    exact E8.
Qed.

End StartDelete.

(** ** The invariant along any run *)

Lemma run_operation_ok (cfg : config) {col : Collaborators} (op : operation)
    (w : world) :
  collaborators_keep col pod_ok -> admissible op -> pod_ok w ->
  pod_ok (run_operation cfg w op).
Proof.
  intros Hkeep Hadm H0. destruct op; cbn [run_operation].
  - destruct Hadm as [Hmask Hchan]. apply suspend_ok; assumption.
  - apply resume_ok. exact H0.
  - apply unblock_ok. exact H0.
  - apply start_ok; assumption.
  - apply delete_ok; assumption.
Qed.

Lemma pod_ok_excludes (w : world) :
  pod_ok w -> forall t, ready_and_blocked (threads w t) = false.
Proof. intros H t. apply H. Qed.

(** C1. Start from a pod where no thread has READY together with a
    blocking bit and where PEND comes with a wait channel, and run any
    sequence of suspend_thread, resume_thread, unblock_thread, start_thread
    and delete_thread, the suspensions with a mask of blocking bits and a
    wait channel when they pend.  As long as the rescheduling procedure,
    the release of ownerships and the shadow start keep the invariant, no
    thread ever has READY set together with a blocking bit: suspend
    clears READY before it sets the mask, and resume sets READY only on a
    thread without blocking bit. *)
Theorem ready_excludes_blocking (cfg : config) {col : Collaborators}
    (ops : list operation) (w : world) :
  collaborators_keep col pod_ok ->
  Forall admissible ops ->
  pod_ok w ->
  forall t, ready_and_blocked (threads (fold_left (run_operation cfg) ops w) t) = false.
Proof.
  intros Hkeep Hadm. revert w.
  induction Hadm as [|op ops Hop Hops IH]; intros w H0; cbn [fold_left].
  - apply pod_ok_excludes. exact H0.
  - apply IH. apply run_operation_ok; assumption.
Qed.

Lemma quiet_keeps_pod_ok : collaborators_keep quiet pod_ok.
Proof.
  split; [|split].
  - intros w H. exact H.
  - intros t w H. exact H.
  - intros t w H. apply resume_ok. exact H.
Qed.

Lemma sample_world_ok (st inf : Z) :
  ready_and_blocked (sample_thread st inf None) = false ->
  Z.land st XNPEND = 0 ->
  pod_ok (sample_world (sample_thread st inf None)).
Proof.
  intros Hrb Hp t. destruct t as [|[|t]]; cbn [threads sample_world].
  - split; [reflexivity | intros H; discriminate H].
  - split; [exact Hrb|]. intros H. exfalso.
    apply nz_true in H. apply H. exact Hp.
  - split; [reflexivity | intros H; discriminate H].
Qed.

Lemma ready_excludes_blocking_witness :
  ready_and_blocked
    (threads
       (fold_left (run_operation all_on (col := quiet))
          [OpStart 1%nat 0 0 1 0 0;
           OpSuspend 1%nat XNPEND 20 XN_RELATIVE (Some 5%nat);
           OpSuspend 1%nat XNSUSP XN_INFINITE XN_RELATIVE None;
           OpResume 1%nat XNSUSP;
           OpUnblock 1%nat;
           OpDelete 1%nat]
          (sample_world (sample_thread XNDORMANT 0 None)))
       1%nat) = false.
Proof.
  apply (ready_excludes_blocking all_on (col := quiet)).
  - exact quiet_keeps_pod_ok.
  - repeat constructor; try discriminate; intros H; exfalso; apply H; reflexivity.
  - apply sample_world_ok; reflexivity.
Defined.

(** The run of the witness, step by step: the state word of thread 1
    after each operation. *)
Example sample_run_states :
  let step w op := run_operation all_on (col := quiet) w op in
  let w0 := sample_world (sample_thread XNDORMANT 0 None) in
  let w1 := step w0 (OpStart 1%nat 0 0 1 0 0) in
  let w2 := step w1 (OpSuspend 1%nat XNPEND 20 XN_RELATIVE (Some 5%nat)) in
  let w3 := step w2 (OpSuspend 1%nat XNSUSP XN_INFINITE XN_RELATIVE None) in
  let w4 := step w3 (OpResume 1%nat XNSUSP) in
  let w5 := step w4 (OpUnblock 1%nat) in
  let w6 := step w5 (OpDelete 1%nat) in
  map (fun w => state (threads w 1%nat)) [w0; w1; w2; w3; w4; w5; w6]
  = [XNDORMANT;
     Z.lor XNSTARTED XNREADY;
     Z.lor XNSTARTED (Z.lor XNPEND XNDELAY);
     Z.lor XNSTARTED (Z.lor XNPEND (Z.lor XNDELAY XNSUSP));
     Z.lor XNSTARTED (Z.lor XNPEND XNDELAY);
     Z.lor XNSTARTED XNREADY;
     Z.lor XNSTARTED XNZOMBIE].
Proof. vm_compute. reflexivity. Qed.

(** The wait channel that comes with PEND is needed: a thread made to
    pend with a timeout and no channel gets READY next to PEND when the
    timeout is resumed. *)
Example pend_without_channel_breaks_invariant :
  let w0 := sample_world (sample_thread (Z.lor XNSTARTED XNREADY) 0 None) in
  let w1 :=
    xnpod_suspend_thread all_on (col := quiet) 1%nat XNPEND 20 XN_RELATIVE None w0 in
  let w2 := xnpod_resume_thread 1%nat XNDELAY w1 in
  ready_and_blocked (threads w0 1%nat) = false
  /\ ready_and_blocked (threads w2 1%nat) = true.
Proof. vm_compute. split; reflexivity. Qed.

(** * Further properties of the pod services *)

(** ** Round-robin activation *)

(** A walk over a thread list that edits the control blocks holding RRB
    with an edit that keeps the state word and is idempotent. *)
Lemma rr_walk_threads (g : xnthread -> xnthread) (l : list tid) :
  (forall th, state (g th) = state th) ->
  (forall th, g (g th) = g th) ->
  forall (acc : world) (t : tid),
    threads
      (fold_left
         (fun a thread =>
            if nz (xnthread_test_state (threads a thread) XNRRB)
            then on_thread thread g a else a) l acc) t
    = if existsb (Nat.eqb t) l && nz (xnthread_test_state (threads acc t) XNRRB)
      then g (threads acc t) else threads acc t.
Proof.
  intros Hst Hid. induction l as [|a l IH]; intros acc t; cbn [fold_left existsb].
  - reflexivity.
  - rewrite IH. clear IH.
    destruct (Nat.eqb t a) eqn:E.
    + apply Nat.eqb_eq in E. subst a. cbn [orb].
      destruct (nz (xnthread_test_state (threads acc t) XNRRB)) eqn:R.
      * rewrite threads_on_thread_same.
        unfold xnthread_test_state in *. rewrite Hst, R, Hid.
        destruct (existsb (Nat.eqb t) l); reflexivity.
      * rewrite R. rewrite andb_false_r. reflexivity.
    + cbn [orb]. apply Nat.eqb_neq in E.
      destruct (nz (xnthread_test_state (threads acc a) XNRRB)).
      * rewrite threads_on_thread_other by exact E. reflexivity.
      * reflexivity.
Qed.

Lemma rr_walk_frame (g : xnthread -> xnthread) (l : list tid) (acc : world) :
  let w' :=
    fold_left
      (fun a thread =>
         if nz (xnthread_test_state (threads a thread) XNRRB)
         then on_thread thread g a else a) l acc in
  slots w' = slots acc /\ nkpod w' = nkpod acc /\ trace w' = trace acc.
Proof.
  cbv zeta. revert acc. induction l as [|a l IH]; intros acc; cbn [fold_left].
  - repeat split.
  - destruct (IH (if nz (xnthread_test_state (threads acc a) XNRRB)
                  then on_thread a g acc else acc)) as [H1 [H2 H3]].
    rewrite H1, H2, H3.
    destruct (nz (xnthread_test_state (threads acc a) XNRRB)); repeat split.
Qed.

Lemma activate_rr_threads (quantum : Z) (w : world) (t : tid) :
  threads (xnpod_activate_rr quantum w) t
  = if existsb (Nat.eqb t) (threadq (nkpod w))
       && nz (xnthread_test_state (threads w t) XNRRB)
    then with_rr quantum quantum (threads w t)
    else threads w t.
Proof.
  unfold xnpod_activate_rr. apply rr_walk_threads; intros th; reflexivity.
Qed.

Lemma deactivate_rr_threads (w : world) (t : tid) :
  threads (xnpod_deactivate_rr w) t
  = if existsb (Nat.eqb t) (threadq (nkpod w))
       && nz (xnthread_test_state (threads w t) XNRRB)
    then with_rrcredit XN_INFINITE (threads w t)
    else threads w t.
Proof.
  unfold xnpod_deactivate_rr. apply rr_walk_threads; intros th; reflexivity.
Qed.

(** X1. xnpod_activate_rr gives the quantum, as period and as credit, to
    the threads of the pod's list that hold RRB, and to them only: every
    other control block, the state word of every thread, the scheduler
    slots, the pod and the trace are as before. *)
Theorem activate_rr_reloads_rrb_threads (quantum : Z) (w : world) :
  let w' := xnpod_activate_rr quantum w in
  (forall t,
     threads w' t
     = if existsb (Nat.eqb t) (threadq (nkpod w))
          && nz (xnthread_test_state (threads w t) XNRRB)
       then with_rr quantum quantum (threads w t)
       else threads w t)
  /\ (forall t, state (threads w' t) = state (threads w t))
  /\ slots w' = slots w /\ nkpod w' = nkpod w /\ trace w' = trace w.
Proof.
  cbv zeta. split; [|split].
  - intros t. apply activate_rr_threads.
  - intros t. rewrite activate_rr_threads. destruct (_ && _); reflexivity.
  - unfold xnpod_activate_rr. apply rr_walk_frame.
Qed.

(** X2. xnpod_deactivate_rr makes the credit of the listed RRB threads
    unbounded and keeps their period and their RRB bit, so that a later
    activation reaches the same threads: activating after a deactivation
    gives the control blocks that activating alone gives. *)
Theorem deactivate_rr_keeps_policy (quantum : Z) (w : world) :
  let w1 := xnpod_deactivate_rr w in
  (forall t,
     rrcredit (threads w1 t)
     = if existsb (Nat.eqb t) (threadq (nkpod w))
          && nz (xnthread_test_state (threads w t) XNRRB)
       then XN_INFINITE
       else rrcredit (threads w t))
  /\ (forall t, rrperiod (threads w1 t) = rrperiod (threads w t)
                /\ state (threads w1 t) = state (threads w t))
  /\ (forall t, threads (xnpod_activate_rr quantum w1) t
                = threads (xnpod_activate_rr quantum w) t).
Proof.
  cbv zeta. split; [|split].
  - intros t. rewrite deactivate_rr_threads. destruct (_ && _); reflexivity.
  - intros t. rewrite deactivate_rr_threads. destruct (_ && _); split; reflexivity.
  - intros t. rewrite !activate_rr_threads.
    assert (Hpod : nkpod (xnpod_deactivate_rr w) = nkpod w).
    { unfold xnpod_deactivate_rr. apply rr_walk_frame. }
    rewrite Hpod, deactivate_rr_threads.
    destruct (existsb (Nat.eqb t) (threadq (nkpod w))); cbn [andb]; [|reflexivity].
    destruct (nz (xnthread_test_state (threads w t) XNRRB)) eqn:R.
    + unfold xnthread_test_state in *. cbn [state with_rrcredit]. rewrite R.
      reflexivity.
    + rewrite R. reflexivity.
Qed.

(** ** Suspend and resume together *)

(** Equalities of flag words under hypotheses on flag words, bit by bit. *)
Ltac bits_under :=
  let n := fresh "n" in
  let Hn := fresh "Hn" in
  apply Z.bits_inj'; intros n Hn;
  repeat match goal with
         | H : @eq Z _ _ |- _ =>
             apply (f_equal (fun x => Z.testbit x n)) in H; cbv beta in H
         end;
  repeat match goal with
         | H : _ |- _ =>
             progress rewrite ?Z.lor_spec, ?Z.land_spec, ?Z.ldiff_spec, ?Z.bits_0,
               ?Z.lnot_spec in H by assumption
         end;
  repeat (rewrite ?Z.lor_spec, ?Z.land_spec, ?Z.ldiff_spec, ?Z.bits_0,
            ?Z.lnot_spec by assumption);
  repeat match goal with
         | |- context [Z.testbit ?a n] => destruct (Z.testbit a n)
         | H : context [Z.testbit ?a n] |- _ => destruct (Z.testbit a n)
         end;
  cbn in *; congruence.

Lemma setbits_clrbits_outside (x m b : Z) :
  Z.land x b = 0 -> Z.ldiff m b = 0 -> clrbits (setbits x m) m = x.
Proof. unfold clrbits, setbits. intros H1 H2. bits_under. Qed.

Lemma clrbits_absent (x p b : Z) :
  Z.land x b = 0 -> Z.land p b = p -> clrbits x p = x.
Proof. unfold clrbits. intros H1 H2. bits_under. Qed.

Lemma setbits_after_clrbits (s r : Z) : setbits (clrbits s r) r = setbits s r.
Proof. unfold clrbits, setbits. bits. Qed.

Lemma mask_inside (m b : Z) : Z.ldiff m b = 0 -> Z.land m b = m.
Proof. intros H. bits_under. Qed.

Lemma testbits_clrbits_disjoint (s r b : Z) :
  Z.land r b = 0 -> testbits (clrbits s r) b = testbits s b.
Proof. unfold testbits, clrbits. intros H. bits_under. Qed.

Lemma curr_on_slot_runnable (cpu c : nat) (f : list tid -> list tid) (w : world) :
  curr (slots (on_slot cpu (fun s => with_runnable (f (runnable s)) s) w) c)
  = curr (slots w c).
Proof.
  cbn [slots on_slot with_slots]. unfold upd.
  destruct (Nat.eqb c cpu) eqn:E; [|reflexivity].
  apply Nat.eqb_eq in E. subst c. reflexivity.
Qed.

Lemma curr_dequeue (thread : tid) (c : nat) (w : world) :
  curr (slots (xnsched_dequeue thread w) c) = curr (slots w c).
Proof.
  unfold xnsched_dequeue.
  apply (curr_on_slot_runnable _ c (remove Nat.eq_dec thread)).
Qed.

Lemma runnable_enqueue (thread : tid) (w : world) :
  In thread (runnable (slots (xnsched_enqueue thread w) (sched (threads w thread)))).
Proof.
  unfold xnsched_enqueue. cbn [slots on_slot with_slots]. rewrite upd_same.
  cbn [runnable with_runnable]. apply in_or_app. right. left. reflexivity.
Qed.

(** Label enqueue leaves the thread READY, on the ready queue of its slot,
    and the slot flagged in the mask of the calling CPU. *)
Lemma resume_enqueue_effect (thread : tid) (w : world) :
  let cpu := sched (threads w thread) in
  let w' := resume_enqueue thread cpu w in
  threads w' thread = xnthread_set_state XNREADY (threads w thread)
  /\ (forall t, t <> thread -> threads w' t = threads w t)
  /\ In thread (runnable (slots w' cpu))
  /\ Z.testbit (resched (slots w' (current_cpu w))) (Z.of_nat cpu) = true.
Proof.
  cbv zeta. unfold resume_enqueue. split; [|split; [|split]].
  - simp_threads. reflexivity.
  - intros t Ht. cbn [threads xnsched_set_resched on_slot with_slots].
    rewrite threads_on_thread_other by exact Ht. reflexivity.
  - pose proof (runnable_enqueue thread w) as Hin.
    unfold xnsched_set_resched.
    cbn [slots on_slot with_slots on_thread with_threads current_cpu] in *.
    unfold upd at 1.
    destruct (Nat.eqb (sched (threads w thread))
                (current_cpu (xnsched_enqueue thread w))) eqn:E.
    + apply Nat.eqb_eq in E. cbn [runnable with_resched].
      rewrite <- E. exact Hin.
    + exact Hin.
  - unfold xnsched_set_resched.
    cbn [slots on_slot with_slots on_thread with_threads current_cpu xnsched_enqueue].
    rewrite upd_same. cbn [resched with_resched]. unfold setbits.
    rewrite Z.lor_spec, Z.shiftl_spec by lia.
    replace (Z.of_nat (sched (threads w thread)) - Z.of_nat (sched (threads w thread)))
      with 0 by lia.
    apply orb_true_r.
Qed.

Lemma ready_after_set (s : Z) : nz (testbits (setbits s XNREADY) XNREADY) = true.
Proof.
  apply nz_true. rewrite testbits_setbits. intros H.
  apply Z.lor_eq_0_iff in H. destruct H as [_ H]. discriminate H.
Qed.

(** What waking a thread up means for the scheduler. *)
Lemma resume_enqueue_wakes (thread : tid) (cpu c : nat) (w : world) :
  sched (threads w thread) = cpu -> current_cpu w = c ->
  let w' := resume_enqueue thread cpu w in
  nz (xnthread_test_state (threads w' thread) XNREADY) = true
  /\ In thread (runnable (slots w' cpu))
  /\ Z.testbit (resched (slots w' c)) (Z.of_nat cpu) = true.
Proof.
  intros Hs Hc. subst cpu c.
  destruct (resume_enqueue_effect thread w) as [Ht [_ [Hin Hr]]]. cbv zeta in *.
  split; [|split; assumption].
  rewrite Ht. apply ready_after_set.
Qed.

Lemma resume_clear_wchan_wakes (thread : tid) (cpu c : nat) (m : Z) (w : world) :
  sched (threads w thread) = cpu -> current_cpu w = c ->
  let w' := resume_clear_wchan thread cpu m w in
  nz (xnthread_test_state (threads w' thread) XNREADY) = true
  /\ In thread (runnable (slots w' cpu))
  /\ Z.testbit (resched (slots w' c)) (Z.of_nat cpu) = true.
Proof.
  intros Hs Hc. unfold resume_clear_wchan.
  destruct (nz (Z.land m (Z.lnot XNDELAY)) && is_some (wchan (threads w thread))).
  - apply (resume_enqueue_wakes thread cpu c).
    + unfold xnsynch_forget_sleeper. simp_threads. exact Hs.
    + exact Hc.
  - apply (resume_enqueue_wakes thread cpu c); assumption.
Qed.

(** X6. xnpod_resume_thread either wakes the thread up, which is then
    READY, on the ready queue of its slot, with the slot flagged for
    rescheduling in the mask of the calling CPU, or leaves every scheduler
    slot as it was. *)
Theorem resume_wakes_or_leaves_scheduler (thread : tid) (mask : Z) (w : world) :
  let cpu := sched (threads w thread) in
  let w' := xnpod_resume_thread thread mask w in
  (nz (xnthread_test_state (threads w' thread) XNREADY) = true
   /\ In thread (runnable (slots w' cpu))
   /\ Z.testbit (resched (slots w' (current_cpu w))) (Z.of_nat cpu) = true)
  \/ slots w' = slots w.
Proof.
  cbv zeta. unfold xnpod_resume_thread.
  set (cpu := sched (threads w thread)).
  destruct (negb (nz (xnthread_test_state (threads w thread) XNTHREAD_BLOCK_BITS))).
  { left. apply (resume_enqueue_wakes thread cpu (current_cpu w)).
    - destruct (nz (xnthread_test_state (threads w thread) XNREADY)); reflexivity.
    - destruct (nz (xnthread_test_state (threads w thread) XNREADY)); reflexivity. }
  set (w1 := on_thread thread (xnthread_clear_state mask) w).
  set (w2 := if nz (Z.land mask XNDELAY) then on_thread thread stop_rtimer w1 else w1).
  assert (Hs2 : sched (threads w2 thread) = cpu).
  { unfold w2, w1. destruct (nz (Z.land mask XNDELAY)); simp_threads; reflexivity. }
  assert (Hc2 : current_cpu w2 = current_cpu w).
  { unfold w2, w1. destruct (nz (Z.land mask XNDELAY)); reflexivity. }
  assert (Hsl2 : slots w2 = slots w).
  { unfold w2, w1. destruct (nz (Z.land mask XNDELAY)); reflexivity. }
  clearbody w2. clear w1.
  destruct (negb (nz (xnthread_test_state (threads w2 thread) XNTHREAD_BLOCK_BITS))).
  { left. apply resume_clear_wchan_wakes; assumption. }
  destruct (nz (Z.land mask XNDELAY)).
  - destruct (xnthread_test_state (threads w2 thread) XNPEND =? 0);
      [right; exact Hsl2|].
    destruct (is_some (wchan (threads w2 thread))).
    + destruct (nz (xnthread_test_state
                      (threads (xnsynch_forget_sleeper thread w2) thread)
                      XNTHREAD_BLOCK_BITS)).
      * right. exact Hsl2.
      * left. apply resume_clear_wchan_wakes.
        -- unfold xnsynch_forget_sleeper. simp_threads. exact Hs2.
        -- exact Hc2.
    + left. apply resume_clear_wchan_wakes; assumption.
  - destruct (nz (xnthread_test_state (threads w2 thread) XNDELAY)).
    + set (w3 := if nz (Z.land mask XNPEND) then _ else w2).
      assert (Hs3 : sched (threads w3 thread) = cpu).
      { unfold w3. destruct (nz (Z.land mask XNPEND)); simp_threads; exact Hs2. }
      assert (Hc3 : current_cpu w3 = current_cpu w).
      { unfold w3. destruct (nz (Z.land mask XNPEND)); exact Hc2. }
      assert (Hsl3 : slots w3 = slots w).
      { unfold w3. destruct (nz (Z.land mask XNPEND)); exact Hsl2. }
      clearbody w3.
      destruct (nz (xnthread_test_state (threads w3 thread) XNTHREAD_BLOCK_BITS)).
      * right. exact Hsl3.
      * left. apply resume_clear_wchan_wakes; assumption.
    + right. destruct (_ && _); exact Hsl2.
Qed.

(** A word whose blocking bits are exactly PEND and DELAY, under the
    two orders in which they are cleared. *)
Section PendDelay.

Variable s : Z.
Hypothesis Hblk : testbits s XNTHREAD_BLOCK_BITS = Z.lor XNPEND XNDELAY.

Ltac pend_delay_bits :=
  pose proof (eq_refl : Z.land XNPEND XNTHREAD_BLOCK_BITS = XNPEND);
  pose proof (eq_refl : Z.land XNDELAY XNTHREAD_BLOCK_BITS = XNDELAY);
  pose proof (eq_refl : Z.land XNPEND XNDELAY = 0);
  unfold testbits, clrbits in *; bits_under.

Lemma pend_cleared_blocking :
  testbits (clrbits s XNPEND) XNTHREAD_BLOCK_BITS = XNDELAY.
Proof. pend_delay_bits. Qed.

Lemma pend_cleared_delay : testbits (clrbits s XNPEND) XNDELAY = XNDELAY.
Proof. pend_delay_bits. Qed.

Lemma delay_cleared_blocking :
  testbits (clrbits s XNDELAY) XNTHREAD_BLOCK_BITS = XNPEND.
Proof. pend_delay_bits. Qed.

Lemma delay_cleared_pend : testbits (clrbits s XNDELAY) XNPEND = XNPEND.
Proof. pend_delay_bits. Qed.

Lemma both_cleared_pd :
  testbits (clrbits (clrbits s XNPEND) XNDELAY) XNTHREAD_BLOCK_BITS = 0.
Proof. pend_delay_bits. Qed.

Lemma both_cleared_dp :
  testbits (clrbits (clrbits s XNDELAY) XNPEND) XNTHREAD_BLOCK_BITS = 0.
Proof. pend_delay_bits. Qed.

End PendDelay.

Lemma resume_pend_before_timeout (thread : tid) (c : nat) (w : world) :
  let th := threads w thread in
  testbits (state th) XNTHREAD_BLOCK_BITS = Z.lor XNPEND XNDELAY ->
  wchan th = Some c ->
  threads (xnpod_resume_thread thread XNPEND w) thread
  = xnthread_set_state XNREADY
      (with_wchan None
         (xnthread_clear_state XNPEND
            (xnthread_clear_state XNDELAY
               (stop_rtimer (xnthread_clear_state XNPEND th))))).
Proof.
  intros th Hblk Hchan.
  unfold xnpod_resume_thread. fold th.
  unfold xnthread_test_state at 1. rewrite Hblk.
  change (negb (nz (Z.lor XNPEND XNDELAY))) with false. cbv iota.
  change (nz (Z.land XNPEND XNDELAY)) with false. cbv iota.
  change (nz (Z.land XNPEND XNPEND)) with true. cbv iota.
  unfold xnthread_test_state. simp_threads. fold th.
  cbn [state xnthread_clear_state with_state].
  rewrite (pend_cleared_blocking _ Hblk), (pend_cleared_delay _ Hblk).
  change (negb (nz XNDELAY)) with false. change (nz XNDELAY) with true. cbv iota.
  simp_threads. fold th. unfold stop_rtimer.
  cbn [state xnthread_clear_state with_state with_rtimer].
  rewrite (both_cleared_pd _ Hblk).
  change (nz 0) with false. cbv iota.
  unfold resume_clear_wchan, resume_enqueue, xnsynch_forget_sleeper.
  simp_threads. fold th.
  cbn [wchan xnthread_clear_state with_state with_rtimer]. rewrite Hchan.
  change (nz (Z.land XNPEND (Z.lnot XNDELAY)) && is_some (Some c)) with true.
  cbv iota. simp_threads. reflexivity.
Qed.

Lemma resume_timeout_before_pend (thread : tid) (c : nat) (w : world) :
  let th := threads w thread in
  testbits (state th) XNTHREAD_BLOCK_BITS = Z.lor XNPEND XNDELAY ->
  wchan th = Some c ->
  threads (xnpod_resume_thread thread XNDELAY w) thread
  = xnthread_set_state XNREADY
      (with_wchan None
         (xnthread_clear_state XNPEND
            (stop_rtimer (xnthread_clear_state XNDELAY th)))).
Proof.
  intros th Hblk Hchan.
  unfold xnpod_resume_thread. fold th.
  unfold xnthread_test_state at 1. rewrite Hblk.
  change (negb (nz (Z.lor XNPEND XNDELAY))) with false. cbv iota.
  change (nz (Z.land XNDELAY XNDELAY)) with true. cbv iota.
  unfold xnthread_test_state. simp_threads. fold th. unfold stop_rtimer.
  cbn [state wchan xnthread_clear_state with_state with_rtimer].
  rewrite (delay_cleared_blocking _ Hblk), (delay_cleared_pend _ Hblk).
  change (negb (nz XNPEND)) with false. change (XNPEND =? 0) with false. cbv iota.
  rewrite Hchan. cbn [is_some].
  unfold xnsynch_forget_sleeper at 1. simp_threads. fold th.
  cbn [state xnthread_clear_state with_state with_rtimer with_wchan].
  rewrite (both_cleared_dp _ Hblk).
  change (nz 0) with false. cbv iota.
  unfold resume_clear_wchan, resume_enqueue, xnsynch_forget_sleeper.
  simp_threads. fold th.
  cbn [wchan xnthread_clear_state with_state with_rtimer with_wchan is_some].
  rewrite andb_false_r. simp_threads. reflexivity.
Qed.

(** X4. A thread pends on a wait channel with a watchdog: PEND and DELAY
    are its only blocking bits.  Whichever comes first, the resource
    (resume with PEND) or the timeout (resume with DELAY), the thread ends
    READY with neither PEND nor DELAY, its wait channel forgotten and its
    resume timer stopped; the information word is not touched. *)
Theorem timed_wait_first_waker_readies (thread : tid) (mask : Z) (c : nat)
    (w : world) :
  let th := threads w thread in
  let th' := threads (xnpod_resume_thread thread mask w) thread in
  xnthread_test_state th XNTHREAD_BLOCK_BITS = Z.lor XNPEND XNDELAY ->
  wchan th = Some c ->
  mask = XNPEND \/ mask = XNDELAY ->
  state th' = setbits (clrbits (state th) (Z.lor XNPEND XNDELAY)) XNREADY
  /\ wchan th' = None
  /\ xntimer_running_p (rtimer th') = false
  /\ info th' = info th.
Proof.
  intros th th' Hblk Hchan Hmask. unfold th'. clear th'.
  unfold xnthread_test_state in Hblk.
  destruct Hmask as [-> | ->].
  - rewrite (resume_pend_before_timeout thread c w Hblk Hchan).
    split; [|repeat split].
    cbn [state xnthread_set_state xnthread_clear_state with_state
           with_wchan stop_rtimer with_rtimer].
    subst th. unfold setbits, clrbits. bits.
  - rewrite (resume_timeout_before_pend thread c w Hblk Hchan).
    split; [|repeat split].
    cbn [state xnthread_set_state xnthread_clear_state with_state
           with_wchan stop_rtimer with_rtimer].
    subst th. unfold setbits, clrbits. bits.
Qed.

Lemma resume_clear_wchan_tcb (thread : tid) (cpu : nat) (m : Z) (w : world) :
  let th := threads w thread in
  let w' := resume_clear_wchan thread cpu m w in
  threads w' thread
  = xnthread_set_state XNREADY
      (if nz (Z.land m (Z.lnot XNDELAY)) && is_some (wchan th)
       then with_wchan None (xnthread_clear_state XNPEND th) else th)
  /\ (forall t, t <> thread -> threads w' t = threads w t).
Proof.
  cbv zeta. unfold resume_clear_wchan, resume_enqueue, xnsynch_forget_sleeper.
  destruct (nz (Z.land m (Z.lnot XNDELAY)) && is_some (wchan (threads w thread))).
  - split; [simp_threads; reflexivity|].
    change (same_except thread w
              (xnsched_set_resched cpu
                 (on_thread thread (xnthread_set_state XNREADY)
                    (xnsched_enqueue thread
                       (on_thread thread
                          (fun th => with_wchan None (xnthread_clear_state XNPEND th))
                          w))))).
    except.
  - split; [simp_threads; reflexivity|].
    change (same_except thread w
              (xnsched_set_resched cpu
                 (on_thread thread (xnthread_set_state XNREADY)
                    (xnsched_enqueue thread w)))).
    except.
Qed.

(** Resuming the last blocking conditions of a thread. *)
Lemma resume_last_conditions (thread : tid) (mask : Z) (w : world) :
  let th := threads w thread in
  let w' := xnpod_resume_thread thread mask w in
  nz (xnthread_test_state th XNTHREAD_BLOCK_BITS) = true ->
  testbits (clrbits (state th) mask) XNTHREAD_BLOCK_BITS = 0 ->
  state (threads w' thread) = setbits (clrbits (state th) mask) XNREADY
  /\ (forall t, t <> thread -> threads w' t = threads w t)
  /\ In thread (runnable (slots w' (sched th)))
  /\ Z.testbit (resched (slots w' (current_cpu w))) (Z.of_nat (sched th)) = true.
Proof.
  intros th w' Hb Hlast. unfold w', xnpod_resume_thread. fold th.
  rewrite Hb. cbn [negb].
  set (w1 := on_thread thread (xnthread_clear_state mask) w).
  set (w2 := if nz (Z.land mask XNDELAY) then on_thread thread stop_rtimer w1 else w1).
  assert (Hst2 : state (threads w2 thread) = clrbits (state th) mask).
  { unfold w2, w1. destruct (nz (Z.land mask XNDELAY)); simp_threads; reflexivity. }
  assert (Hsc2 : sched (threads w2 thread) = sched th).
  { unfold w2, w1. destruct (nz (Z.land mask XNDELAY)); simp_threads; reflexivity. }
  assert (Hcc2 : current_cpu w2 = current_cpu w).
  { unfold w2, w1. destruct (nz (Z.land mask XNDELAY)); reflexivity. }
  assert (Hot2 : forall t, t <> thread -> threads w2 t = threads w t).
  { intros t Ht. unfold w2, w1.
    destruct (nz (Z.land mask XNDELAY));
      rewrite !threads_on_thread_other by exact Ht; reflexivity. }
  clearbody w2. clear w1.
  assert (Hnb : negb (nz (xnthread_test_state (threads w2 thread)
                                 XNTHREAD_BLOCK_BITS)) = true).
  { unfold xnthread_test_state. rewrite Hst2, Hlast. reflexivity. }
  rewrite Hnb.
  destruct (resume_clear_wchan_tcb thread (sched th) mask w2) as [Htcb Hoth].
  destruct (resume_clear_wchan_wakes thread (sched th) (current_cpu w) mask w2
              Hsc2 Hcc2) as [_ [Hin Hres]].
  cbv zeta in *. split; [|split; [|split]].
  - rewrite Htcb. destruct (_ && _).
    + cbn [state xnthread_set_state xnthread_clear_state with_state with_wchan].
      rewrite Hst2. f_equal.
      apply (clrbits_absent _ _ XNTHREAD_BLOCK_BITS); [exact Hlast | reflexivity].
    + cbn [state xnthread_set_state with_state]. rewrite Hst2. reflexivity.
  - intros t Ht. etransitivity; [apply Hoth | apply Hot2]; exact Ht.
  - exact Hin.
  - exact Hres.
Qed.

(** X5. When a resume clears the last blocking bits of a blocked thread,
    the thread becomes READY and keeps its other state bits, it joins the
    ready queue of its slot, the slot is flagged for rescheduling, and no
    other control block changes. *)
Theorem resume_of_last_condition_readies (thread : tid) (mask : Z) (w : world) :
  let th := threads w thread in
  let w' := xnpod_resume_thread thread mask w in
  nz (xnthread_test_state th XNTHREAD_BLOCK_BITS) = true ->
  testbits (clrbits (state th) mask) XNTHREAD_BLOCK_BITS = 0 ->
  state (threads w' thread) = setbits (clrbits (state th) mask) XNREADY
  /\ (forall t, t <> thread -> threads w' t = threads w t)
  /\ In thread (runnable (slots w' (sched th)))
  /\ Z.testbit (resched (slots w' (current_cpu w))) (Z.of_nat (sched th)) = true.
Proof. exact (resume_last_conditions thread mask w). Qed.

(** Suspending a runnable thread that is not running, without timeout. *)
Lemma suspend_forever_eq (cfg : config) {col : Collaborators} (thread : tid)
    (mask : Z) (chan : option nat) (w : world) :
  let th := threads w thread in
  Nat.eqb thread (curr (slots w (sched th))) = false ->
  testbits (state th) XNTHREAD_BLOCK_BITS = 0 ->
  CONFIG_XENO_OPT_PERVASIVE cfg && nz (xnthread_test_info th XNKICKED) = false ->
  xnpod_suspend_thread cfg thread mask XN_INFINITE XN_RELATIVE chan w
  = suspend_block cfg thread (sched th) mask chan
      (on_thread thread
         (xnthread_clear_info
            (Z.lor XNRMID (Z.lor XNTIMEO (Z.lor XNBREAK (Z.lor XNWAKEN XNROBBED)))))
         w).
Proof.
  intros th Hnc Hrun Hkick. unfold xnpod_suspend_thread. fold th.
  rewrite Hnc. unfold xnthread_test_state at 1. fold th. rewrite Hrun.
  cbn [nz Z.eqb negb]. rewrite Hkick.
  unfold suspend_arm. rewrite Z.eqb_refl. cbn [xntmode_eqb negb orb].
  reflexivity.
Qed.

Lemma suspend_block_tcb (cfg : config) {col : Collaborators} (thread : tid)
    (cpu : nat) (mask : Z) (chan : option nat) (w0 : world) :
  Nat.eqb thread (curr (slots w0 cpu)) = false ->
  let w1 := suspend_block cfg thread cpu mask chan w0 in
  state (threads w1 thread)
  = setbits (clrbits (state (threads w0 thread)) XNREADY) mask
  /\ sched (threads w1 thread) = sched (threads w0 thread)
  /\ same_except thread w0 w1.
Proof.
  intros Hnc. cbv zeta. unfold suspend_block.
  set (wa := if nz (xnthread_test_state (threads w0 thread) XNREADY)
             then on_thread thread (xnthread_clear_state XNREADY)
                    (xnsched_dequeue thread w0)
             else w0).
  assert (Hsta : state (threads wa thread)
                 = clrbits (state (threads w0 thread)) XNREADY).
  { unfold wa. destruct (nz (xnthread_test_state (threads w0 thread) XNREADY)) eqn:E.
    - simp_threads. reflexivity.
    - apply nz_false in E. unfold xnthread_test_state, testbits in E.
      unfold clrbits. symmetry. clear - E. bits_under. }
  assert (Hsca : sched (threads wa thread) = sched (threads w0 thread)).
  { unfold wa. destruct (nz (xnthread_test_state (threads w0 thread) XNREADY));
      simp_threads; reflexivity. }
  assert (Hcua : curr (slots wa cpu) = curr (slots w0 cpu)).
  { unfold wa.
    destruct (nz (xnthread_test_state (threads w0 thread) XNREADY)); [|reflexivity].
    cbn [slots on_thread with_threads]. apply curr_dequeue. }
  assert (Hexa : same_except thread w0 wa).
  { unfold wa. except. }
  clearbody wa.
  set (wb := match chan with
             | Some c => on_thread thread (with_wchan (Some c))
                           (on_thread thread (xnthread_set_state mask) wa)
             | None => on_thread thread (xnthread_set_state mask) wa
             end).
  assert (Hstb : state (threads wb thread)
                 = setbits (clrbits (state (threads w0 thread)) XNREADY) mask).
  { unfold wb. destruct chan; simp_threads;
      cbn [state with_wchan xnthread_set_state with_state]; rewrite Hsta; reflexivity. }
  assert (Hscb : sched (threads wb thread) = sched (threads w0 thread)).
  { unfold wb. destruct chan; simp_threads; exact Hsca. }
  assert (Hcub : curr (slots wb cpu) = curr (slots w0 cpu)).
  { unfold wb. destruct chan; apply Hcua. }
  assert (Hexb : same_except thread w0 wb).
  { unfold wb. except. }
  clearbody wb. rewrite Hcub, Hnc.
  destruct (_ && _ && _); [|auto].
  split; [exact Hstb|split; [exact Hscb|]]. apply same_except_emit. exact Hexb.
Qed.

Lemma suspend_forever_tcb (cfg : config) {col : Collaborators} (thread : tid)
    (mask : Z) (chan : option nat) (w : world) :
  let th := threads w thread in
  let w1 := xnpod_suspend_thread cfg thread mask XN_INFINITE XN_RELATIVE chan w in
  Nat.eqb thread (curr (slots w (sched th))) = false ->
  testbits (state th) XNTHREAD_BLOCK_BITS = 0 ->
  CONFIG_XENO_OPT_PERVASIVE cfg && nz (xnthread_test_info th XNKICKED) = false ->
  state (threads w1 thread) = setbits (clrbits (state th) XNREADY) mask
  /\ sched (threads w1 thread) = sched th
  /\ same_except thread w w1.
Proof.
  intros th w1 Hnc Hrun Hkick. unfold w1.
  rewrite (suspend_forever_eq cfg thread mask chan w Hnc Hrun Hkick).
  set (w0 := on_thread thread _ w).
  destruct (suspend_block_tcb cfg thread (sched (threads w thread)) mask chan w0 Hnc)
    as [H1 [H2 H3]].
  cbv zeta in *. split; [|split].
  - rewrite H1. unfold w0. simp_threads. reflexivity.
  - rewrite H2. unfold w0. simp_threads. reflexivity.
  - intros t Ht. rewrite (H3 t Ht). unfold w0.
    rewrite threads_on_thread_other by exact Ht. reflexivity.
Qed.

(** X3. Suspending a runnable thread that is not the running one, without
    timeout, and resuming it with the same blocking bits is a round trip on
    the state word up to the READY bit: in between the thread is not READY
    and carries the bits of the mask; afterwards it is READY with every other
    state bit as before, it sits on the ready queue of its slot, and no
    other control block has changed. *)
Theorem suspend_then_resume_round_trip (cfg : config) {col : Collaborators}
    (thread : tid) (mask : Z) (chan : option nat) (w : world) :
  let th := threads w thread in
  let w1 := xnpod_suspend_thread cfg thread mask XN_INFINITE XN_RELATIVE chan w in
  let w2 := xnpod_resume_thread thread mask w1 in
  Nat.eqb thread (curr (slots w (sched th))) = false ->
  testbits (state th) XNTHREAD_BLOCK_BITS = 0 ->
  CONFIG_XENO_OPT_PERVASIVE cfg && nz (xnthread_test_info th XNKICKED) = false ->
  Z.ldiff mask XNTHREAD_BLOCK_BITS = 0 -> mask <> 0 ->
  (xnthread_test_state (threads w1 thread) XNREADY = 0
   /\ xnthread_test_state (threads w1 thread) mask = mask)
  /\ state (threads w2 thread) = setbits (state th) XNREADY
  /\ In thread (runnable (slots w2 (sched th)))
  /\ (forall t, t <> thread -> threads w2 t = threads w t).
Proof.
  intros th w1 w2 Hnc Hrun Hkick Hin Hnz.
  destruct (suspend_forever_tcb cfg thread mask chan w Hnc Hrun Hkick)
    as [Hst [Hsc Hex]].
  fold th w1 in Hst, Hsc, Hex.
  assert (Hmr : Z.land mask XNREADY = 0).
  { unfold XNTHREAD_BLOCK_BITS in Hin.
    pose proof (eq_refl : Z.land XNTHREAD_BLOCK_BITS XNREADY = 0) as Hc.
    clear - Hin Hc. unfold XNTHREAD_BLOCK_BITS in Hc. bits_under. }
  assert (Hblocked : nz (xnthread_test_state (threads w1 thread) XNTHREAD_BLOCK_BITS)
                     = true).
  { apply nz_true. unfold xnthread_test_state, testbits. rewrite Hst. intros H0.
    apply Hnz. unfold setbits in H0. clear - H0 Hin. bits_under. }
  assert (Hlast : testbits (clrbits (state (threads w1 thread)) mask)
                    XNTHREAD_BLOCK_BITS = 0).
  { rewrite Hst. unfold testbits, clrbits, setbits in *. clear - Hrun. bits_under. }
  destruct (resume_last_conditions thread mask w1 Hblocked Hlast)
    as [Hst2 [Hoth [Hq _]]].
  fold w2 in Hst2, Hoth, Hq. rewrite Hsc in Hq.
  split; [split|split; [|split]].
  - unfold xnthread_test_state, testbits. rewrite Hst.
    unfold setbits, clrbits. clear - Hmr. bits_under.
  - unfold xnthread_test_state, testbits. rewrite Hst.
    unfold setbits, clrbits. bits.
  - rewrite Hst2, Hst. unfold setbits, clrbits, testbits in *.
    clear - Hrun Hin. bits_under.
  - exact Hq.
  - intros t Ht. rewrite (Hoth t Ht). apply Hex. exact Ht.
Qed.

Lemma timed_wait_first_waker_readies_witness :
  let w := sample_world
             (sample_thread (Z.lor XNSTARTED (Z.lor XNPEND XNDELAY)) 0 (Some 5%nat)) in
  let th' := threads (xnpod_resume_thread 1%nat XNDELAY w) 1%nat in
  state th' = Z.lor XNSTARTED XNREADY
  /\ wchan th' = None
  /\ xntimer_running_p (rtimer th') = false
  /\ info th' = 0.
Proof.
  apply (timed_wait_first_waker_readies 1%nat XNDELAY 5%nat
           (sample_world
              (sample_thread (Z.lor XNSTARTED (Z.lor XNPEND XNDELAY)) 0 (Some 5%nat)))).
  - reflexivity.
  - reflexivity.
  - right. reflexivity.
Defined.

Lemma resume_of_last_condition_readies_witness :
  let w := sample_world (sample_thread (Z.lor XNSTARTED XNSUSP) 0 None) in
  let w' := xnpod_resume_thread 1%nat XNSUSP w in
  state (threads w' 1%nat) = Z.lor XNSTARTED XNREADY
  /\ (forall t, t <> 1%nat -> threads w' t = threads w t)
  /\ In 1%nat (runnable (slots w' 0%nat))
  /\ Z.testbit (resched (slots w' 0%nat)) 0 = true.
Proof.
  apply (resume_of_last_condition_readies 1%nat XNSUSP
           (sample_world (sample_thread (Z.lor XNSTARTED XNSUSP) 0 None)));
    reflexivity.
Defined.

Lemma suspend_then_resume_round_trip_witness :
  let w := sample_world (sample_thread (Z.lor XNSTARTED XNREADY) 0 None) in
  let w1 := xnpod_suspend_thread all_on (col := quiet) 1%nat XNSUSP XN_INFINITE
              XN_RELATIVE None w in
  let w2 := xnpod_resume_thread 1%nat XNSUSP w1 in
  (xnthread_test_state (threads w1 1%nat) XNREADY = 0
   /\ xnthread_test_state (threads w1 1%nat) XNSUSP = XNSUSP)
  /\ state (threads w2 1%nat) = Z.lor XNSTARTED XNREADY
  /\ In 1%nat (runnable (slots w2 0%nat))
  /\ (forall t, t <> 1%nat -> threads w2 t = threads w t).
Proof.
  apply (suspend_then_resume_round_trip all_on (col := quiet) 1%nat XNSUSP None
           (sample_world (sample_thread (Z.lor XNSTARTED XNREADY) 0 None)));
    try reflexivity.
  discriminate.
Defined.

(** ** Hooks: registration undone *)

Lemma set_hookq_same (q : hookq_id) (p : xnpod) : set_hookq q (get_hookq q p) p = p.
Proof. destruct q, p; reflexivity. Qed.

Lemma set_hookq_twice (q : hookq_id) (l l' : list routine) (p : xnpod) :
  set_hookq q l' (set_hookq q l p) = set_hookq q l' p.
Proof. destruct q; reflexivity. Qed.

Lemma with_pod_same (w : world) : with_pod (nkpod w) w = w.
Proof. destruct w; reflexivity. Qed.

(** X7. A registration that succeeded is undone by removing the same
    routine under the same type: the removal answers 0 and the world,
    hence the three hook queues with the order of their other records, is
    as before the registration. *)
Theorem add_then_remove_hook_restores {col : Collaborators} (type : Z)
    (r : routine) (w : world) :
  fst (xnpod_add_hook type r w) = 0 ->
  xnpod_remove_hook type r (snd (xnpod_add_hook type r w)) = (0, w).
Proof.
  unfold xnpod_add_hook, xnpod_remove_hook.
  destruct (select_hookq type) as [q|] eqn:Eq; [|discriminate].
  destruct (xnmalloc w); [|discriminate]. intros _.
  cbn [snd nkpod with_pod]. rewrite get_set_hookq.
  replace (hookq_eqb q q) with true by (destruct q; reflexivity).
  unfold prependq. cbn [remove_first_hook]. rewrite Z.eqb_refl.
  rewrite set_hookq_twice, set_hookq_same.
  f_equal. destruct w; reflexivity.
Qed.

Lemma add_then_remove_hook_restores_witness :
  xnpod_remove_hook XNHOOK_THREAD_START 7
    (snd (xnpod_add_hook (col := quiet) XNHOOK_THREAD_START 7 hooked_world))
  = (0, hooked_world).
Proof.
  apply (add_then_remove_hook_restores (col := quiet) XNHOOK_THREAD_START 7
           hooked_world).
  reflexivity.
Defined.

(** ** Mode changes: the round-robin credit and the lock count *)

Lemma mode_part_test (s m : Z) :
  Z.land m XNTHREAD_MODE_BITS = m ->
  Z.land (Z.land s XNTHREAD_MODE_BITS) m = testbits s m.
Proof.
  intros H. unfold testbits. rewrite <- Z.land_assoc.
  rewrite (Z.land_comm XNTHREAD_MODE_BITS m), H. reflexivity.
Qed.

Lemma lock_sched_other (t : tid) (w : world) :
  t <> xnpod_current_thread w -> threads (xnpod_lock_sched w) t = threads w t.
Proof.
  intros Ht. unfold xnpod_lock_sched.
  rewrite threads_on_thread_other by exact Ht. reflexivity.
Qed.

(** The world after the two updates of the state word and the handling of
    the lock, as far as the thread is concerned. *)
Lemma set_thread_mode_steps (cfg : config) (thread : tid)
    (clrmask setmask : Z) (w : world) :
  let th := threads w thread in
  let th' := threads (snd (xnpod_set_thread_mode cfg thread clrmask setmask w)) thread in
  exists thl : xnthread,
    state th' = state thl
    /\ rrperiod thl = rrperiod th /\ rrcredit thl = rrcredit th
    /\ rrperiod th' = rrperiod th
    /\ rrcredit th'
       = (if negb (nz (xnthread_test_state th XNRRB))
             && nz (xnthread_test_state thl XNRRB)
          then rrperiod th else rrcredit th)
    /\ schedlck th' = schedlck thl
    /\ (Nat.eqb (xnpod_current_thread w) thread = false ->
        schedlck thl = schedlck th)
    /\ (Nat.eqb (xnpod_current_thread w) thread = true ->
        nz (xnthread_test_state th XNLOCK) = true ->
        schedlck thl = if nz (xnthread_test_state thl XNLOCK)
                       then schedlck th else 0)
    /\ same_except thread w (snd (xnpod_set_thread_mode cfg thread clrmask setmask w)).
Proof.
  cbv zeta. unfold xnpod_set_thread_mode. cbn [snd].
  set (sm := if CONFIG_XENO_OPT_ISHIELD cfg then setmask
             else clrbits setmask XNSHIELD).
  rewrite !mode_part_test by reflexivity.
  set (w1 := on_thread thread _ w).
  set (w2 := on_thread thread _ w1).
  assert (H2r : rrperiod (threads w2 thread) = rrperiod (threads w thread)
                /\ rrcredit (threads w2 thread) = rrcredit (threads w thread)
                /\ schedlck (threads w2 thread) = schedlck (threads w thread)).
  { unfold w2, w1. rewrite !threads_on_thread_same. repeat split. }
  assert (H2e : same_except thread w w2) by (unfold w2, w1; except).
  assert (H2c : xnpod_current_thread w2 = xnpod_current_thread w) by reflexivity.
  clearbody w2. clear w1.
  set (w3 := if Nat.eqb (xnpod_current_thread w) thread then _ else w2).
  exists (threads w3 thread).
  assert (H3r : rrperiod (threads w3 thread) = rrperiod (threads w thread)
                /\ rrcredit (threads w3 thread) = rrcredit (threads w thread)).
  { destruct H2r as [Hp [Hc _]]. unfold w3.
    destruct (Nat.eqb (xnpod_current_thread w) thread) eqn:Ec; [|split; assumption].
    apply Nat.eqb_eq in Ec.
    destruct (negb (nz (testbits (state (threads w thread)) XNLOCK))).
    - destruct (nz (xnthread_test_state (threads w2 thread) XNLOCK));
        [|split; assumption].
      unfold xnpod_lock_sched. rewrite H2c, Ec, threads_on_thread_same.
      destruct (schedlck (threads w2 thread) =? 0); split; assumption.
    - destruct (negb (nz (xnthread_test_state (threads w2 thread) XNLOCK)));
        [|split; assumption].
      rewrite threads_on_thread_same. split; assumption. }
  assert (H3e : same_except thread w w3).
  { unfold w3.
    destruct (Nat.eqb (xnpod_current_thread w) thread) eqn:Ec; [|exact H2e].
    apply Nat.eqb_eq in Ec.
    destruct (negb (nz (testbits (state (threads w thread)) XNLOCK))).
    - destruct (nz (xnthread_test_state (threads w2 thread) XNLOCK)); [|exact H2e].
      intros t Ht. rewrite lock_sched_other; [apply H2e; exact Ht|].
      rewrite H2c, Ec. exact Ht.
    - destruct (negb (nz (xnthread_test_state (threads w2 thread) XNLOCK)));
        [|exact H2e].
      apply same_except_on_thread. exact H2e. }
  assert (H3n : Nat.eqb (xnpod_current_thread w) thread = false ->
                schedlck (threads w3 thread) = schedlck (threads w thread)).
  { intros Ec. unfold w3. rewrite Ec. apply H2r. }
  assert (H3l : Nat.eqb (xnpod_current_thread w) thread = true ->
                nz (xnthread_test_state (threads w thread) XNLOCK) = true ->
                schedlck (threads w3 thread)
                = if nz (xnthread_test_state (threads w3 thread) XNLOCK)
                  then schedlck (threads w thread) else 0).
  { intros Ec Hl. unfold w3. rewrite Ec.
    unfold xnthread_test_state in Hl at 1. rewrite Hl. cbn [negb].
    destruct (nz (xnthread_test_state (threads w2 thread) XNLOCK)) eqn:El2; cbn [negb].
    - rewrite El2. apply H2r.
    - rewrite threads_on_thread_same.
      unfold xnthread_test_state in *. cbn [state with_schedlck]. rewrite El2.
      reflexivity. }
  clearbody w3.
  set (c4 := negb (nz (testbits (state (threads w thread)) XNRRB))
              && nz (xnthread_test_state (threads w3 thread) XNRRB)).
  set (w4 := if c4 then _ else w3).
  assert (H4 : state (threads w4 thread) = state (threads w3 thread)
               /\ rrperiod (threads w4 thread) = rrperiod (threads w thread)
               /\ rrcredit (threads w4 thread)
                  = (if c4 then rrperiod (threads w thread)
                     else rrcredit (threads w thread))
               /\ schedlck (threads w4 thread) = schedlck (threads w3 thread)
               /\ same_except thread w w4).
  { destruct H3r as [Hp Hc]. unfold w4. destruct c4.
    - rewrite threads_on_thread_same.
      cbn [state rrperiod rrcredit schedlck with_rrcredit].
      repeat split; try assumption. apply same_except_on_thread. exact H3e.
    - repeat split; assumption. }
  change (negb (nz (xnthread_test_state (threads w thread) XNRRB))
          && nz (xnthread_test_state (threads w3 thread) XNRRB)) with c4.
  clearbody c4.
  clearbody w4. destruct H4 as [H4s [H4p [H4c [H4l H4e]]]].
  destruct H3r as [Hp Hc].
  destruct (_ && _ && _ && _).
  - split; [exact H4s|]. split; [exact Hp|]. split; [exact Hc|].
    split; [exact H4p|]. split; [exact H4c|]. split; [exact H4l|].
    split; [exact H3n|]. split; [exact H3l|].
    apply same_except_emit. exact H4e.
  - split; [exact H4s|]. split; [exact Hp|]. split; [exact Hc|].
    split; [exact H4p|]. split; [exact H4c|]. split; [exact H4l|].
    split; [exact H3n|]. split; [exact H3l|]. exact H4e.
Qed.

(** X8. xnpod_set_thread_mode gives the thread a fresh round-robin credit,
    its period, exactly when the call turns RRB on; in every other case the
    credit is as before.  The period itself never changes, and no other
    control block is touched. *)
Theorem set_thread_mode_reloads_credit_when_rrb_turns_on (cfg : config)
    (thread : tid) (clrmask setmask : Z) (w : world) :
  let th := threads w thread in
  let w' := snd (xnpod_set_thread_mode cfg thread clrmask setmask w) in
  let th' := threads w' thread in
  rrperiod th' = rrperiod th
  /\ rrcredit th'
     = (if negb (nz (xnthread_test_state th XNRRB))
           && nz (xnthread_test_state th' XNRRB)
        then rrperiod th else rrcredit th)
  /\ (forall t, t <> thread -> threads w' t = threads w t).
Proof.
  cbv zeta.
  destruct (set_thread_mode_steps cfg thread clrmask setmask w)
    as [thl [Hs [_ [_ [Hp [Hc [_ [_ [_ He]]]]]]]]].
  cbv zeta in *. split; [exact Hp|]. split; [|exact He].
  unfold xnthread_test_state in *. rewrite Hs. exact Hc.
Qed.

(** X9. When the current thread holds LOCK and drops it through
    xnpod_set_thread_mode, its lock nesting count is reset to zero whatever
    its depth was; when it keeps LOCK the count is kept; and a mode change
    of a thread that is not the current one never touches that thread's
    count. *)
Theorem set_thread_mode_lock_count (cfg : config) (thread : tid)
    (clrmask setmask : Z) (w : world) :
  let th := threads w thread in
  let th' := threads (snd (xnpod_set_thread_mode cfg thread clrmask setmask w)) thread in
  (xnpod_current_thread w = thread ->
   nz (xnthread_test_state th XNLOCK) = true ->
   schedlck th' = if nz (xnthread_test_state th' XNLOCK) then schedlck th else 0)
  /\ (xnpod_current_thread w <> thread -> schedlck th' = schedlck th).
Proof.
  cbv zeta.
  destruct (set_thread_mode_steps cfg thread clrmask setmask w)
    as [thl [Hs [_ [_ [_ [_ [Hl [Hn [Hk _]]]]]]]]].
  cbv zeta in *. split.
  - intros Hc Hlock. rewrite Hl. unfold xnthread_test_state in *. rewrite Hs.
    apply Hk; [apply Nat.eqb_eq; exact Hc | exact Hlock].
  - intros Hc. rewrite Hl. apply Hn. apply Nat.eqb_neq. exact Hc.
Qed.

Lemma set_thread_mode_lock_count_witness :
  let th := with_schedlck 3 (sample_thread (Z.lor XNSTARTED XNLOCK) 0 None) in
  let w := sample_world_running th in
  schedlck (threads (snd (xnpod_set_thread_mode all_on 1%nat XNLOCK 0 w)) 1%nat) = 0.
Proof.
  cbv zeta.
  destruct (set_thread_mode_lock_count all_on 1%nat XNLOCK 0
              (sample_world_running
                 (with_schedlck 3 (sample_thread (Z.lor XNSTARTED XNLOCK) 0 None))))
    as [H _].
  rewrite H; reflexivity.
Defined.

(** ** Priorities and the ready queue *)

Lemma ready_bit_present (s : Z) : Z.land s XNREADY <> 0 -> Z.lor s XNREADY = s.
Proof.
  intros H. change XNREADY with (2 ^ 3) in *.
  destruct (Z.testbit s 3) eqn:E.
  - apply Z.bits_inj'. intros n Hn. rewrite Z.lor_spec, Z.pow2_bits_eqb by lia.
    destruct (Z.eqb_spec 3 n) as [<-|_].
    + rewrite E. reflexivity.
    + apply orb_false_r.
  - exfalso. apply H. apply Z.bits_inj'. intros n Hn.
    rewrite Z.land_spec, Z.pow2_bits_eqb, Z.bits_0 by lia.
    destruct (Z.eqb_spec 3 n) as [<-|_].
    + rewrite E. reflexivity.
    + apply andb_false_r.
Qed.

Lemma runnable_set_resched (c k : nat) (w : world) :
  runnable (slots (xnsched_set_resched c w) k) = runnable (slots w k).
Proof.
  unfold xnsched_set_resched. cbn [slots on_slot with_slots]. unfold upd.
  destruct (Nat.eqb k (current_cpu w)) eqn:E; [|reflexivity].
  apply Nat.eqb_eq in E. subst k. reflexivity.
Qed.

Lemma resched_set_resched (c : nat) (w : world) :
  Z.testbit (resched (slots (xnsched_set_resched c w) (current_cpu w))) (Z.of_nat c)
  = true.
Proof.
  unfold xnsched_set_resched. cbn [slots on_slot with_slots]. rewrite upd_same.
  cbn [resched with_resched]. unfold setbits.
  rewrite Z.lor_spec, Z.shiftl_spec by lia.
  replace (Z.of_nat c - Z.of_nat c) with 0 by lia. apply orb_true_r.
Qed.

(** xnsched_putback on the thread it moves. *)
Lemma putback_effect (thread : tid) (w : world) :
  let cpu := sched (threads w thread) in
  let w' := xnsched_putback thread w in
  threads w' thread = xnthread_set_state XNREADY (threads w thread)
  /\ state (threads w' thread) = setbits (state (threads w thread)) XNREADY
  /\ same_except thread w w'
  /\ In thread (runnable (slots w' cpu))
  /\ Z.testbit (resched (slots w' (current_cpu w))) (Z.of_nat cpu) = true
  /\ trace w' = trace w.
Proof.
  cbv zeta. unfold xnsched_putback.
  set (w1 := if nz (xnthread_test_state (threads w thread) XNREADY) then _ else _).
  assert (H1 : threads w1 thread = xnthread_set_state XNREADY (threads w thread)).
  { unfold w1.
    destruct (nz (xnthread_test_state (threads w thread) XNREADY)) eqn:E.
    - apply nz_true in E. unfold xnthread_test_state, testbits in E.
      cbn [threads xnsched_dequeue on_slot with_slots].
      unfold xnthread_set_state, setbits. rewrite (ready_bit_present _ E).
      destruct (threads w thread); reflexivity.
    - rewrite threads_on_thread_same. reflexivity. }
  assert (H1e : same_except thread w w1).
  { unfold w1. destruct (nz (xnthread_test_state (threads w thread) XNREADY)); except. }
  assert (H1c : current_cpu w1 = current_cpu w).
  { unfold w1. destruct (nz (xnthread_test_state (threads w thread) XNREADY));
      reflexivity. }
  assert (H1t : trace w1 = trace w).
  { unfold w1. destruct (nz (xnthread_test_state (threads w thread) XNREADY));
      reflexivity. }
  clearbody w1.
  assert (Hs : sched (threads w1 thread) = sched (threads w thread)).
  { rewrite H1. reflexivity. }
  split; [exact H1|].
  split; [change (state (threads w1 thread)
                  = setbits (state (threads w thread)) XNREADY);
          rewrite H1; reflexivity|].
  split; [exact H1e|].
  split; [|split; [|exact H1t]].
  - rewrite runnable_set_resched, <- Hs. apply runnable_enqueue.
  - rewrite <- H1c, <- Hs.
    apply (resched_set_resched (sched (threads w1 thread)) (xnsched_enqueue thread w1)).
Qed.

(** X10. xnpod_renice_thread moves the thread to the ready queue only when
    the new priority takes effect (the thread is not boosted, or the
    priority is raised) and the thread neither is blocked nor holds the
    scheduler lock: it is then READY, on the ready queue of its slot, and
    the slot is flagged for rescheduling.  In every other case the state
    word and all scheduler slots are as before: a blocked thread is not
    woken up by a change of priority.  No other control block changes. *)
Theorem renice_requeues_runnable_only (cfg : config) (thread : tid) (prio : Z)
    (w : world) :
  let th := threads w thread in
  let w' := xnpod_renice_thread cfg thread prio w in
  let effective := negb (nz (xnthread_test_state th XNBOOST)) || (prio >? cprio th) in
  let free :=
    negb (nz (xnthread_test_state th (Z.lor XNTHREAD_BLOCK_BITS XNLOCK))) in
  (if effective && free
   then state (threads w' thread) = setbits (state th) XNREADY
        /\ In thread (runnable (slots w' (sched th)))
        /\ Z.testbit (resched (slots w' (current_cpu w))) (Z.of_nat (sched th)) = true
   else state (threads w' thread) = state th /\ slots w' = slots w)
  /\ (forall t, t <> thread -> threads w' t = threads w t).
Proof.
  cbv zeta. unfold xnpod_renice_thread, xnpod_renice_thread_inner.
  set (w1 := on_thread thread (with_bprio prio) w).
  assert (Hb1 : xnthread_test_state (threads w1 thread) XNBOOST
                = xnthread_test_state (threads w thread) XNBOOST).
  { unfold w1. rewrite threads_on_thread_same. reflexivity. }
  rewrite Hb1.
  set (eff := negb (nz (xnthread_test_state (threads w thread) XNBOOST))
              || (prio >? cprio (threads w thread))).
  set (free := negb (nz (xnthread_test_state (threads w thread)
                           (Z.lor XNTHREAD_BLOCK_BITS XNLOCK)))).
  set (w2 := if eff then _ else w1).
  assert (H2 : (if eff && free
                then state (threads w2 thread) = setbits (state (threads w thread)) XNREADY
                     /\ In thread (runnable (slots w2 (sched (threads w thread))))
                     /\ Z.testbit (resched (slots w2 (current_cpu w)))
                          (Z.of_nat (sched (threads w thread))) = true
                else state (threads w2 thread) = state (threads w thread)
                     /\ slots w2 = slots w)
               /\ same_except thread w w2).
  { unfold w2. destruct eff; cbn [andb].
    - set (w3 := on_thread thread (with_cprio prio) w1).
      set (w4 := match wchan (threads w3 thread) with Some _ => _ | None => w3 end).
      assert (H4 : threads w4 thread = with_cprio prio (with_bprio prio (threads w thread))
                   /\ slots w4 = slots w /\ current_cpu w4 = current_cpu w
                   /\ same_except thread w w4).
      { unfold w4. destruct (wchan (threads w3 thread)).
        - destruct (_ && _); unfold w3, w1; (split; [simp_threads; reflexivity|]);
            (split; [reflexivity|]); (split; [reflexivity|]); except.
        - unfold w3, w1; (split; [simp_threads; reflexivity|]);
            (split; [reflexivity|]); (split; [reflexivity|]); except. }
      clearbody w4. destruct H4 as [H4t [H4s [H4c H4e]]].
      assert (Hfree : negb (nz (xnthread_test_state (threads w4 thread)
                                  (Z.lor XNTHREAD_BLOCK_BITS XNLOCK))) = free).
      { rewrite H4t. reflexivity. }
      rewrite Hfree. destruct free.
      + destruct (putback_effect thread w4) as [_ [Hst [Hex [Hin [Hrs _]]]]].
        cbv zeta in *. rewrite H4t in Hst, Hin, Hrs. rewrite H4c in Hrs.
        split; [split; [exact Hst | split; [exact Hin | exact Hrs]]|].
        intros t Ht. rewrite (Hex t Ht). apply H4e. exact Ht.
      + split; [|exact H4e]. split; [rewrite H4t; reflexivity | exact H4s].
    - split; [|unfold w1; except].
      split; [unfold w1; rewrite threads_on_thread_same; reflexivity | reflexivity]. }
  clearbody w2. destruct H2 as [H2a H2e].
  destruct (CONFIG_XENO_OPT_PERVASIVE cfg && nz 1); [|split; assumption].
  destruct (nz (xnthread_test_state (threads w2 thread) XNRELAX)).
  { split; [exact H2a | apply same_except_emit; exact H2e]. }
  destruct (nz (xnthread_test_state (threads w2 thread) XNSHADOW));
    [|split; assumption].
  split; [|apply same_except_on_thread; exact H2e].
  rewrite threads_on_thread_same. exact H2a.
Qed.

(** ** Deletion *)

Lemma slot_facts_on_runnable (cpu c : nat) (f : list tid -> list tid) (w : world) :
  let w' := on_slot cpu (fun s => with_runnable (f (runnable s)) s) w in
  curr (slots w' c) = curr (slots w c)
  /\ status (slots w' c) = status (slots w c)
  /\ fpuholder (slots w' c) = fpuholder (slots w c).
Proof.
  cbv zeta. cbn [slots on_slot with_slots]. unfold upd.
  destruct (Nat.eqb c cpu) eqn:E; [|repeat split].
  apply Nat.eqb_eq in E. subst c. repeat split.
Qed.

Lemma dequeue_not_runnable (thread : tid) (w : world) :
  ~ In thread (runnable (slots (xnsched_dequeue thread w) (sched (threads w thread)))).
Proof.
  unfold xnsched_dequeue. cbn [slots on_slot with_slots]. rewrite upd_same.
  cbn [runnable with_runnable]. apply remove_In.
Qed.

Lemma giveup_fpu_facts (cfg : config) (cpu : nat) (thread : tid) (w : world) :
  let w' := xnpod_giveup_fpu cfg cpu thread w in
  threads w' = threads w /\ nkpod w' = nkpod w /\ trace w' = trace w
  /\ current_cpu w' = current_cpu w
  /\ (forall c, curr (slots w' c) = curr (slots w c)
                /\ status (slots w' c) = status (slots w c)
                /\ runnable (slots w' c) = runnable (slots w c))
  /\ (CONFIG_XENO_HW_FPU cfg = true -> fpuholder (slots w' cpu) <> Some thread).
Proof.
  cbv zeta. unfold xnpod_giveup_fpu.
  destruct (CONFIG_XENO_HW_FPU cfg); [|repeat split; discriminate].
  destruct (fpuholder (slots w cpu)) as [h|] eqn:Eh;
    [|repeat split; intros _; rewrite Eh; discriminate].
  destruct (Nat.eqb thread h) eqn:E.
  - split; [reflexivity|]. split; [reflexivity|]. split; [reflexivity|].
    split; [reflexivity|]. split.
    + intros c. cbn [slots on_slot with_slots]. unfold upd.
      destruct (Nat.eqb c cpu) eqn:Ec; [|repeat split].
      apply Nat.eqb_eq in Ec. subst c. repeat split.
    + intros _. cbn [slots on_slot with_slots]. rewrite upd_same.
      cbn [fpuholder with_fpuholder]. discriminate.
  - repeat split. intros _. rewrite Eh. intros [= ->].
    rewrite Nat.eqb_refl in E. discriminate.
Qed.

Lemma fold_emit_facts (thread : tid) (q : list routine) (w : world) :
  let w' := fold_left (fun acc r => emit (EvCallout r thread) acc) q w in
  threads w' = threads w /\ slots w' = slots w /\ nkpod w' = nkpod w
  /\ current_cpu w' = current_cpu w
  /\ trace w' = trace w ++ map (fun r => EvCallout r thread) q.
Proof.
  cbv zeta. revert w. induction q as [|r q IH]; intros w; cbn [fold_left map].
  - rewrite app_nil_r. repeat split.
  - destruct (IH (emit (EvCallout r thread) w)) as [H1 [H2 [H3 [H4 H5]]]].
    rewrite H1, H2, H3, H4, H5. cbn [threads slots nkpod current_cpu trace emit].
    rewrite <- app_assoc. repeat split.
Qed.

Lemma fire_callouts_facts (q : list routine) (thread : tid) (w : world) :
  let w' := xnpod_fire_callouts q thread w in
  threads w' = threads w /\ nkpod w' = nkpod w
  /\ trace w' = trace w ++ map (fun r => EvCallout r thread) q
  /\ (forall c, runnable (slots w' c) = runnable (slots w c)
                /\ curr (slots w' c) = curr (slots w c)
                /\ fpuholder (slots w' c) = fpuholder (slots w c)).
Proof.
  cbv zeta. unfold xnpod_fire_callouts.
  set (w1 := on_slot (current_cpu w) _ w).
  destruct (fold_emit_facts thread q w1) as [H1 [H2 [H3 [H4 H5]]]].
  cbv zeta in *. cbn [threads nkpod trace on_slot with_slots slots].
  rewrite H1, H2, H3, H5. split; [reflexivity|]. split; [reflexivity|].
  split; [reflexivity|]. intros c. unfold upd.
  destruct (Nat.eqb c (current_cpu w)) eqn:E; [|unfold w1].
  - apply Nat.eqb_eq in E. subst c. unfold w1.
    cbn [slots on_slot with_slots]. rewrite upd_same. repeat split.
  - cbn [slots on_slot with_slots]. unfold upd. rewrite E. repeat split.
Qed.

Section Deletion.

Context (cfg : config) {col : Collaborators} (thread : tid).

(** The thread owns no resource of the synch layer. *)
Hypothesis Hown : forall w0, xnsynch_release_all_ownerships thread w0 = w0.

(** The teardown that precedes the choice between rescheduling and
    finalizing on the spot. *)
Lemma delete_to_zombie (w : world) :
  let th := threads w thread in
  let cpu := sched th in
  nz (xnthread_test_state th XNZOMBIE) = false ->
  CONFIG_XENO_OPT_PERVASIVE cfg && user_task th
    && negb (nz (xnthread_test_state th XNDORMANT))
    && negb (xnpod_current_p thread w) = false ->
  exists w7 : world,
    xnpod_delete_thread cfg thread w
    = (if Nat.eqb (curr (slots w7 cpu)) thread
       then xnpod_schedule (xnsched_set_resched cpu w7)
       else if negb (CONFIG_XENO_HW_UNLOCKED_SWITCH cfg)
               || (negb (nz (testbits (status (slots w7 cpu)) XNSWLOCK))
                   && negb (nz (xnthread_test_state (threads w7 thread) XNMIGRATE)))
       then
         let w8 :=
           if negb (emptyq_p (tdeleteq (nkpod w7)))
              && negb (nz (xnthread_test_state (threads w7 thread) XNROOT))
           then xnpod_fire_callouts (tdeleteq (nkpod w7)) thread w7
           else w7 in
         let w9 := emit (EvFinalizeNoSwitch thread) (emit (EvCleanupTcb thread) w8) in
         if nz (xnthread_test_state (threads w9 (curr (slots w9 cpu))) XNROOT)
         then emit EvFreeSync w9
         else w9
       else w7)
    /\ state (threads w7 thread)
       = setbits (clrbits (state th) (Z.lor XNREADY XNPEND)) XNZOMBIE
    /\ wchan (threads w7 thread)
       = (if nz (xnthread_test_state th XNPEND) then None else wchan th)
    /\ xntimer_running_p (rtimer (threads w7 thread)) = false
    /\ xntimer_running_p (ptimer (threads w7 thread)) = false
    /\ same_except thread w w7
    /\ nkpod w7 = with_threadq (remove Nat.eq_dec thread (threadq (nkpod w)))
                    (threadq_rev (nkpod w) + 1) (nkpod w)
    /\ trace w7 = trace w
    /\ (forall c, curr (slots w7 c) = curr (slots w c)
                  /\ status (slots w7 c) = status (slots w c))
    /\ (nz (xnthread_test_state th XNREADY) = true ->
        ~ In thread (runnable (slots w7 cpu)))
    /\ (CONFIG_XENO_HW_FPU cfg = true -> fpuholder (slots w7 cpu) <> Some thread).
Proof.
  intros th cpu Hz Hd. unfold xnpod_delete_thread. fold th. rewrite Hz, Hd. fold cpu.
  set (w1 := with_pod _ w).
  set (w2 := if nz (xnthread_test_state (threads w1 thread) XNREADY) then _ else w1).
  assert (H2 : state (threads w2 thread) = clrbits (state th) XNREADY
               /\ wchan (threads w2 thread) = wchan th
               /\ sched (threads w2 thread) = cpu
               /\ same_except thread w w2
               /\ nkpod w2 = nkpod w1 /\ trace w2 = trace w
               /\ (forall c, curr (slots w2 c) = curr (slots w c)
                             /\ status (slots w2 c) = status (slots w c))
               /\ (nz (xnthread_test_state th XNREADY) = true ->
                   ~ In thread (runnable (slots w2 cpu)))).
  { unfold w2. change (threads w1 thread) with th.
    destruct (nz (xnthread_test_state th XNREADY)) eqn:E.
    - split; [simp_threads; reflexivity|]. split; [simp_threads; reflexivity|].
      split; [simp_threads; reflexivity|]. split; [unfold w1; except|].
      split; [reflexivity|]. split; [reflexivity|]. split.
      + intros c. cbn [slots on_thread with_threads]. unfold xnsched_dequeue.
        destruct (slot_facts_on_runnable (sched (threads w1 thread)) c
                    (remove Nat.eq_dec thread) w1) as [Hc [Hs _]].
        split; [exact Hc | exact Hs].
      + intros _. cbn [slots on_thread with_threads].
        apply (dequeue_not_runnable thread w1).
    - split.
      { apply nz_false in E. unfold xnthread_test_state, testbits in E.
        change (state (threads w1 thread)) with (state th).
        unfold clrbits. symmetry. clear - E. bits_under. }
      split; [reflexivity|]. split; [reflexivity|]. split; [unfold w1; except|].
      split; [reflexivity|]. split; [reflexivity|]. split.
      + intros c. split; reflexivity.
      + discriminate. }
  assert (Hp1 : nkpod w1 = with_threadq (remove Nat.eq_dec thread (threadq (nkpod w)))
                             (threadq_rev (nkpod w) + 1) (nkpod w)) by reflexivity.
  clearbody w2. destruct H2 as [H2s [H2w [H2c [H2e [H2p [H2t [H2sl H2r]]]]]]].
  rewrite Hp1 in H2p. clear w1 Hp1.
  set (w3 := on_thread thread _ w2).
  set (w4 := if nz (xnthread_test_state (threads w3 thread) XNPEND) then _ else w3).
  assert (H4 : state (threads w4 thread) = clrbits (state th) (Z.lor XNREADY XNPEND)
               /\ wchan (threads w4 thread)
                  = (if nz (xnthread_test_state th XNPEND) then None else wchan th)
               /\ xntimer_running_p (rtimer (threads w4 thread)) = false
               /\ xntimer_running_p (ptimer (threads w4 thread)) = false
               /\ same_except thread w w4
               /\ nkpod w4 = nkpod w2 /\ trace w4 = trace w2 /\ slots w4 = slots w2).
  { assert (Hpend : nz (xnthread_test_state (threads w3 thread) XNPEND)
                    = nz (xnthread_test_state th XNPEND)).
    { unfold w3. rewrite threads_on_thread_same. unfold xnthread_test_state.
      cbn [state with_ptimer with_rtimer]. rewrite H2s.
      rewrite testbits_clrbits_disjoint by reflexivity. reflexivity. }
    unfold w4. rewrite Hpend.
    destruct (nz (xnthread_test_state th XNPEND)) eqn:E.
    - unfold xnsynch_forget_sleeper, w3.
      split; [simp_threads;
              cbn [state with_wchan xnthread_clear_state with_state with_ptimer
                     with_rtimer];
              rewrite H2s; unfold clrbits; bits|].
      split; [simp_threads; reflexivity|].
      split; [simp_threads; reflexivity|].
      split; [simp_threads; reflexivity|].
      split; [except|]. repeat split.
    - unfold w3.
      split.
      { simp_threads. cbn [state with_ptimer with_rtimer]. rewrite H2s.
        apply nz_false in E. unfold xnthread_test_state, testbits in E.
        unfold clrbits. clear - E. bits_under. }
      split; [simp_threads; exact H2w|].
      split; [simp_threads; reflexivity|].
      split; [simp_threads; reflexivity|].
      split; [except|]. repeat split. }
  clearbody w4. destruct H4 as [H4s [H4w [H4r [H4p [H4e [H4k [H4t H4sl]]]]]]].
  clear w3. rewrite Hown.
  destruct (giveup_fpu_facts cfg cpu thread w4) as [G1 [G2 [G3 [G4 [G5 G6]]]]].
  cbv zeta in *.
  set (w6 := xnpod_giveup_fpu cfg cpu thread w4) in *. clearbody w6.
  exists (on_thread thread (xnthread_set_state XNZOMBIE) w6).
  split; [reflexivity|].
  rewrite threads_on_thread_same, G1.
  split; [cbn [state xnthread_set_state with_state]; rewrite H4s; reflexivity|].
  split; [exact H4w|]. split; [exact H4r|]. split; [exact H4p|].
  split.
  { apply same_except_on_thread. intros t Ht. rewrite G1. apply H4e. exact Ht. }
  split; [cbn [nkpod on_thread with_threads]; rewrite G2, H4k; exact H2p|].
  split; [cbn [trace on_thread with_threads]; rewrite G3, H4t; exact H2t|].
  split.
  { intros c. cbn [slots on_thread with_threads].
    destruct (G5 c) as [Gc [Gs _]]. rewrite Gc, Gs, H4sl. apply H2sl. }
  split.
  { intros Hr. cbn [slots on_thread with_threads].
    destruct (G5 cpu) as [_ [_ Gr]]. rewrite Gr, H4sl. apply H2r. exact Hr. }
  exact G6.
Qed.

Lemma zombie_word_test (s m : Z) :
  Z.land m (Z.lor XNREADY (Z.lor XNPEND XNZOMBIE)) = 0 ->
  testbits (setbits (clrbits s (Z.lor XNREADY XNPEND)) XNZOMBIE) m = testbits s m.
Proof.
  intros H. unfold testbits, setbits, clrbits.
  pose proof (eq_refl : Z.land XNZOMBIE (Z.lor XNREADY XNPEND) = 0) as Hc.
  revert H Hc. generalize XNREADY XNPEND XNZOMBIE. intros r p z H Hc. bits_under.
Qed.

Lemma zombie_word_zombie (s : Z) :
  nz (testbits (setbits (clrbits s (Z.lor XNREADY XNPEND)) XNZOMBIE) XNZOMBIE) = true.
Proof.
  apply nz_true. rewrite testbits_setbits. intros H.
  apply Z.lor_eq_0_iff in H. destruct H as [_ H]. discriminate H.
Qed.

(** Finalization on the spot: the world after the deletion of a live
    thread that is not running on its slot. *)
Lemma delete_on_the_spot (w : world) :
  let th := threads w thread in
  let cpu := sched th in
  let w' := xnpod_delete_thread cfg thread w in
  nz (xnthread_test_state th XNZOMBIE) = false ->
  CONFIG_XENO_OPT_PERVASIVE cfg && user_task th
    && negb (nz (xnthread_test_state th XNDORMANT))
    && negb (xnpod_current_p thread w) = false ->
  Nat.eqb (curr (slots w cpu)) thread = false ->
  negb (CONFIG_XENO_HW_UNLOCKED_SWITCH cfg)
    || (negb (nz (testbits (status (slots w cpu)) XNSWLOCK))
        && negb (nz (xnthread_test_state th XNMIGRATE))) = true ->
  (state (threads w' thread)
   = setbits (clrbits (state th) (Z.lor XNREADY XNPEND)) XNZOMBIE
   /\ wchan (threads w' thread)
      = (if nz (xnthread_test_state th XNPEND) then None else wchan th)
   /\ xntimer_running_p (rtimer (threads w' thread)) = false
   /\ xntimer_running_p (ptimer (threads w' thread)) = false
   /\ (forall t, t <> thread -> threads w' t = threads w t)
   /\ threadq (nkpod w') = remove Nat.eq_dec thread (threadq (nkpod w))
   /\ threadq_rev (nkpod w') = threadq_rev (nkpod w) + 1
   /\ (nz (xnthread_test_state th XNREADY) = true ->
       ~ In thread (runnable (slots w' cpu)))
   /\ (CONFIG_XENO_HW_FPU cfg = true -> fpuholder (slots w' cpu) <> Some thread))
  /\ trace w'
     = trace w
       ++ (if nz (xnthread_test_state th XNROOT) then []
           else map (fun r => EvCallout r thread) (tdeleteq (nkpod w)))
       ++ [EvCleanupTcb thread; EvFinalizeNoSwitch thread]
       ++ (if nz (xnthread_test_state (threads w (curr (slots w cpu))) XNROOT)
           then [EvFreeSync] else []).
Proof.
  intros th cpu w' Hz Hd Hnc Hfin.
  destruct (delete_to_zombie w Hz Hd)
    as [w7 [Heq [Hs [Hw [Hr [Hp [He [Hk [Ht [Hsl [Hq Hf]]]]]]]]]]].
  fold th cpu w' in Heq, Hs, Hw, Hr, Hp, Hk, Hsl, Hq, Hf. clearbody w'.
  clear Hz Hd.
  destruct (Hsl cpu) as [Hc Hst]. rewrite Hc, Hnc, Hst in Heq.
  assert (Hmig : xnthread_test_state (threads w7 thread) XNMIGRATE
                 = xnthread_test_state th XNMIGRATE).
  { unfold xnthread_test_state. rewrite Hs. apply zombie_word_test. reflexivity. }
  assert (Hroot : xnthread_test_state (threads w7 thread) XNROOT
                  = xnthread_test_state th XNROOT).
  { unfold xnthread_test_state. rewrite Hs. apply zombie_word_test. reflexivity. }
  rewrite Hmig, Hfin in Heq. cbv zeta in Heq. clear Hfin.
  rewrite Hroot in Heq.
  assert (Hdq : tdeleteq (nkpod w7) = tdeleteq (nkpod w)) by (rewrite Hk; reflexivity).
  rewrite Hdq in Heq.
  set (w8 := if negb (emptyq_p (tdeleteq (nkpod w)))
                && negb (nz (xnthread_test_state th XNROOT))
             then xnpod_fire_callouts (tdeleteq (nkpod w)) thread w7
             else w7) in Heq.
  assert (H8 : threads w8 = threads w7 /\ nkpod w8 = nkpod w7
               /\ (forall c, runnable (slots w8 c) = runnable (slots w7 c)
                             /\ curr (slots w8 c) = curr (slots w7 c)
                             /\ fpuholder (slots w8 c) = fpuholder (slots w7 c))
               /\ trace w8
                  = trace w
                    ++ (if nz (xnthread_test_state th XNROOT) then []
                        else map (fun r => EvCallout r thread) (tdeleteq (nkpod w)))).
  { unfold w8. destruct (nz (xnthread_test_state th XNROOT)); cbn [negb andb].
    - rewrite andb_false_r. rewrite app_nil_r. repeat split. exact Ht.
    - rewrite andb_true_r. destruct (tdeleteq (nkpod w)) as [|r q] eqn:Eq.
      + cbn [emptyq_p negb map]. rewrite app_nil_r. repeat split. exact Ht.
      + cbn [emptyq_p negb].
        destruct (fire_callouts_facts (r :: q) thread w7) as [F1 [F2 [F3 F4]]].
        cbv zeta in *. split; [exact F1|]. split; [exact F2|].
        split; [exact F4|]. rewrite F3, Ht. reflexivity. }
  clearbody w8. destruct H8 as [H8t [H8k [H8s H8r]]].
  cbn [threads slots emit] in Heq.
  destruct (H8s cpu) as [Hrq [Hcq Hfh]].
  rewrite Hcq, Hc, H8t in Heq.
  assert (Hcur : threads w7 (curr (slots w cpu)) = threads w (curr (slots w cpu))).
  { apply He. intros E. rewrite E, Nat.eqb_refl in Hnc. discriminate. }
  rewrite Hcur in Heq.
  assert (Hfacts : threads w' = threads w7 /\ nkpod w' = nkpod w7
                   /\ slots w' = slots w8
                   /\ trace w'
                      = trace w8 ++ [EvCleanupTcb thread; EvFinalizeNoSwitch thread]
                        ++ (if nz (xnthread_test_state
                                     (threads w (curr (slots w cpu))) XNROOT)
                            then [EvFreeSync] else [])).
  { rewrite Heq.
    destruct (nz (xnthread_test_state (threads w (curr (slots w cpu))) XNROOT));
      cbn [threads nkpod slots trace emit]; rewrite <- ?app_assoc; cbn [app];
      rewrite ?app_nil_r; repeat split; assumption. }
  clear Heq. destruct Hfacts as [Hft [Hfk [Hfs Hfr]]].
  rewrite Hft, Hfk, Hfs, Hfr, Hk, Hrq, Hfh, H8r.
  split.
  - split; [exact Hs|]. split; [exact Hw|]. split; [exact Hr|]. split; [exact Hp|].
    split; [exact He|]. split; [reflexivity|]. split; [reflexivity|].
    split; [exact Hq | exact Hf].
  - rewrite <- !app_assoc. reflexivity.
Qed.

(** X11. Deleting a live thread that is not running on its slot, and whose
    finalization is not held back by an unlocked context switch, tears it
    down on the spot: the thread is a ZOMBIE without READY and PEND, a
    pending wait is forgotten, both its timers are stopped, it has left
    the thread list of the pod (whose revision goes up by one) and, if it
    was READY, the ready queue of its slot, and it no longer holds the FPU
    of its slot.  No other control block changes. *)
Theorem delete_tears_down_idle_thread (w : world) :
  let th := threads w thread in
  let cpu := sched th in
  let w' := xnpod_delete_thread cfg thread w in
  nz (xnthread_test_state th XNZOMBIE) = false ->
  CONFIG_XENO_OPT_PERVASIVE cfg && user_task th
    && negb (nz (xnthread_test_state th XNDORMANT))
    && negb (xnpod_current_p thread w) = false ->
  Nat.eqb (curr (slots w cpu)) thread = false ->
  negb (CONFIG_XENO_HW_UNLOCKED_SWITCH cfg)
    || (negb (nz (testbits (status (slots w cpu)) XNSWLOCK))
        && negb (nz (xnthread_test_state th XNMIGRATE))) = true ->
  state (threads w' thread)
  = setbits (clrbits (state th) (Z.lor XNREADY XNPEND)) XNZOMBIE
  /\ wchan (threads w' thread)
     = (if nz (xnthread_test_state th XNPEND) then None else wchan th)
  /\ xntimer_running_p (rtimer (threads w' thread)) = false
  /\ xntimer_running_p (ptimer (threads w' thread)) = false
  /\ (forall t, t <> thread -> threads w' t = threads w t)
  /\ threadq (nkpod w') = remove Nat.eq_dec thread (threadq (nkpod w))
  /\ threadq_rev (nkpod w') = threadq_rev (nkpod w) + 1
  /\ (nz (xnthread_test_state th XNREADY) = true ->
      ~ In thread (runnable (slots w' cpu)))
  /\ (CONFIG_XENO_HW_FPU cfg = true -> fpuholder (slots w' cpu) <> Some thread).
Proof.
  intros th cpu w' Hz Hd Hnc Hfin.
  exact (proj1 (delete_on_the_spot w Hz Hd Hnc Hfin)).
Qed.

(** X12. In the same situation the calls that leave the pod come in this
    order: the delete hooks from the head of their queue (none for the
    root thread), then the cleanup of the control block, then the
    finalization, then the release of the synchronization of the context
    switch if the thread running on that slot is the root thread. *)
Theorem delete_calls_hooks_before_cleanup (w : world) :
  let th := threads w thread in
  let cpu := sched th in
  let w' := xnpod_delete_thread cfg thread w in
  nz (xnthread_test_state th XNZOMBIE) = false ->
  CONFIG_XENO_OPT_PERVASIVE cfg && user_task th
    && negb (nz (xnthread_test_state th XNDORMANT))
    && negb (xnpod_current_p thread w) = false ->
  Nat.eqb (curr (slots w cpu)) thread = false ->
  negb (CONFIG_XENO_HW_UNLOCKED_SWITCH cfg)
    || (negb (nz (testbits (status (slots w cpu)) XNSWLOCK))
        && negb (nz (xnthread_test_state th XNMIGRATE))) = true ->
  trace w'
  = trace w
    ++ (if nz (xnthread_test_state th XNROOT) then []
        else map (fun r => EvCallout r thread) (tdeleteq (nkpod w)))
    ++ [EvCleanupTcb thread; EvFinalizeNoSwitch thread]
    ++ (if nz (xnthread_test_state (threads w (curr (slots w cpu))) XNROOT)
        then [EvFreeSync] else []).
Proof.
  intros th cpu w' Hz Hd Hnc Hfin.
  exact (proj2 (delete_on_the_spot w Hz Hd Hnc Hfin)).
Qed.

(** X13. Let a live thread own no resource of the synch layer, be running
    on its slot, and not be a shadow whose deletion is deferred (on a
    build with real-time shadows, a user-space thread that is neither
    dormant nor the current thread of the calling CPU is only sent a
    signal).  Deleting it does not finalize it: the thread is made a
    ZOMBIE and out of the thread list, the slot is flagged in the mask of
    the calling CPU, and control goes to the rescheduling procedure before
    any hook, cleanup or finalization call has been made. *)
Theorem delete_of_running_thread_defers_finalization (w : world) :
  let th := threads w thread in
  let cpu := sched th in
  nz (xnthread_test_state th XNZOMBIE) = false ->
  CONFIG_XENO_OPT_PERVASIVE cfg && user_task th
    && negb (nz (xnthread_test_state th XNDORMANT))
    && negb (xnpod_current_p thread w) = false ->
  curr (slots w cpu) = thread ->
  exists w0 : world,
    xnpod_delete_thread cfg thread w = xnpod_schedule w0
    /\ nz (xnthread_test_state (threads w0 thread) XNZOMBIE) = true
    /\ ~ In thread (threadq (nkpod w0))
    /\ Z.testbit (resched (slots w0 (current_cpu w0))) (Z.of_nat cpu) = true
    /\ trace w0 = trace w.
Proof.
  intros th cpu Hz Hd Hcur.
  destruct (delete_to_zombie w Hz Hd)
    as [w7 [Heq [Hs [_ [_ [_ [_ [Hk [Ht [Hsl _]]]]]]]]]].
  fold th cpu in Heq, Hs, Hk, Hsl. rewrite Heq. clear Heq.
  destruct (Hsl cpu) as [Hc _]. rewrite Hc, Hcur, Nat.eqb_refl.
  exists (xnsched_set_resched cpu w7). split; [reflexivity|].
  split.
  { cbn [threads xnsched_set_resched on_slot with_slots].
    unfold xnthread_test_state. rewrite Hs. apply zombie_word_zombie. }
  split.
  { cbn [nkpod xnsched_set_resched on_slot with_slots]. rewrite Hk.
    cbn [threadq with_threadq]. apply remove_In. }
  split; [apply (resched_set_resched cpu w7) | exact Ht].
Qed.

End Deletion.

Lemma delete_tears_down_idle_thread_witness :
  let w := sample_world (sample_thread (Z.lor XNSTARTED (Z.lor XNREADY XNPEND)) 0
                           (Some 3%nat)) in
  let w' := xnpod_delete_thread all_on (col := quiet) 1%nat w in
  state (threads w' 1%nat) = Z.lor XNSTARTED XNZOMBIE
  /\ wchan (threads w' 1%nat) = None
  /\ threadq (nkpod w') = [0%nat]
  /\ threadq_rev (nkpod w') = 3.
Proof.
  cbv zeta.
  destruct (delete_tears_down_idle_thread all_on (col := quiet) 1%nat
              (fun w0 => eq_refl)
              (sample_world (sample_thread (Z.lor XNSTARTED (Z.lor XNREADY XNPEND)) 0
                               (Some 3%nat))))
    as [Hs [Hw [_ [_ [_ [Hq [Hr _]]]]]]]; try reflexivity.
  split; [rewrite Hs; reflexivity|]. split; [rewrite Hw; reflexivity|].
  split; [rewrite Hq; reflexivity | rewrite Hr; reflexivity].
Defined.

Lemma delete_calls_hooks_before_cleanup_witness :
  trace (xnpod_delete_thread all_on (col := quiet) 1%nat
           (with_pod (mk_pod [0%nat; 1%nat] 2 [] [] [4; 6]) hooked_world))
  = [EvCallout 4 1%nat; EvCallout 6 1%nat; EvCleanupTcb 1%nat;
     EvFinalizeNoSwitch 1%nat; EvFreeSync].
Proof.
  rewrite (delete_calls_hooks_before_cleanup all_on (col := quiet) 1%nat
             (fun w0 => eq_refl)
             (with_pod (mk_pod [0%nat; 1%nat] 2 [] [] [4; 6]) hooked_world));
    reflexivity.
Defined.

Lemma delete_of_running_thread_defers_finalization_witness :
  let w := sample_world_running (sample_thread XNSTARTED 0 None) in
  exists w0 : world,
    xnpod_delete_thread all_on (col := quiet) 1%nat w = @xnpod_schedule quiet w0
    /\ nz (xnthread_test_state (threads w0 1%nat) XNZOMBIE) = true
    /\ ~ In 1%nat (threadq (nkpod w0))
    /\ Z.testbit (resched (slots w0 (current_cpu w0))) 0 = true
    /\ trace w0 = [].
Proof.
  apply (delete_of_running_thread_defers_finalization all_on (col := quiet) 1%nat
           (fun w0 => eq_refl)
           (sample_world_running (sample_thread XNSTARTED 0 None)));
    reflexivity.
Defined.

(** ** Abortion *)

Lemma suspend_block_curr (cfg : config) {col : Collaborators} (thread : tid)
    (cpu : nat) (mask : Z) (chan : option nat) (w0 : world) :
  Nat.eqb thread (curr (slots w0 cpu)) = false ->
  forall c, curr (slots (suspend_block cfg thread cpu mask chan w0) c)
            = curr (slots w0 c).
Proof.
  intros Hnc c. unfold suspend_block.
  set (wa := if nz (xnthread_test_state (threads w0 thread) XNREADY)
             then on_thread thread (xnthread_clear_state XNREADY)
                    (xnsched_dequeue thread w0)
             else w0).
  assert (Hcua : forall k, curr (slots wa k) = curr (slots w0 k)).
  { intros k. unfold wa.
    destruct (nz (xnthread_test_state (threads w0 thread) XNREADY)); [|reflexivity].
    cbn [slots on_thread with_threads]. apply curr_dequeue. }
  clearbody wa.
  set (wb := match chan with
             | Some c0 => on_thread thread (with_wchan (Some c0))
                            (on_thread thread (xnthread_set_state mask) wa)
             | None => on_thread thread (xnthread_set_state mask) wa
             end).
  assert (Hcub : forall k, curr (slots wb k) = curr (slots w0 k)).
  { intros k. unfold wb. destruct chan; apply Hcua. }
  clearbody wb. rewrite Hcub, Hnc.
  destruct (_ && _ && _); apply Hcub.
Qed.

(** A suspension without timeout of a thread that is not running on its
    slot and comes to the blocking part. *)
Lemma suspend_forever_offline (cfg : config) {col : Collaborators} (thread : tid)
    (mask : Z) (chan : option nat) (w : world) :
  let th := threads w thread in
  let w1 := xnpod_suspend_thread cfg thread mask XN_INFINITE XN_RELATIVE chan w in
  Nat.eqb thread (curr (slots w (sched th))) = false ->
  CONFIG_XENO_OPT_PERVASIVE cfg && nz (xnthread_test_info th XNKICKED) = false ->
  state (threads w1 thread) = setbits (clrbits (state th) XNREADY) mask
  /\ sched (threads w1 thread) = sched th
  /\ same_except thread w w1
  /\ (forall c, curr (slots w1 c) = curr (slots w c)).
Proof.
  intros th w1 Hnc Hkick.
  assert (Heq : exists w0,
             w1 = suspend_block cfg thread (sched th) mask chan w0
             /\ state (threads w0 thread) = state th
             /\ sched (threads w0 thread) = sched th
             /\ same_except thread w w0 /\ slots w0 = slots w).
  { unfold w1, xnpod_suspend_thread. unfold th in *. rewrite Hnc.
    destruct (negb (nz (xnthread_test_state (threads w thread) XNTHREAD_BLOCK_BITS))).
    - rewrite Hkick. unfold suspend_arm. rewrite Z.eqb_refl.
      cbn [xntmode_eqb negb orb]. eexists. split; [reflexivity|].
      split; [simp_threads; reflexivity|]. split; [simp_threads; reflexivity|].
      split; [except | reflexivity].
    - unfold suspend_arm. rewrite Z.eqb_refl.
      cbn [xntmode_eqb negb orb]. eexists. split; [reflexivity|].
      repeat split. }
  clearbody w1. destruct Heq as [w0 [-> [H0s [H0c [H0e H0l]]]]].
  assert (Hnc0 : Nat.eqb thread (curr (slots w0 (sched th))) = false)
    by (rewrite H0l; exact Hnc).
  destruct (suspend_block_tcb cfg thread (sched th) mask chan w0 Hnc0)
    as [B1 [B2 B3]].
  cbv zeta in *. rewrite B1, B2, H0s, H0c.
  split; [reflexivity|]. split; [reflexivity|]. split.
  - intros t Ht. rewrite (B3 t Ht). apply H0e. exact Ht.
  - intros c. rewrite (suspend_block_curr cfg thread (sched th) mask chan w0 Hnc0).
    rewrite H0l. reflexivity.
Qed.

Section Abortion.

Context (cfg : config) {col : Collaborators} (thread : tid).

Hypothesis Hown : forall w0, xnsynch_release_all_ownerships thread w0 = w0.

(** Deleting a thread that is not running on its slot makes it a ZOMBIE. *)
Lemma delete_offline_zombie (w : world) :
  let th := threads w thread in
  let w' := xnpod_delete_thread cfg thread w in
  nz (xnthread_test_state th XNZOMBIE) = false ->
  CONFIG_XENO_OPT_PERVASIVE cfg && user_task th
    && negb (nz (xnthread_test_state th XNDORMANT))
    && negb (xnpod_current_p thread w) = false ->
  Nat.eqb (curr (slots w (sched th))) thread = false ->
  nz (xnthread_test_state (threads w' thread) XNZOMBIE) = true
  /\ ~ In thread (threadq (nkpod w'))
  /\ same_except thread w w'.
Proof.
  intros th w' Hz Hd Hnc.
  destruct (delete_to_zombie cfg thread Hown w Hz Hd)
    as [w7 [Heq [Hs [_ [_ [_ [He [Hk [_ [Hsl _]]]]]]]]]].
  fold th w' in Heq, Hs, Hk, Hsl. clearbody w'. clear Hz Hd.
  destruct (Hsl (sched th)) as [Hc _]. rewrite Hc, Hnc in Heq.
  assert (Hfacts : threads w' = threads w7 /\ nkpod w' = nkpod w7).
  { rewrite Heq. clear Heq.
    destruct (negb (CONFIG_XENO_HW_UNLOCKED_SWITCH cfg)
              || negb (nz (testbits (status (slots w7 (sched th))) XNSWLOCK))
                 && negb (nz (xnthread_test_state (threads w7 thread) XNMIGRATE)));
      [|split; reflexivity].
    cbv zeta.
    set (w8 := if negb (emptyq_p (tdeleteq (nkpod w7)))
                  && negb (nz (xnthread_test_state (threads w7 thread) XNROOT))
               then xnpod_fire_callouts (tdeleteq (nkpod w7)) thread w7
               else w7).
    assert (H8 : threads w8 = threads w7 /\ nkpod w8 = nkpod w7).
    { unfold w8.
      destruct (negb (emptyq_p (tdeleteq (nkpod w7)))
                && negb (nz (xnthread_test_state (threads w7 thread) XNROOT)));
        [|split; reflexivity].
      destruct (fire_callouts_facts (tdeleteq (nkpod w7)) thread w7)
        as [F1 [F2 _]]. split; assumption. }
    clearbody w8.
    set (w9 := emit (EvFinalizeNoSwitch thread) (emit (EvCleanupTcb thread) w8)).
    assert (H9 : threads w9 = threads w7 /\ nkpod w9 = nkpod w7) by exact H8.
    clearbody w9.
    destruct (nz (xnthread_test_state (threads w9 (curr (slots w9 (sched th))))
                    XNROOT)); exact H9. }
  destruct Hfacts as [Hft Hfk]. unfold xnthread_test_state.
  rewrite Hft, Hfk, Hs, Hk.
  split; [apply zombie_word_zombie|]. split; [apply remove_In|].
  intros t Ht. rewrite Hft. apply He. exact Ht.
Qed.

(** X14. On a build with real-time shadows, take a live shadow thread
    that is neither dormant nor running, has not been kicked, and owns no
    resource of the synch layer.  xnpod_delete_thread only asks the thread
    to exit (a signal, unless the caller is itself in user space): control
    blocks, scheduler slots and the pod are as before.
    xnpod_abort_thread, which forces the thread DORMANT first, does
    delete it: the thread is a ZOMBIE and out of the thread list, and,
    the thread owning nothing whose release would wake a sleeper, no
    other control block has changed. *)
Theorem abort_deletes_where_delete_only_signals (w : world) :
  let th := threads w thread in
  let wd := xnpod_delete_thread cfg thread w in
  let wa := xnpod_abort_thread cfg thread w in
  CONFIG_XENO_OPT_PERVASIVE cfg = true -> user_task th = true ->
  nz (xnthread_test_state th (Z.lor XNDORMANT XNZOMBIE)) = false ->
  nz (xnthread_test_info th XNKICKED) = false ->
  xnpod_current_p thread w = false ->
  Nat.eqb thread (curr (slots w (sched th))) = false ->
  (threads wd = threads w /\ slots wd = slots w /\ nkpod wd = nkpod w
   /\ trace wd = trace w ++ (if xnpod_userspace_p w then []
                             else [EvShadowSendSig thread]))
  /\ nz (xnthread_test_state (threads wa thread) XNZOMBIE) = true
  /\ ~ In thread (threadq (nkpod wa))
  /\ (forall t, t <> thread -> threads wa t = threads w t).
Proof.
  intros th wd wa Hperv Huser Hlive Hkick Hcur Hnc.
  apply nz_false in Hlive. unfold xnthread_test_state, testbits in Hlive.
  assert (Hdor : nz (xnthread_test_state th XNDORMANT) = false).
  { apply nz_false. unfold xnthread_test_state, testbits. clear - Hlive. bits_under. }
  assert (Hzom : nz (xnthread_test_state th XNZOMBIE) = false).
  { apply nz_false. unfold xnthread_test_state, testbits. clear - Hlive. bits_under. }
  split.
  - unfold wd, xnpod_delete_thread. fold th.
    rewrite Hzom, Hperv, Huser, Hdor, Hcur. cbn [andb negb].
    destruct (xnpod_userspace_p w); cbn [negb].
    + rewrite app_nil_r. repeat split.
    + repeat split.
  - unfold wa, xnpod_abort_thread. rewrite Hcur. cbn [negb].
    assert (Hk : CONFIG_XENO_OPT_PERVASIVE cfg
                 && nz (xnthread_test_info th XNKICKED) = false)
      by (rewrite Hkick; apply andb_false_r).
    destruct (suspend_forever_offline cfg thread XNDORMANT None w Hnc Hk)
      as [S1 [S2 [S3 S4]]].
    fold th in S1, S2.
    set (w1 := xnpod_suspend_thread cfg thread XNDORMANT XN_INFINITE XN_RELATIVE
                 None w) in *.
    clearbody w1.
    assert (Hz1 : nz (xnthread_test_state (threads w1 thread) XNZOMBIE) = false).
    { apply nz_false. unfold xnthread_test_state, testbits. rewrite S1.
      unfold setbits, clrbits.
      pose proof (eq_refl : Z.land XNDORMANT XNZOMBIE = 0) as Hc.
      revert Hc Hlive. generalize XNDORMANT XNZOMBIE XNREADY (state th).
      intros d z r s Hc Hlive. bits_under. }
    assert (Hd1 : CONFIG_XENO_OPT_PERVASIVE cfg && user_task (threads w1 thread)
                  && negb (nz (xnthread_test_state (threads w1 thread) XNDORMANT))
                  && negb (xnpod_current_p thread w1) = false).
    { assert (Hdo : nz (xnthread_test_state (threads w1 thread) XNDORMANT) = true).
      { apply nz_true. unfold xnthread_test_state. rewrite S1, testbits_setbits.
        intros H. apply Z.lor_eq_0_iff in H. destruct H as [_ H]. discriminate H. }
      rewrite Hdo. cbn [negb]. rewrite andb_false_r. reflexivity. }
    assert (Hnc1 : Nat.eqb (curr (slots w1 (sched (threads w1 thread)))) thread = false).
    { rewrite S2, S4, Nat.eqb_sym. exact Hnc. }
    destruct (delete_offline_zombie w1 Hz1 Hd1 Hnc1) as [D1 [D2 D3]].
    split; [exact D1|]. split; [exact D2|].
    intros t Ht. rewrite (D3 t Ht). apply S3. exact Ht.
Qed.

End Abortion.

Lemma abort_deletes_where_delete_only_signals_witness :
  let th := mk_thread (Z.lor XNSTARTED XNSHADOW) 0 None 10 10 0%nat 1 0 0 0 0 0 0 0
              true idle_timer idle_timer in
  let w := sample_world th in
  trace (xnpod_delete_thread all_on (col := quiet) 1%nat w) = []
  /\ state (threads (xnpod_delete_thread all_on (col := quiet) 1%nat w) 1%nat)
     = Z.lor XNSTARTED XNSHADOW
  /\ nz (xnthread_test_state
           (threads (xnpod_abort_thread all_on (col := quiet) 1%nat w) 1%nat)
           XNZOMBIE) = true.
Proof.
  cbv zeta.
  destruct (abort_deletes_where_delete_only_signals all_on (col := quiet) 1%nat
              (fun w0 => eq_refl)
              (sample_world
                 (mk_thread (Z.lor XNSTARTED XNSHADOW) 0 None 10 10 0%nat 1 0 0 0 0
                    0 0 0 true idle_timer idle_timer)))
    as [[Ht [_ [_ Hr]]] [Hz _]]; try reflexivity.
  split; [rewrite Hr; reflexivity|]. split; [rewrite Ht; reflexivity | exact Hz].
Defined.

(** ** The resched mask of a slot *)

Lemma cpu_bit (cpu : nat) (n : Z) :
  0 <= n -> Z.testbit (Z.shiftl 1 (Z.of_nat cpu)) n = (n =? Z.of_nat cpu).
Proof.
  intros Hn. rewrite Z.shiftl_1_l, Z.pow2_bits_eqb by lia.
  apply Z.eqb_sym.
Qed.

Lemma clear_cpu_bit (m : Z) (cpu : nat) (n : Z) :
  0 <= n ->
  Z.testbit (clrbits m (Z.shiftl 1 (Z.of_nat cpu))) n
  = Z.testbit m n && negb (n =? Z.of_nat cpu).
Proof.
  intros Hn. unfold clrbits.
  rewrite Z.land_spec, Z.lnot_spec, cpu_bit by lia. reflexivity.
Qed.

Lemma test_resched_answer (smp : bool) (cpu : nat) (s : xnsched) :
  fst (fst (xnpod_test_resched smp cpu s))
  = if Z.testbit (resched s) (Z.of_nat cpu) then 1 else 0.
Proof. unfold xnpod_test_resched. destruct (_ && _); reflexivity. Qed.

(** X15. __xnpod_test_resched consumes the request of its own CPU: the bit
    of the CPU is clear afterwards, so that a second test answers 0.  On
    SMP the rest of the mask is handed over to the resched IPI and the
    mask is left empty: an IPI is sent exactly when another CPU was
    flagged, never to the own CPU, and to every other CPU that was
    flagged; on a uniprocessor build no IPI is sent and the bits of the
    other CPUs stay.  Nothing else changes in the slot. *)
Theorem test_resched_consumes_request (smp : bool) (cpu : nat) (s : xnsched) :
  let r := xnpod_test_resched smp cpu s in
  let s' := snd r in
  let ipi := snd (fst r) in
  Z.testbit (resched s') (Z.of_nat cpu) = false
  /\ fst (fst (xnpod_test_resched smp cpu s')) = 0
  /\ (if smp
      then resched s' = 0
           /\ (ipi = None <-> clrbits (resched s) (Z.shiftl 1 (Z.of_nat cpu)) = 0)
           /\ (forall m, ipi = Some m ->
               forall n, 0 <= n ->
               Z.testbit m n = Z.testbit (resched s) n && negb (n =? Z.of_nat cpu))
      else ipi = None
           /\ forall n, 0 <= n ->
              Z.testbit (resched s') n
              = Z.testbit (resched s) n && negb (n =? Z.of_nat cpu))
  /\ curr s' = curr s /\ status s' = status s /\ runnable s' = runnable s
  /\ fpuholder s' = fpuholder s.
Proof.
  cbv zeta.
  assert (Hbit : Z.testbit (resched (snd (xnpod_test_resched smp cpu s)))
                   (Z.of_nat cpu) = false).
  { unfold xnpod_test_resched. destruct (_ && _); cbn [snd resched with_resched].
    - apply Z.bits_0.
    - rewrite clear_cpu_bit by lia. rewrite Z.eqb_refl. apply andb_false_r. }
  split; [exact Hbit|].
  split; [rewrite test_resched_answer, Hbit; reflexivity|].
  unfold xnpod_test_resched, xnsched_resched_p. cbn [resched with_resched].
  set (m1 := clrbits (resched s) (Z.shiftl 1 (Z.of_nat cpu))).
  destruct smp; cbn [andb].
  - destruct (Z.eqb_spec m1 0) as [E0|Hne]; cbn [negb fst snd resched with_resched].
    + split; [|repeat split].
      split; [exact E0|]. split; [tauto|]. intros m [=].
    + split; [|repeat split].
      split; [reflexivity|]. split.
      * split; [discriminate | intros E; contradiction].
      * intros m [= <-] n Hn. unfold m1. apply clear_cpu_bit. exact Hn.
  - cbn [fst snd resched with_resched].
    split; [|repeat split].
    split; [reflexivity|]. intros n Hn. unfold m1. apply clear_cpu_bit. exact Hn.
Qed.

(** ** The FPU of a slot *)


(** X17. Once a thread has given up the FPU of a slot, as the deletion of
    the thread makes it do, neither a later FPU switch on that slot nor
    the FPU initialization of a new thread saves registers on its behalf;
    giving up the FPU changes no control block. *)
Theorem giveup_fpu_prevents_later_save (cfg : config) (fpu_ptr : tid -> Z)
    (cpu : nat) (thread : tid) (w : world) :
  let w1 := xnpod_giveup_fpu cfg cpu thread w in
  ~ In (FpuSave thread) (fst (xnpod_switch_fpu cfg fpu_ptr cpu w1))
  /\ (forall t, ~ In (FpuSave thread) (fst (xnpod_init_fpu cfg fpu_ptr cpu t w1)))
  /\ threads w1 = threads w.
Proof.
  cbv zeta.
  destruct (giveup_fpu_facts cfg cpu thread w) as [G1 [_ [_ [_ [_ G6]]]]].
  cbv zeta in *.
  set (w1 := xnpod_giveup_fpu cfg cpu thread w) in *. clearbody w1.
  split; [|split; [|exact G1]].
  - unfold xnpod_switch_fpu.
    destruct (CONFIG_XENO_HW_FPU cfg); cbn [negb]; [|intros []].
    destruct (negb (nz (xnthread_test_state (threads w1 (curr (slots w1 cpu))) XNFPU)));
      [intros []|].
    destruct (fpuholder (slots w1 cpu)) as [h|] eqn:Eh.
    + destruct (Nat.eqb h (curr (slots w1 cpu))); [intros [[=]|[]]|].
      destruct (negb (fpu_ptr h =? fpu_ptr (curr (slots w1 cpu)))).
      * intros [[= ->]|[[=]|[]]]. apply (G6 eq_refl). reflexivity.
      * intros [[=]|[]].
    + intros [[=]|[]].
  - intros t. unfold xnpod_init_fpu.
    destruct (CONFIG_XENO_HW_FPU cfg); cbn [negb]; [|intros []].
    destruct (nz (xnthread_test_state (threads w1 t) XNFPU)); [|intros []].
    cbn [fst]. intros Hin. apply in_app_or in Hin. destruct Hin as [Hin|[[=]|[]]].
    destruct (fpuholder (slots w1 cpu)) as [h|] eqn:Eh; [|destruct Hin].
    destruct (negb (fpu_ptr h =? fpu_ptr t)); [|destruct Hin].
    destruct Hin as [[= ->]|[]]. apply (G6 eq_refl). reflexivity.
Qed.

(** ** Migration *)

Lemma set_resched_slot (c k : nat) (w : world) :
  fpuholder (slots (xnsched_set_resched c w) k) = fpuholder (slots w k)
  /\ forall n, Z.testbit (resched (slots w k)) n = true ->
               Z.testbit (resched (slots (xnsched_set_resched c w) k)) n = true.
Proof.
  unfold xnsched_set_resched. cbn [slots on_slot with_slots]. unfold upd.
  destruct (Nat.eqb k (current_cpu w)) eqn:E; [|split; auto].
  apply Nat.eqb_eq in E. subst k. split; [reflexivity|].
  intros n Hn. cbn [resched with_resched]. unfold setbits.
  rewrite Z.lor_spec, Hn. reflexivity.
Qed.

Lemma on_runnable_slot (cpu k : nat) (f : list tid -> list tid) (w : world) :
  let w' := on_slot cpu (fun s => with_runnable (f (runnable s)) s) w in
  fpuholder (slots w' k) = fpuholder (slots w k)
  /\ resched (slots w' k) = resched (slots w k).
Proof.
  cbv zeta. cbn [slots on_slot with_slots]. unfold upd.
  destruct (Nat.eqb k cpu) eqn:E; [|split; reflexivity].
  apply Nat.eqb_eq in E. subst k. split; reflexivity.
Qed.

Lemma putback_slot (thread : tid) (k : nat) (w : world) :
  fpuholder (slots (xnsched_putback thread w) k) = fpuholder (slots w k)
  /\ forall n, Z.testbit (resched (slots w k)) n = true ->
               Z.testbit (resched (slots (xnsched_putback thread w) k)) n = true.
Proof.
  unfold xnsched_putback.
  set (wa := if nz (xnthread_test_state (threads w thread) XNREADY)
             then xnsched_dequeue thread w
             else on_thread thread (xnthread_set_state XNREADY) w).
  assert (Ha : fpuholder (slots wa k) = fpuholder (slots w k)
               /\ resched (slots wa k) = resched (slots w k)).
  { unfold wa. destruct (nz (xnthread_test_state (threads w thread) XNREADY)).
    - apply (on_runnable_slot (sched (threads w thread)) k (remove Nat.eq_dec thread)).
    - split; reflexivity. }
  clearbody wa. destruct Ha as [Ha1 Ha2]. cbv zeta.
  destruct (on_runnable_slot (sched (threads wa thread)) k (fun q => q ++ [thread]) wa)
    as [Hb1 Hb2]. cbv zeta in Hb1, Hb2.
  destruct (set_resched_slot (sched (threads (xnsched_enqueue thread wa) thread)) k
              (xnsched_enqueue thread wa)) as [Hc1 Hc2].
  split.
  - rewrite Hc1. unfold xnsched_enqueue. rewrite Hb1. exact Ha1.
  - intros n Hn. apply Hc2. unfold xnsched_enqueue. rewrite Hb2, Ha2. exact Hn.
Qed.

(** X18. xnpod_migrate_thread checks in this order: a caller in an
    interrupt handler or a callout gets -EPERM; a caller holding the
    scheduler lock gets -EBUSY; a destination outside the affinity of the
    current thread gets -EPERM.  A refused migration, and a migration to
    the CPU the caller is on, leave the world as it is, without going
    through the rescheduling procedure. *)
Theorem migrate_refusals_change_nothing (cfg : config) {col : Collaborators}
    (cpu : nat) (w : world) :
  let r := xnpod_migrate_thread cfg cpu w in
  let thread := xnpod_current_thread w in
  fst r = (if xnpod_asynch_p w then - EPERM
           else if xnpod_locked_p w then - EBUSY
           else if Z.testbit (affinity (threads w thread)) (Z.of_nat cpu) then 0
           else - EPERM)
  /\ (fst r <> 0 \/ cpu = current_cpu w -> snd r = w).
Proof.
  cbv zeta. unfold xnpod_migrate_thread.
  destruct (xnpod_asynch_p w); [split; reflexivity|].
  destruct (xnpod_locked_p w); [split; reflexivity|].
  destruct (Z.testbit (affinity (threads w (xnpod_current_thread w))) (Z.of_nat cpu));
    cbn [negb]; [|split; reflexivity].
  destruct (Nat.eqb_spec cpu (current_cpu w)) as [E|E]; [split; reflexivity|].
  split; [reflexivity|]. cbn [fst]. intros [H|H]; [contradiction H; reflexivity|].
  contradiction.
Qed.

(** X19. An accepted migration to another CPU hands the world to the
    rescheduling procedure with the current thread attached to the new
    slot, its periodic timer too, the old slot flagged for rescheduling in
    the mask of the caller, and the FPU of the old slot released when the
    thread uses the FPU.  With unlocked context switches the thread is in
    flight: MIGRATE is set and READY is not; otherwise the thread is READY
    on the ready queue of the new slot.  No other control block changes. *)
Theorem migrate_moves_current_thread (cfg : config) {col : Collaborators}
    (cpu : nat) (w : world) :
  let thread := xnpod_current_thread w in
  let th := threads w thread in
  xnpod_asynch_p w = false -> xnpod_locked_p w = false ->
  Z.testbit (affinity th) (Z.of_nat cpu) = true ->
  cpu <> current_cpu w ->
  exists w0 : world,
    xnpod_migrate_thread cfg cpu w = (0, xnpod_schedule w0)
    /\ sched (threads w0 thread) = cpu
    /\ tm_sched (ptimer (threads w0 thread)) = cpu
    /\ Z.testbit (resched (slots w0 (current_cpu w))) (Z.of_nat (sched th)) = true
    /\ (CONFIG_XENO_HW_FPU cfg && nz (xnthread_test_state th XNFPU) = true ->
        fpuholder (slots w0 (sched th)) = None)
    /\ (if CONFIG_XENO_HW_UNLOCKED_SWITCH cfg
        then state (threads w0 thread)
             = setbits (clrbits (state th) XNREADY) XNMIGRATE
        else state (threads w0 thread) = setbits (state th) XNREADY
             /\ In thread (runnable (slots w0 cpu)))
    /\ (forall t, t <> thread -> threads w0 t = threads w t).
Proof.
  intros thread th Ha Hl Haff Hcpu. unfold xnpod_migrate_thread.
  rewrite Ha, Hl. fold thread th. rewrite Haff. cbn [negb].
  destruct (Nat.eqb_spec cpu (current_cpu w)) as [E|_]; [contradiction|].
  set (w1 := xnpod_release_fpu cfg thread w).
  assert (H1 : threads w1 = threads w /\ current_cpu w1 = current_cpu w
               /\ (CONFIG_XENO_HW_FPU cfg && nz (xnthread_test_state th XNFPU) = true ->
                   fpuholder (slots w1 (sched th)) = None)
               /\ (forall c, resched (slots w1 c) = resched (slots w c))).
  { unfold w1, xnpod_release_fpu. fold th.
    destruct (CONFIG_XENO_HW_FPU cfg); cbn [andb];
      [|repeat split; discriminate].
    destruct (nz (xnthread_test_state th XNFPU)); [|repeat split; discriminate].
    split; [reflexivity|]. split; [reflexivity|]. split.
    - intros _. cbn [slots on_slot with_slots]. rewrite upd_same. reflexivity.
    - intros c. cbn [slots on_slot with_slots]. unfold upd.
      destruct (Nat.eqb c (sched th)) eqn:Ec; [|reflexivity].
      apply Nat.eqb_eq in Ec. subst c. reflexivity. }
  clearbody w1. destruct H1 as [H1t [H1c [H1f H1r]]].
  set (w2 := if nz (xnthread_test_state (threads w1 thread) XNREADY) then _ else w1).
  assert (H2 : state (threads w2 thread) = clrbits (state th) XNREADY
               /\ sched (threads w2 thread) = sched th
               /\ same_except thread w w2
               /\ current_cpu w2 = current_cpu w
               /\ (forall c, fpuholder (slots w2 c) = fpuholder (slots w1 c))).
  { unfold w2. rewrite H1t. fold th.
    destruct (nz (xnthread_test_state th XNREADY)) eqn:E.
    - split; [simp_threads; rewrite H1t; reflexivity|].
      split; [simp_threads; rewrite H1t; reflexivity|].
      split.
      { apply same_except_on_thread. intros t Ht.
        cbn [threads xnsched_dequeue on_slot with_slots]. rewrite H1t. reflexivity. }
      split; [exact H1c|].
      intros c. cbn [slots on_thread with_threads]. unfold xnsched_dequeue.
      apply (slot_facts_on_runnable (sched (threads w1 thread)) c
               (remove Nat.eq_dec thread) w1).
    - split.
      { rewrite H1t. fold th. apply nz_false in E.
        unfold xnthread_test_state, testbits in E. unfold clrbits. symmetry.
        clear - E. bits_under. }
      split; [rewrite H1t; reflexivity|].
      split; [intros t Ht; rewrite H1t; reflexivity|].
      split; [exact H1c|]. intros c. reflexivity. }
  clearbody w2. destruct H2 as [H2s [H2c [H2e [H2u H2f]]]].
  set (w3 := xnsched_set_resched (sched (threads w2 thread)) w2).
  set (w4 := on_thread thread (with_sched cpu) w3).
  set (w5 := on_thread thread _ w4).
  assert (H5 : state (threads w5 thread) = clrbits (state th) XNREADY
               /\ sched (threads w5 thread) = cpu
               /\ tm_sched (ptimer (threads w5 thread)) = cpu
               /\ same_except thread w w5
               /\ current_cpu w5 = current_cpu w
               /\ Z.testbit (resched (slots w5 (current_cpu w)))
                    (Z.of_nat (sched th)) = true
               /\ fpuholder (slots w5 (sched th)) = fpuholder (slots w1 (sched th))).
  { unfold w5, w4, w3.
    split; [simp_threads; exact H2s|].
    split; [simp_threads; reflexivity|].
    split; [simp_threads; reflexivity|].
    split; [except|].
    split; [exact H2u|].
    split.
    - cbn [slots on_thread with_threads]. rewrite H2c, <- H2u.
      apply resched_set_resched.
    - cbn [slots on_thread with_threads]. rewrite <- H2f.
      unfold xnsched_set_resched. cbn [slots on_slot with_slots]. unfold upd.
      destruct (Nat.eqb (sched th) (current_cpu w2)) eqn:Ec; [|reflexivity].
      apply Nat.eqb_eq in Ec. rewrite <- Ec. reflexivity. }
  clearbody w5. clear w3 w4.
  destruct H5 as [H5s [H5c [H5p [H5e [H5u [H5r H5f]]]]]].
  destruct (CONFIG_XENO_HW_UNLOCKED_SWITCH cfg) eqn:Eunl.
  - eexists. split; [reflexivity|].
    split; [simp_threads; exact H5c|].
    split; [simp_threads; exact H5p|].
    split; [exact H5r|].
    split; [intros Hf; cbn [slots on_thread with_threads]; rewrite H5f;
            apply H1f; exact Hf|].
    split; [simp_threads; cbn [state xnthread_set_state with_state];
            rewrite H5s; reflexivity|].
    apply same_except_on_thread. exact H5e.
  - destruct (putback_effect thread w5) as [Pt [Ps [Pe [Pin [Pr _]]]]].
    cbv zeta in *.
    eexists. split; [reflexivity|].
    split; [rewrite Pt; exact H5c|].
    split; [rewrite Pt; exact H5p|].
    split.
    { apply (putback_slot thread (current_cpu w) w5). exact H5r. }
    split.
    { intros Hf. destruct (putback_slot thread (sched th) w5) as [Hfh _].
      rewrite Hfh, H5f. apply H1f. exact Hf. }
    split.
    { split; [rewrite Ps, H5s; unfold setbits, clrbits; bits|].
      rewrite H5c in Pin. exact Pin. }
    intros t Ht. rewrite (Pe t Ht). apply H5e. exact Ht.
Qed.

Lemma migrate_moves_current_thread_witness :
  let th := mk_thread (Z.lor XNSTARTED XNFPU) 0 None 10 10 0%nat 3 0 0 0 0 0 0 0 false
              idle_timer idle_timer in
  let w := with_slots (fun _ => mk_sched 1%nat 0 0 [] (Some 1%nat)) (sample_world th) in
  exists w0 : world,
    xnpod_migrate_thread all_on (col := quiet) 1%nat w = (0, @xnpod_schedule quiet w0)
    /\ sched (threads w0 1%nat) = 1%nat
    /\ tm_sched (ptimer (threads w0 1%nat)) = 1%nat
    /\ Z.testbit (resched (slots w0 0%nat)) 0 = true
    /\ (true = true -> fpuholder (slots w0 0%nat) = None)
    /\ state (threads w0 1%nat)
       = setbits (clrbits (Z.lor XNSTARTED XNFPU) XNREADY) XNMIGRATE
    /\ (forall t, t <> 1%nat -> threads w0 t = threads w t).
Proof.
  apply (migrate_moves_current_thread all_on (col := quiet) 1%nat
           (with_slots (fun _ => mk_sched 1%nat 0 0 [] (Some 1%nat))
              (sample_world
                 (mk_thread (Z.lor XNSTARTED XNFPU) 0 None 10 10 0%nat 3 0 0 0 0 0 0 0
                    false idle_timer idle_timer))));
    try reflexivity.
  discriminate.
Defined.

(** ** Periodic threads *)

(** X20. xnpod_set_thread_periodic with a period of XN_INFINITE, for the
    current thread and whatever the release date.  If the thread is not
    timed the call answers -EWOULDBLOCK and the world is as before.  If
    it is timed the call answers 0, the periodic timer is stopped, and
    the next xnpod_wait_thread_period fails with -EWOULDBLOCK, storing
    nothing and changing nothing.  In both cases the state of no thread,
    no scheduler slot and no part of the trace changes. *)
Theorem periodic_stop_then_wait_would_block (cfg : config) {col : Collaborators}
    (timed periodic_base overruns_r : bool)
    (nklatency wallclock_offset idate : Z) (w : world) :
  let thread := xnpod_current_thread w in
  let r := xnpod_set_thread_periodic cfg timed periodic_base nklatency
             wallclock_offset thread idate XN_INFINITE w in
  fst r = (if timed then 0 else - EWOULDBLOCK)
  /\ (if timed
      then xnpod_wait_thread_period cfg overruns_r (snd r)
           = (- EWOULDBLOCK, None, snd r)
      else snd r = w)
  /\ (forall t, state (threads (snd r) t) = state (threads w t))
  /\ slots (snd r) = slots w
  /\ trace (snd r) = trace w.
Proof.
  cbv zeta. unfold xnpod_set_thread_periodic.
  destruct timed; cbn [negb]; [|repeat split].
  rewrite Z.eqb_refl.
  cbn [fst snd]. split; [reflexivity|].
  set (thread := xnpod_current_thread w).
  set (w1 := if xntimer_running_p (ptimer (threads w thread)) then _ else w).
  assert (H1 : xnpod_current_thread w1 = thread
               /\ xntimer_running_p (ptimer (threads w1 thread)) = false
               /\ (forall t, state (threads w1 t) = state (threads w t))
               /\ slots w1 = slots w /\ trace w1 = trace w).
  { unfold w1. destruct (xntimer_running_p (ptimer (threads w thread))) eqn:E.
    - split; [reflexivity|]. split; [simp_threads; reflexivity|].
      split; [|split; reflexivity].
      intros t. apply state_on_thread_keep. reflexivity.
    - repeat split. exact E. }
  clearbody w1. destruct H1 as [Hc [Hr [Hs [Hl Ht]]]].
  split; [|split; [exact Hs | split; assumption]].
  unfold xnpod_wait_thread_period. rewrite Hc, Hr. reflexivity.
Qed.


(** ** Thread initialization *)

Lemma suspend_forever_offline_pod (cfg : config) {col : Collaborators} (thread : tid)
    (mask : Z) (chan : option nat) (w : world) :
  Nat.eqb thread (curr (slots w (sched (threads w thread)))) = false ->
  nkpod (xnpod_suspend_thread cfg thread mask XN_INFINITE XN_RELATIVE chan w)
  = nkpod w.
Proof.
  intros Hnc. unfold xnpod_suspend_thread. rewrite Hnc.
  assert (Hblock : forall w0, slots w0 = slots w -> 
             nkpod (suspend_block cfg thread (sched (threads w thread)) mask chan w0)
             = nkpod w0).
  { intros w0 Hsl. unfold suspend_block.
    set (wa := if nz (xnthread_test_state (threads w0 thread) XNREADY)
               then on_thread thread (xnthread_clear_state XNREADY)
                      (xnsched_dequeue thread w0)
               else w0).
    assert (Ha : nkpod wa = nkpod w0
                 /\ curr (slots wa (sched (threads w thread)))
                    = curr (slots w (sched (threads w thread)))).
    { unfold wa. destruct (nz (xnthread_test_state (threads w0 thread) XNREADY)).
      - split; [reflexivity|]. cbn [slots on_thread with_threads].
        rewrite curr_dequeue, Hsl. reflexivity.
      - split; [reflexivity | rewrite Hsl; reflexivity]. }
    clearbody wa. destruct Ha as [Ha1 Ha2].
    set (wb := match chan with
               | Some c0 => on_thread thread (with_wchan (Some c0))
                              (on_thread thread (xnthread_set_state mask) wa)
               | None => on_thread thread (xnthread_set_state mask) wa
               end).
    assert (Hb : nkpod wb = nkpod w0
                 /\ curr (slots wb (sched (threads w thread)))
                    = curr (slots w (sched (threads w thread)))).
    { unfold wb. destruct chan; split; assumption. }
    clearbody wb. destruct Hb as [Hb1 Hb2]. rewrite Hb2, Hnc.
    destruct (_ && _ && _); exact Hb1. }
  destruct (negb (nz (xnthread_test_state (threads w thread) XNTHREAD_BLOCK_BITS))).
  - destruct (CONFIG_XENO_OPT_PERVASIVE cfg
              && nz (xnthread_test_info (threads w thread) XNKICKED));
      [reflexivity|].
    unfold suspend_arm. rewrite Z.eqb_refl. cbn [xntmode_eqb negb orb].
    rewrite Hblock by reflexivity. reflexivity.
  - unfold suspend_arm. rewrite Z.eqb_refl. cbn [xntmode_eqb negb orb].
    apply Hblock. reflexivity.
Qed.

(** X22. xnpod_init_thread refuses flags outside FPU, SHADOW, SHIELD and
    SUSP with -EINVAL before anything is touched; an error of the control
    block initialization is passed on and the thread is not registered.
    Otherwise the initialization is run without SUSP (and without SHIELD on
    a build without the interrupt shield), with the default stack size for
    a size of zero, and when it succeeds on a fresh control block the
    answer is 0, the thread is attached to the slot of the caller, it is
    the last element of the thread list of the pod, whose revision goes up
    by one, and it is DORMANT, and suspended too exactly when SUSP was
    asked for; no other control block changes after the initialization. *)
Theorem init_thread_registers_dormant_thread (cfg : config) {col : Collaborators}
    (thread_init : tid -> Z -> Z -> Z -> world -> Z * world)
    (default_stacksz : Z) (thread : tid) (prio flags stacksize : Z) (w : world) :
  let r := xnpod_init_thread cfg thread_init default_stacksz thread prio flags
             stacksize w in
  let valid :=
    Z.land flags (Z.lnot (Z.lor XNFPU (Z.lor XNSHADOW (Z.lor XNSHIELD XNSUSP)))) =? 0 in
  let flags' := if CONFIG_XENO_OPT_ISHIELD cfg then flags else clrbits flags XNSHIELD in
  let init := thread_init thread prio (clrbits flags' XNSUSP)
                (if stacksize =? 0 then default_stacksz else stacksize) w in
  let w1 := snd init in
  (valid = false -> r = (- EINVAL, w))
  /\ (valid = true -> fst init <> 0 -> r = init)
  /\ (valid = true -> fst init = 0 ->
      testbits (state (threads w1 thread)) (Z.lor XNTHREAD_BLOCK_BITS XNREADY) = 0 ->
      Nat.eqb thread (curr (slots w1 (current_cpu w1))) = false ->
      CONFIG_XENO_OPT_PERVASIVE cfg
        && nz (xnthread_test_info (threads w1 thread) XNKICKED) = false ->
      fst r = 0
      /\ state (threads (snd r) thread)
         = setbits (state (threads w1 thread)) (Z.lor XNDORMANT (Z.land flags XNSUSP))
      /\ sched (threads (snd r) thread) = current_cpu w1
      /\ threadq (nkpod (snd r)) = threadq (nkpod w1) ++ [thread]
      /\ threadq_rev (nkpod (snd r)) = threadq_rev (nkpod w1) + 1
      /\ (forall t, t <> thread -> threads (snd r) t = threads w1 t)).
Proof.
  cbv zeta. unfold xnpod_init_thread.
  set (bad := Z.land flags
                (Z.lnot (Z.lor XNFPU (Z.lor XNSHADOW (Z.lor XNSHIELD XNSUSP))))).
  unfold nz. 
  set (flags' := if CONFIG_XENO_OPT_ISHIELD cfg then flags else clrbits flags XNSHIELD).
  destruct (thread_init thread prio (clrbits flags' XNSUSP)
              (if stacksize =? 0 then default_stacksz else stacksize) w)
    as [err w1] eqn:Einit.
  cbn [fst snd].
  destruct (bad =? 0); cbn [negb].
  - split; [discriminate|]. split.
    + intros _ Herr. apply Z.eqb_neq in Herr. rewrite Herr. reflexivity.
    + intros _ -> Hfresh Hnc Hkick. cbn [Z.eqb negb fst snd].
      set (w2 := on_thread thread (with_sched (current_cpu w1)) w1).
      set (w3 := with_pod _ w2).
      assert (Hnc3 : Nat.eqb thread (curr (slots w3 (sched (threads w3 thread))))
                     = false).
      { unfold w3, w2. simp_threads. exact Hnc. }
      assert (Hk3 : CONFIG_XENO_OPT_PERVASIVE cfg
                    && nz (xnthread_test_info (threads w3 thread) XNKICKED) = false).
      { unfold w3, w2. simp_threads. exact Hkick. }
      destruct (suspend_forever_offline cfg thread
                  (Z.lor XNDORMANT (Z.land (if CONFIG_XENO_OPT_ISHIELD cfg then flags
                                            else clrbits flags XNSHIELD) XNSUSP))
                  None w3 Hnc3 Hk3) as [S1 [S2 [S3 _]]].
      pose proof (suspend_forever_offline_pod cfg thread
                    (Z.lor XNDORMANT (Z.land (if CONFIG_XENO_OPT_ISHIELD cfg then flags
                                              else clrbits flags XNSHIELD) XNSUSP))
                    None w3 Hnc3) as S4.
      cbv zeta in *. fold flags' in S1, S2, S3, S4 |- *.
      set (w4 := xnpod_suspend_thread cfg thread _ XN_INFINITE XN_RELATIVE None w3) in *.
      clearbody w4.
      split; [reflexivity|]. rewrite S1, S2, S4.
      split.
      { unfold w3, w2. simp_threads. cbn [state with_sched].
        assert (Hsusp : Z.land flags' XNSUSP = Z.land flags XNSUSP).
        { unfold flags', clrbits. destruct (CONFIG_XENO_OPT_ISHIELD cfg); [reflexivity|].
          pose proof (eq_refl : Z.land XNSUSP XNSHIELD = 0) as Hc.
          revert Hc. generalize XNSUSP XNSHIELD. intros a b Hc. bits_under. }
        rewrite Hsusp. unfold setbits, clrbits, testbits in *.
        revert Hfresh. generalize (state (threads w1 thread)) XNTHREAD_BLOCK_BITS
                         XNREADY (Z.lor XNDORMANT (Z.land flags XNSUSP)).
        intros s b r m Hfresh. bits_under. }
      split; [unfold w3, w2; simp_threads; reflexivity|].
      split; [reflexivity|]. split; [reflexivity|].
      intros t Ht. rewrite (S3 t Ht). unfold w3, w2.
      cbn [threads with_pod]. rewrite threads_on_thread_other by exact Ht.
      reflexivity.
  - split; [reflexivity|]. split; discriminate.
Qed.

Lemma init_thread_registers_dormant_thread_witness :
  let init0 := fun (t : tid) (prio fl ss : Z) (w0 : world) =>
                 (0, on_thread t (fun _ => sample_thread fl 0 None) w0) in
  let w := sample_world (sample_thread XNSTARTED 0 None) in
  let r := xnpod_init_thread all_on (col := quiet) init0 4096 5%nat 10
             (Z.lor XNSUSP XNFPU) 0 w in
  fst r = 0
  /\ state (threads (snd r) 5%nat) = Z.lor XNFPU (Z.lor XNDORMANT XNSUSP)
  /\ threadq (nkpod (snd r)) = [0%nat; 1%nat; 5%nat].
Proof.
  cbv zeta.
  destruct (init_thread_registers_dormant_thread all_on (col := quiet)
              (fun (t : tid) (prio fl ss : Z) (w0 : world) =>
                 (0, on_thread t (fun _ => sample_thread fl 0 None) w0))
              4096 5%nat 10 (Z.lor XNSUSP XNFPU) 0
              (sample_world (sample_thread XNSTARTED 0 None)))
    as [_ [_ H]].
  destruct H as [H0 [Hs [_ [Hq _]]]]; try reflexivity.
  split; [exact H0|]. split; [rewrite Hs; reflexivity | rewrite Hq; reflexivity].
Defined.

(** ** A kicked shadow *)

(** X23. With real-time shadows, a runnable thread that has been kicked
    is never suspended: whatever the mask, the timeout and the wait
    channel, xnpod_suspend_thread leaves its state word, its wait channel
    and its timers alone and answers through the information word, where
    BREAK is set and RMID and TIMEO are cleared; no other control block
    changes and nothing is recorded in the trace.  The periodic wait of
    such a thread, when it comes before the release point, is interrupted:
    xnpod_wait_thread_period answers -EINTR and stores nothing. *)
Theorem kicked_thread_is_not_suspended (cfg : config) {col : Collaborators}
    (thread : tid) (mask timeout : Z) (tmode : xntmode) (chan : option nat)
    (overruns_r : bool) (w : world) :
  let th := threads w thread in
  let w' := xnpod_suspend_thread cfg thread mask timeout tmode chan w in
  CONFIG_XENO_OPT_PERVASIVE cfg = true ->
  testbits (state th) XNTHREAD_BLOCK_BITS = 0 ->
  nz (xnthread_test_info th XNKICKED) = true ->
  (threads w' thread
   = xnthread_set_info XNBREAK (xnthread_clear_info (Z.lor XNRMID XNTIMEO) th)
   /\ (forall t, t <> thread -> threads w' t = threads w t)
   /\ trace w' = trace w /\ nkpod w' = nkpod w)
  /\ (thread = xnpod_current_thread w ->
      xntimer_running_p (ptimer th) = true ->
      xnsticks (rawclock w - xntimer_pexpect (ptimer th)) < 0 ->
      fst (xnpod_wait_thread_period cfg overruns_r w) = (- EINTR, None)).
Proof.
  intros th w' Hperv Hrun Hkick.
  assert (Heq : w' = on_thread thread
                       (fun th0 => xnthread_set_info XNBREAK
                                     (xnthread_clear_info (Z.lor XNRMID XNTIMEO) th0))
                       (if Nat.eqb thread (curr (slots w (sched th)))
                        then xnsched_set_resched (sched th) w else w)).
  { unfold w', xnpod_suspend_thread. fold th.
    set (w1 := if Nat.eqb thread (curr (slots w (sched th)))
               then xnsched_set_resched (sched th) w else w).
    assert (H1 : threads w1 thread = th).
    { unfold w1. destruct (Nat.eqb thread (curr (slots w (sched th)))); reflexivity. }
    rewrite H1. unfold xnthread_test_state. rewrite Hrun, Hperv, Hkick. reflexivity. }
  assert (Hfacts : threads w' thread
                   = xnthread_set_info XNBREAK
                       (xnthread_clear_info (Z.lor XNRMID XNTIMEO) th)
                   /\ (forall t, t <> thread -> threads w' t = threads w t)
                   /\ trace w' = trace w /\ nkpod w' = nkpod w).
  { rewrite Heq.
    destruct (Nat.eqb thread (curr (slots w (sched th))));
      (split; [simp_threads; reflexivity|]);
      (split; [intros t Ht; rewrite threads_on_thread_other by exact Ht; reflexivity|]);
      split; reflexivity. }
  split; [exact Hfacts|].
  intros Hcur Hrunning Hearly. unfold xnpod_wait_thread_period.
  rewrite <- Hcur. fold th. rewrite Hrunning. cbn [negb].
  apply Z.ltb_lt in Hearly. rewrite Hearly.
  assert (Hd : exists wd, xnpod_suspend_thread cfg thread XNDELAY XN_INFINITE
                            XN_RELATIVE None w = wd
                          /\ threads wd thread
                             = xnthread_set_info XNBREAK
                                 (xnthread_clear_info (Z.lor XNRMID XNTIMEO) th)).
  { eexists. split; [reflexivity|].
    unfold xnpod_suspend_thread. fold th.
    set (w1 := if Nat.eqb thread (curr (slots w (sched th)))
               then xnsched_set_resched (sched th) w else w).
    assert (H1 : threads w1 thread = th).
    { unfold w1. destruct (Nat.eqb thread (curr (slots w (sched th)))); reflexivity. }
    rewrite H1. unfold xnthread_test_state. rewrite Hrun, Hperv, Hkick.
    cbn [nz Z.eqb negb andb]. rewrite threads_on_thread_same, H1. reflexivity. }
  destruct Hd as [wd [-> Hwd]].
  assert (Hbreak : nz (xnthread_test_info (threads wd thread) XNBREAK) = true).
  { rewrite Hwd. apply nz_true. unfold xnthread_test_info, testbits.
    cbn [info xnthread_set_info xnthread_clear_info with_info]. unfold setbits.
    intros H. rewrite Z.land_lor_distr_l in H.
    apply Z.lor_eq_0_iff in H. destruct H as [_ H]. discriminate H. }
  rewrite Hbreak. reflexivity.
Qed.

Lemma kicked_thread_is_not_suspended_witness :
  let th := sample_thread XNSTARTED (Z.lor XNKICKED XNTIMEO) None in
  let w := sample_world th in
  let w' := xnpod_suspend_thread all_on (col := quiet) 1%nat XNSUSP 50 XN_RELATIVE
              (Some 2%nat) w in
  state (threads w' 1%nat) = XNSTARTED
  /\ info (threads w' 1%nat) = Z.lor XNKICKED XNBREAK
  /\ wchan (threads w' 1%nat) = None.
Proof.
  cbv zeta.
  destruct (kicked_thread_is_not_suspended all_on (col := quiet) 1%nat XNSUSP 50
              XN_RELATIVE (Some 2%nat) true
              (sample_world (sample_thread XNSTARTED (Z.lor XNKICKED XNTIMEO) None)))
    as [[Ht _] _]; try reflexivity.
  rewrite Ht. repeat split.
Defined.

(** ** Starting a thread *)

(** A resume that leaves blocking bits behind only clears its mask, when
    the mask holds neither DELAY nor PEND. *)
Lemma resume_still_blocked (thread : tid) (mask : Z) (w : world) :
  let th := threads w thread in
  nz (xnthread_test_state th XNTHREAD_BLOCK_BITS) = true ->
  Z.land mask XNDELAY = 0 -> Z.land mask XNPEND = 0 ->
  nz (testbits (clrbits (state th) mask) XNTHREAD_BLOCK_BITS) = true ->
  xnpod_resume_thread thread mask w
  = on_thread thread (xnthread_clear_state mask) w.
Proof.
  intros th Hb Hd Hp Hstill. unfold xnpod_resume_thread. fold th.
  rewrite Hb, Hd, Hp. cbn [nz Z.eqb negb andb].
  set (w1 := on_thread thread (xnthread_clear_state mask) w).
  assert (H1 : xnthread_test_state (threads w1 thread) XNTHREAD_BLOCK_BITS
               = testbits (clrbits (state th) mask) XNTHREAD_BLOCK_BITS).
  { unfold w1. rewrite threads_on_thread_same. reflexivity. }
  rewrite H1, Hstill. cbn [negb].
  destruct (nz (xnthread_test_state (threads w1 thread) XNDELAY)); reflexivity.
Qed.

Lemma testbits_setbits_disjoint (s m x : Z) :
  Z.land m x = 0 -> testbits (setbits s m) x = testbits s x.
Proof. unfold testbits, setbits. intros H. bits_under. Qed.

Lemma testbits_setbits_kept (s m d b : Z) :
  Z.land d b = d -> Z.land s d <> 0 -> Z.land (setbits s m) b <> 0.
Proof.
  unfold setbits. intros H Hd H0. apply Hd. bits_under.
Qed.

Lemma resume_keeps_start_data (thread : tid) (mask : Z) (w : world) :
  same_view (fun t => (imask t, imode t, entry t, cookie t, affinity t, sched t))
    w (xnpod_resume_thread thread mask w).
Proof.
  unfold xnpod_resume_thread, resume_clear_wchan, resume_enqueue, stop_rtimer.
  view.
Qed.

Lemma resume_keeps_pod_and_trace (thread : tid) (mask : Z) (w : world) :
  nkpod (xnpod_resume_thread thread mask w) = nkpod w
  /\ trace (xnpod_resume_thread thread mask w) = trace w.
Proof.
  unfold xnpod_resume_thread, resume_clear_wchan, resume_enqueue,
    xnsynch_forget_sleeper.
  repeat match goal with
         | |- context [if ?b then _ else _] => destruct b
         end; split; reflexivity.
Qed.

(** X24. A successful start of a thread that is not a shadow.  The world
    handed to the rescheduling procedure has the thread STARTED and no
    longer DORMANT, with the mode bits and SUSP of the mode added to its
    state; it is READY and on the ready queue of its slot exactly when no
    blocking bit is left, so that a thread started with SUSP, or suspended
    while dormant, stays blocked.  The interrupt mask, initial mode, entry
    point and cookie are recorded, the affinity is the intersection of the
    requested one with the pod's and the online CPUs, and the calls that
    leave the pod are the set-up of the initial stack followed by the
    start hooks from the head of their queue (none for the root thread).
    No other control block changes. *)
Theorem start_thread_success (cfg : config) {col : Collaborators}
    (thread : tid) (mode imsk aff ent ck : Z) (w : world) :
  let th := threads w thread in
  let mode' := if CONFIG_XENO_OPT_ISHIELD cfg then mode else clrbits mode XNSHIELD in
  let s5 := clrbits (setbits (state th)
                       (Z.lor (Z.land mode' (Z.lor XNTHREAD_MODE_BITS XNSUSP)) XNSTARTED))
              XNDORMANT in
  nz (xnthread_test_state th XNDORMANT) = true ->
  nz (xnthread_test_state th XNSTARTED) = false ->
  Z.land (Z.land aff (nkaffinity w)) (cpu_online_map w) <> 0 ->
  CONFIG_XENO_OPT_PERVASIVE cfg && nz (xnthread_test_state th XNSHADOW) = false ->
  exists w0 : world,
    xnpod_start_thread cfg thread mode imsk aff ent ck w = (0, xnpod_schedule w0)
    /\ state (threads w0 thread)
       = (if testbits s5 XNTHREAD_BLOCK_BITS =? 0 then setbits s5 XNREADY else s5)
    /\ (testbits s5 XNTHREAD_BLOCK_BITS = 0 ->
        In thread (runnable (slots w0 (sched (threads w0 thread)))))
    /\ imask (threads w0 thread) = imsk
    /\ imode (threads w0 thread) = Z.land mode' XNTHREAD_MODE_BITS
    /\ entry (threads w0 thread) = ent
    /\ cookie (threads w0 thread) = ck
    /\ affinity (threads w0 thread)
       = Z.land (Z.land aff (nkaffinity w)) (cpu_online_map w)
    /\ trace w0
       = trace w ++ [EvArchInitThread thread]
         ++ (if nz (xnthread_test_state th XNROOT) then []
             else map (fun r => EvCallout r thread) (tstartq (nkpod w)))
    /\ (forall t, t <> thread -> threads w0 t = threads w t).
Proof.
  intros th mode' s5 Hd Hs Hcpus Hsh.
  unfold xnpod_start_thread. fold th. rewrite Hd. cbn [negb].
  set (w1 := on_thread thread (with_affinity (cpu_online_map w)) w).
  set (w2 := on_thread thread _ w1).
  assert (Haff : affinity (threads w2 thread)
                 = Z.land (Z.land aff (nkaffinity w)) (cpu_online_map w)).
  { unfold w2, w1. rewrite !threads_on_thread_same. reflexivity. }
  rewrite Haff. apply Z.eqb_neq in Hcpus. rewrite Hcpus.
  set (w3 := if CONFIG_SMP cfg && _ then _ else w2).
  assert (H3 : state (threads w3 thread) = state th
               /\ affinity (threads w3 thread)
                  = Z.land (Z.land aff (nkaffinity w)) (cpu_online_map w)
               /\ same_except thread w w3 /\ trace w3 = trace w
               /\ nkpod w3 = nkpod w).
  { unfold w3. destruct (CONFIG_SMP cfg && _).
    - split; [unfold w2, w1; simp_threads; reflexivity|].
      split; [simp_threads; exact Haff|].
      split; [unfold w2, w1; except|]. split; reflexivity.
    - split; [unfold w2, w1; simp_threads; reflexivity|].
      split; [exact Haff|].
      split; [unfold w2, w1; except|]. split; reflexivity. }
  clearbody w3. clear w1 w2 Haff. destruct H3 as [H3s [H3a [H3e [H3t H3p]]]].
  unfold xnthread_test_state at 1. rewrite H3s.
  change (testbits (state th) XNSTARTED) with (xnthread_test_state th XNSTARTED).
  rewrite Hs. fold mode'.
  set (bits := Z.lor (Z.land mode' (Z.lor XNTHREAD_MODE_BITS XNSUSP)) XNSTARTED).
  set (w4 := on_thread thread (xnthread_set_state bits) w3).
  set (w5 := on_thread thread _ w4).
  set (w6 := if nz (xnthread_test_state (threads w5 thread) XNRRB) then _ else w5).
  assert (H6 : state (threads w6 thread) = setbits (state th) bits
               /\ imask (threads w6 thread) = imsk
               /\ imode (threads w6 thread) = Z.land mode' XNTHREAD_MODE_BITS
               /\ entry (threads w6 thread) = ent
               /\ cookie (threads w6 thread) = ck
               /\ affinity (threads w6 thread)
                  = Z.land (Z.land aff (nkaffinity w)) (cpu_online_map w)
               /\ same_except thread w w6 /\ trace w6 = trace w
               /\ nkpod w6 = nkpod w).
  { unfold w6. destruct (nz (xnthread_test_state (threads w5 thread) XNRRB));
      unfold w5, w4; simp_threads;
      cbn [state imask imode entry cookie affinity with_rrcredit with_start_params
             xnthread_set_state with_state];
      rewrite H3s, H3a;
      (split; [reflexivity|]); (split; [reflexivity|]); (split; [reflexivity|]);
      (split; [reflexivity|]); (split; [reflexivity|]); (split; [reflexivity|]);
      (split; [except|]); split; assumption. }
  clearbody w6. clear w4 w5.
  destruct H6 as [H6s [H6i [H6m [H6n [H6c [H6a [H6e [H6t H6p]]]]]]]].
  assert (Hbits : forall x, Z.land (Z.lor XNTHREAD_MODE_BITS (Z.lor XNSUSP XNSTARTED)) x = 0 ->
                            Z.land bits x = 0).
  { intros x Hx. unfold bits. clear - Hx.
    revert Hx. generalize XNTHREAD_MODE_BITS XNSUSP XNSTARTED. intros a b c Hx.
    bits_under. }
  assert (Hshadow : xnthread_test_state (threads w6 thread) XNSHADOW
                    = xnthread_test_state th XNSHADOW).
  { unfold xnthread_test_state. rewrite H6s.
    apply testbits_setbits_disjoint. apply Hbits. reflexivity. }
  assert (Hroot : xnthread_test_state (threads w6 thread) XNROOT
                  = xnthread_test_state th XNROOT).
  { unfold xnthread_test_state. rewrite H6s.
    apply testbits_setbits_disjoint. apply Hbits. reflexivity. }
  rewrite Hshadow, Hsh.
  set (w7 := emit (EvArchInitThread thread) w6).
  assert (H7b : nz (xnthread_test_state (threads w7 thread) XNTHREAD_BLOCK_BITS) = true).
  { apply nz_true. unfold xnthread_test_state, testbits.
    change (threads w7 thread) with (threads w6 thread). rewrite H6s.
    apply (testbits_setbits_kept _ _ XNDORMANT); [reflexivity|].
    apply nz_true in Hd. exact Hd. }
  assert (Hs5 : clrbits (state (threads w7 thread)) XNDORMANT = s5).
  { change (threads w7 thread) with (threads w6 thread). rewrite H6s. reflexivity. }
  set (w8 := xnpod_resume_thread thread XNDORMANT w7).
  pose proof (resume_keeps_start_data thread XNDORMANT w7 thread) as Hdata.
  destruct (resume_keeps_pod_and_trace thread XNDORMANT w7) as [H8p H8t].
  fold w8 in Hdata, H8p, H8t. cbv beta in Hdata.
  change (threads w7 thread) with (threads w6 thread) in Hdata.
  rewrite H6i, H6m, H6n, H6c, H6a in Hdata.
  injection Hdata as D1 D2 D3 D4 D5 D6.
  assert (H8 : state (threads w8 thread)
               = (if testbits s5 XNTHREAD_BLOCK_BITS =? 0
                  then setbits s5 XNREADY else s5)
               /\ (testbits s5 XNTHREAD_BLOCK_BITS = 0 ->
                   In thread (runnable (slots w8 (sched (threads w8 thread)))))
               /\ same_except thread w w8).
  { destruct (Z.eqb_spec (testbits s5 XNTHREAD_BLOCK_BITS) 0) as [E0|E0].
    - assert (Hlast : testbits (clrbits (state (threads w7 thread)) XNDORMANT)
                        XNTHREAD_BLOCK_BITS = 0) by (rewrite Hs5; exact E0).
      destruct (resume_last_conditions thread XNDORMANT w7 H7b Hlast)
        as [R1 [R2 [R3 _]]].
      fold w8 in R1, R2, R3. rewrite Hs5 in R1.
      split; [exact R1|]. split.
      + intros _. rewrite D6. exact R3.
      + intros t Ht. rewrite (R2 t Ht). apply H6e. exact Ht.
    - assert (Hstill : nz (testbits (clrbits (state (threads w7 thread)) XNDORMANT)
                             XNTHREAD_BLOCK_BITS) = true)
        by (rewrite Hs5; apply nz_true; exact E0).
      pose proof (resume_still_blocked thread XNDORMANT w7 H7b eq_refl eq_refl Hstill)
        as Req.
      fold w8 in Req. rewrite Req.
      split; [simp_threads; exact Hs5|]. split; [intros H0; contradiction|].
      apply same_except_on_thread. exact H6e. }
  clearbody w8. destruct H8 as [H8s [H8r H8e]].
  assert (Hroot8 : xnthread_test_state (threads w8 thread) XNROOT
                   = xnthread_test_state th XNROOT).
  { unfold xnthread_test_state. rewrite H8s.
    assert (Hs5r : testbits s5 XNROOT = testbits (state th) XNROOT).
    { unfold s5. rewrite testbits_clrbits_disjoint by reflexivity.
      apply testbits_setbits_disjoint. apply Hbits. reflexivity. }
    destruct (testbits s5 XNTHREAD_BLOCK_BITS =? 0); [|exact Hs5r].
    rewrite testbits_setbits_disjoint by reflexivity. exact Hs5r. }
  assert (H8p' : nkpod w8 = nkpod w) by (rewrite H8p; exact H6p).
  rewrite Hroot8, H8p'.
  set (w9 := if negb (emptyq_p (tstartq (nkpod w)))
                && negb (nz (xnthread_test_state th XNROOT))
             then xnpod_fire_callouts (tstartq (nkpod w)) thread w8
             else w8).
  assert (H9 : threads w9 = threads w8
               /\ (forall c, runnable (slots w9 c) = runnable (slots w8 c))
               /\ trace w9
                  = trace w8
                    ++ (if nz (xnthread_test_state th XNROOT) then []
                        else map (fun r => EvCallout r thread) (tstartq (nkpod w)))).
  { unfold w9. destruct (nz (xnthread_test_state th XNROOT)); cbn [negb andb].
    - rewrite andb_false_r, app_nil_r. repeat split.
    - rewrite andb_true_r. destruct (tstartq (nkpod w)) as [|r q] eqn:Eq.
      + cbn [emptyq_p negb map]. rewrite app_nil_r. repeat split.
      + cbn [emptyq_p negb].
        destruct (fire_callouts_facts (r :: q) thread w8) as [F1 [_ [F3 F4]]].
        cbv zeta in *. split; [exact F1|]. split; [intros c; apply F4 | exact F3]. }
  clearbody w9. destruct H9 as [H9t [H9r H9c]].
  exists w9. split; [reflexivity|]. rewrite H9t, H9r, H9c, H8t.
  split; [exact H8s|]. split; [exact H8r|].
  split; [exact D1|]. split; [exact D2|]. split; [exact D3|]. split; [exact D4|].
  split; [exact D5|].
  split; [unfold w7; cbn [trace emit]; rewrite H6t, <- app_assoc; reflexivity|].
  exact H8e.
Qed.

Lemma start_thread_success_witness :
  let w := hooked_world in
  exists w0 : world,
    xnpod_start_thread all_on (col := quiet) 1%nat XNRRB 0 1 42 7 w
    = (0, @xnpod_schedule quiet w0)
    /\ state (threads w0 1%nat) = Z.lor XNREADY (Z.lor XNSTARTED XNRRB)
    /\ entry (threads w0 1%nat) = 42
    /\ trace w0 = [EvArchInitThread 1%nat; EvCallout 5 1%nat; EvCallout 7 1%nat;
                   EvCallout 9 1%nat; EvCallout 7 1%nat].
Proof.
  cbv zeta.
  destruct (start_thread_success all_on (col := quiet) 1%nat XNRRB 0 1 42 7
              hooked_world)
    as [w0 [Heq [Hs [_ [_ [_ [He [_ [_ [Ht _]]]]]]]]]];
    [reflexivity | reflexivity | discriminate | reflexivity |].
  exists w0. split; [exact Heq|]. split; [rewrite Hs; reflexivity|].
  split; [exact He | rewrite Ht; reflexivity].
Defined.

(** ** The core time source *)

Lemma stop_timers_below_effect (k : nat) (ts : timesource) :
  stop_timers_below k ts
  = mk_timesource (pod_active ts) (tbase_status ts) (tbase_wallclock_offset ts)
      (clock_calls ts ++ map ArchStopTimer (rev (seq 0 k))).
Proof.
  revert ts. induction k as [|k IH]; intros ts.
  - cbn [stop_timers_below seq rev map]. rewrite app_nil_r. destruct ts; reflexivity.
  - cbn [stop_timers_below]. rewrite IH. cbn [clock_call_made pod_active tbase_status
      tbase_wallclock_offset clock_calls].
    rewrite seq_S, rev_app_distr. cbn [rev app map Nat.add].
    rewrite <- app_assoc. reflexivity.
Qed.

Section TimeSourceFacts.

Variable XNTBRUN : Z.
Variable start : nat -> Z.
Variable ncpus : nat.
Variable host_time cpu_time : Z.
Variable watchdog : bool.

Lemma enable_loop_one_cpu (cpu : nat) (ts : timesource) :
  0 <= start cpu ->
  exists ts3,
    (forall n, enable_timesource_loop start watchdog (S n) cpu ts
               = enable_timesource_loop start watchdog n (S cpu) ts3)
    /\ clock_calls ts3 = clock_calls ts ++ timer_started_calls watchdog start cpu
    /\ tbase_status ts3 = tbase_status ts /\ pod_active ts3 = pod_active ts
    /\ tbase_wallclock_offset ts3 = tbase_wallclock_offset ts.
Proof.
  intros Hpos. apply Z.ltb_ge in Hpos.
  eexists. split.
  - intros n. cbn [enable_timesource_loop]. rewrite Hpos. reflexivity.
  - unfold timer_started_calls.
    destruct watchdog; destruct (start cpu >? 1);
      cbn [clock_calls clock_call_made tbase_status pod_active
             tbase_wallclock_offset app];
      rewrite <- ?app_assoc; cbn [app]; repeat split.
Qed.

Lemma enable_loop_succeeds (n cpu : nat) (ts : timesource) :
  (forall i, (cpu <= i < cpu + n)%nat -> 0 <= start i) ->
  let r := enable_timesource_loop start watchdog n cpu ts in
  fst r = 0
  /\ clock_calls (snd r)
     = clock_calls ts ++ flat_map (timer_started_calls watchdog start) (seq cpu n)
  /\ tbase_status (snd r) = tbase_status ts
  /\ tbase_wallclock_offset (snd r) = tbase_wallclock_offset ts.
Proof.
  revert cpu ts. induction n as [|n IH]; intros cpu ts Hall; cbv zeta.
  - cbn [enable_timesource_loop fst snd seq flat_map]. rewrite app_nil_r.
    repeat split.
  - destruct (enable_loop_one_cpu cpu ts) as [ts3 [Hstep [Hc [Hs [_ Ho]]]]];
      [apply Hall; lia|].
    rewrite Hstep.
    destruct (IH (S cpu) ts3) as [I1 [I2 [I3 I4]]]; [intros i Hi; apply Hall; lia|].
    cbv zeta in *. rewrite I1, I2, I3, I4, Hc, Hs, Ho. cbn [seq flat_map].
    rewrite <- app_assoc. repeat split.
Qed.



(** X26. Without an active pod xnpod_enable_timesource answers -ENOSYS and
    touches nothing.  With an active pod, when the hardware timer of
    every online CPU starts, the answer is 0, the status of the master
    time base is exactly the running flag, the wallclock offset is the sum
    of the host time and the CPU time, and the calls made are, for each
    CPU in increasing order, the start of its hardware timer, the start
    of its host tick emulation (with the host tick as value and period
    when it is above 1, one-shot otherwise) and, on a build with the
    watchdog, the start of the watchdog; no timer is stopped. *)
Theorem enable_timesource_starts_every_cpu (ts : timesource) :
  let r := xnpod_enable_timesource XNTBRUN start ncpus host_time cpu_time
             watchdog ts in
  (pod_active ts = false -> r = (- ENOSYS, ts))
  /\ (pod_active ts = true ->
      (forall i, (i < ncpus)%nat -> 0 <= start i) ->
      fst r = 0
      /\ tbase_status (snd r) = XNTBRUN
      /\ tbase_wallclock_offset (snd r) = (host_time + cpu_time) mod 2 ^ 64
      /\ clock_calls (snd r)
         = clock_calls ts
           ++ flat_map (timer_started_calls watchdog start) (seq 0 ncpus)
      /\ (forall c, ~ In (ArchStopTimer c)
                      (flat_map (timer_started_calls watchdog start) (seq 0 ncpus)))).
Proof.
  cbv zeta. unfold xnpod_enable_timesource. split.
  - intros ->. reflexivity.
  - intros -> Hall. cbn [negb].
    set (ts2 := with_tbase_wallclock_offset _ (with_tbase_status XNTBRUN ts)).
    destruct (enable_loop_succeeds ncpus 0 ts2) as [H1 [H2 [H3 H4]]];
      [intros i Hi; apply Hall; lia|].
    cbv zeta in *. rewrite H1, H2, H3, H4.
    split; [reflexivity|]. split; [reflexivity|]. split; [reflexivity|].
    split; [reflexivity|].
    intros c Hin. apply in_flat_map in Hin. destruct Hin as [cpu [_ Hin]].
    unfold timer_started_calls in Hin.
    destruct watchdog; destruct (start cpu >? 1); cbn [app In] in Hin;
      repeat (destruct Hin as [Hin|Hin]; [discriminate Hin|]); exact Hin.
Qed.

Lemma stop_all_timers_effect (ts : timesource) :
  stop_all_timers ncpus ts
  = mk_timesource (pod_active ts) (tbase_status ts) (tbase_wallclock_offset ts)
      (clock_calls ts ++ map ArchStopTimer (seq 0 ncpus)).
Proof.
  unfold stop_all_timers. generalize (seq 0 ncpus). intros l. revert ts.
  induction l as [|c l IH]; intros ts; cbn [fold_left map].
  - rewrite app_nil_r. destruct ts; reflexivity.
  - rewrite IH. cbn [clock_call_made pod_active tbase_status tbase_wallclock_offset
                       clock_calls].
    rewrite <- app_assoc. reflexivity.
Qed.

Lemma disable_timesource_effect (ts : timesource) :
  pod_active ts = true -> xntbase_enabled_p XNTBRUN ts = true ->
  xnpod_disable_timesource XNTBRUN ncpus ts
  = mk_timesource true (clrbits (tbase_status ts) XNTBRUN)
      (tbase_wallclock_offset ts)
      (clock_calls ts ++ map ArchStopTimer (seq 0 ncpus) ++ [TimerFreeze]).
Proof.
  intros Ha He. unfold xnpod_disable_timesource. rewrite Ha, He. cbn [negb orb].
  rewrite stop_all_timers_effect.
  unfold clock_call_made, with_tbase_status.
  cbn [pod_active tbase_status tbase_wallclock_offset clock_calls].
  rewrite Ha, <- app_assoc. reflexivity.
Qed.

(** X27. xnpod_disable_timesource does nothing without an active pod or
    when the master time base is not running.  Otherwise it clears the
    running flag and no other status bit, stops the hardware timer of
    every online CPU once, in increasing order, and then freezes the
    timers; it starts nothing.  In both cases a second call in a row does
    nothing. *)
Theorem disable_timesource_stops_once (ts : timesource) :
  let ts' := xnpod_disable_timesource XNTBRUN ncpus ts in
  xnpod_disable_timesource XNTBRUN ncpus ts' = ts'
  /\ (if pod_active ts && xntbase_enabled_p XNTBRUN ts
      then xntbase_enabled_p XNTBRUN ts' = false
           /\ tbase_status ts' = clrbits (tbase_status ts) XNTBRUN
           /\ clock_calls ts'
              = clock_calls ts ++ map ArchStopTimer (seq 0 ncpus) ++ [TimerFreeze]
      else ts' = ts).
Proof.
  cbv zeta.
  destruct (pod_active ts) eqn:Ha; cbn [andb].
  - destruct (xntbase_enabled_p XNTBRUN ts) eqn:He.
    + rewrite (disable_timesource_effect ts Ha He).
      assert (Hoff : xntbase_enabled_p XNTBRUN
                       (mk_timesource true (clrbits (tbase_status ts) XNTBRUN)
                          (tbase_wallclock_offset ts)
                          (clock_calls ts ++ map ArchStopTimer (seq 0 ncpus)
                             ++ [TimerFreeze])) = false).
      { unfold xntbase_enabled_p. cbn [tbase_status]. apply nz_false.
        unfold testbits, clrbits. bits. }
      split.
      * unfold xnpod_disable_timesource at 1. rewrite Hoff. reflexivity.
      * split; [exact Hoff|]. split; reflexivity.
    + assert (Hid : xnpod_disable_timesource XNTBRUN ncpus ts = ts).
      { unfold xnpod_disable_timesource. rewrite He, orb_true_r. reflexivity. }
      rewrite !Hid. split; reflexivity.
  - assert (Hid : xnpod_disable_timesource XNTBRUN ncpus ts = ts).
    { unfold xnpod_disable_timesource. rewrite Ha. reflexivity. }
    rewrite !Hid. split; reflexivity.
Qed.

(** X28. Switching the time source on and off again.  With an active pod,
    a running flag that is not empty and hardware timers that all start,
    xnpod_disable_timesource after xnpod_enable_timesource leaves the
    master time base not running, and the calls made are the starts of
    the timers of every CPU in increasing order followed by the stop of
    the hardware timer of every CPU in increasing order and the freeze of
    the timers: the hardware timer of a CPU is stopped exactly when it was
    started. *)
Theorem enable_then_disable_stops_every_timer (ts : timesource) :
  let on := snd (xnpod_enable_timesource XNTBRUN start ncpus host_time cpu_time
                   watchdog ts) in
  let off := xnpod_disable_timesource XNTBRUN ncpus on in
  pod_active ts = true -> XNTBRUN <> 0 ->
  (forall i, (i < ncpus)%nat -> 0 <= start i) ->
  xntbase_enabled_p XNTBRUN on = true
  /\ xntbase_enabled_p XNTBRUN off = false
  /\ clock_calls off
     = clock_calls ts
       ++ flat_map (timer_started_calls watchdog start) (seq 0 ncpus)
       ++ map ArchStopTimer (seq 0 ncpus) ++ [TimerFreeze]
  /\ (forall c, In (ArchStopTimer c) (clock_calls off) ->
      In (ArchStopTimer c) (clock_calls ts) \/ In (ArchStartTimer c) (clock_calls off)).
Proof.
  intros on off Hact Hrun Hall.
  assert (Hon : pod_active on = true /\ tbase_status on = XNTBRUN
                /\ clock_calls on
                   = clock_calls ts
                     ++ flat_map (timer_started_calls watchdog start) (seq 0 ncpus)).
  { unfold on, xnpod_enable_timesource. rewrite Hact. cbn [negb].
    set (ts2 := with_tbase_wallclock_offset _ (with_tbase_status XNTBRUN ts)).
    assert (Hpa : forall n c t, pod_active (snd (enable_timesource_loop start watchdog
                                                   n c t)) = pod_active t).
    { clear. induction n as [|n IH]; intros c t; [reflexivity|].
      cbn [enable_timesource_loop]. destruct (start c <? 0).
      - cbn [snd]. rewrite stop_timers_below_effect. reflexivity.
      - rewrite IH. destruct watchdog; destruct (start c >? 1); reflexivity. }
    destruct (enable_loop_succeeds ncpus 0 ts2) as [_ [H2 [H3 _]]];
      [intros i Hi; apply Hall; lia|].
    cbv zeta in *. rewrite Hpa, H2, H3. repeat split. exact Hact. }
  destruct Hon as [Hpa [Hst Hcalls]].
  assert (Hen : xntbase_enabled_p XNTBRUN on = true).
  { unfold xntbase_enabled_p. rewrite Hst. apply nz_true. unfold testbits.
    rewrite Z.land_diag. exact Hrun. }
  assert (Hoff : off = mk_timesource true (clrbits (tbase_status on) XNTBRUN)
                         (tbase_wallclock_offset on)
                         (clock_calls on ++ map ArchStopTimer (seq 0 ncpus)
                            ++ [TimerFreeze]))
    by (apply disable_timesource_effect; assumption).
  split; [exact Hen|]. rewrite Hoff. cbn [clock_calls]. rewrite Hcalls.
  split.
  { unfold xntbase_enabled_p. cbn [tbase_status]. apply nz_false.
    unfold testbits, clrbits. bits. }
  split; [rewrite <- !app_assoc; reflexivity|].
  intros c Hin. rewrite <- app_assoc in Hin.
  apply in_app_or in Hin. destruct Hin as [Hin|Hin]; [left; exact Hin|].
  right. apply in_or_app. left. apply in_or_app. right.
  apply in_app_or in Hin. destruct Hin as [Hin|Hin].
  - exfalso. apply in_flat_map in Hin. destruct Hin as [cpu [_ Hin]].
    unfold timer_started_calls in Hin.
    destruct watchdog; destruct (start cpu >? 1); cbn [app In] in Hin;
      repeat (destruct Hin as [Hin|Hin]; [discriminate Hin|]); exact Hin.
  - apply in_app_or in Hin. destruct Hin as [Hin|[Hin|[]]]; [|discriminate Hin].
    apply in_map_iff in Hin. destruct Hin as [c' [[= ->] Hc]].
    apply in_flat_map. exists c. split; [exact Hc|].
    unfold timer_started_calls. left. reflexivity.
Qed.

End TimeSourceFacts.


Lemma enable_then_disable_stops_every_timer_witness :
  let start := fun _ : nat => 1 in
  let on := snd (xnpod_enable_timesource 1 start 2 1000 24 false
                   (mk_timesource true 0 0 [])) in
  let off := xnpod_disable_timesource 1 2 on in
  xntbase_enabled_p 1 on = true
  /\ xntbase_enabled_p 1 off = false
  /\ clock_calls off
     = [ArchStartTimer 0; HtimerStart 0 0 0; ArchStartTimer 1; HtimerStart 1 0 0;
        ArchStopTimer 0; ArchStopTimer 1; TimerFreeze].
Proof.
  cbv zeta.
  destruct (enable_then_disable_stops_every_timer 1 (fun _ : nat => 1) 2 1000 24 false
              (mk_timesource true 0 0 []))
    as [H1 [H2 [H3 _]]].
  - reflexivity.
  - discriminate.
  - intros i _. lia.
  - split; [exact H1|]. split; [exact H2 | exact H3].
Defined.

(** ** Alchemy condition variables *)

Lemma updz_same {A : Type} (f : Z -> A) (k : Z) (v : A) : updz f k v k = v.
Proof. unfold updz. rewrite Z.eqb_refl. reflexivity. Qed.

Lemma updz_other {A : Type} (f : Z -> A) (k k' : Z) (v : A) :
  k' <> k -> updz f k v k' = f k'.
Proof. intros H. unfold updz. apply Z.eqb_neq in H. rewrite H. reflexivity. Qed.


Section CondFacts.

Variable sizeof_intptr : Z.
Variable cond_magic : Z.
Variable TM_INFINITE TM_NONBLOCK : Z.
Variable mainheap_deref mainheap_ref : Z -> Z.
Variable alchemy_build_name : Z -> Z.
Variable pthread_rc : pthread_call -> cond_heap -> Z.
Variable find_alchemy_mutex : Z -> cond_heap -> Z + Z.
Variable clockobj_ticks_to_timespec : Z -> Z.
Variable xnfree : Z -> cond_heap -> cond_heap.


(** X30. A descriptor that has been unbound is refused.  rt_cond_unbind
    has no result for a NULL descriptor, which it dereferences.  For any
    other descriptor it answers 0, and, if the handle 0 translates to the
    NULL address, the descriptor no longer resolves afterwards:
    rt_cond_signal, rt_cond_broadcast and rt_cond_inquire answer -EINVAL;
    rt_cond_delete answers -EPERM in an asynchronous context and -EINVAL
    otherwise; rt_cond_wait_until answers -EWOULDBLOCK for TM_NONBLOCK and
    -EINVAL otherwise.  None of them makes a POSIX call or changes the
    heap, every other descriptor resolves as before, and the control
    block itself is not touched. *)
Theorem cond_unbind_invalidates_descriptor (async : bool)
    (cond mutex timeout : Z) (h : cond_heap) :
  let h' := with_rt_cond_handle cond 0 h in
  mainheap_deref 0 = 0 -> cond <> 0 ->
  rt_cond_unbind 0 h = None
  /\ rt_cond_unbind cond h = Some (0, h')
  /\ find_alchemy_cond sizeof_intptr cond_magic mainheap_deref cond h'
     = inr (- EINVAL)
  /\ rt_cond_signal sizeof_intptr cond_magic mainheap_deref pthread_rc cond h'
     = (- EINVAL, h')
  /\ rt_cond_broadcast sizeof_intptr cond_magic mainheap_deref pthread_rc cond h'
     = (- EINVAL, h')
  /\ rt_cond_inquire sizeof_intptr cond_magic mainheap_deref cond h'
     = (- EINVAL, None)
  /\ rt_cond_delete sizeof_intptr cond_magic mainheap_deref pthread_rc xnfree
       async cond h'
     = ((if async then - EPERM else - EINVAL), h')
  /\ rt_cond_wait_until sizeof_intptr cond_magic TM_INFINITE TM_NONBLOCK
       mainheap_deref pthread_rc find_alchemy_mutex clockobj_ticks_to_timespec
       cond mutex timeout h'
     = ((if timeout =? TM_NONBLOCK then - EWOULDBLOCK else - EINVAL), h')
  /\ (forall c, c <> cond ->
      find_alchemy_cond sizeof_intptr cond_magic mainheap_deref c h'
      = find_alchemy_cond sizeof_intptr cond_magic mainheap_deref c h)
  /\ ccb_at h' = ccb_at h /\ pthread_calls h' = pthread_calls h.
Proof.
  intros h' Hnull Hcond.
  assert (Hfind : find_alchemy_cond sizeof_intptr cond_magic mainheap_deref cond h'
                  = inr (- EINVAL)).
  { unfold h', find_alchemy_cond.
    destruct ((cond =? 0) || misaligned sizeof_intptr cond); [reflexivity|].
    cbn [rt_cond_handle with_rt_cond_handle]. rewrite updz_same, Hnull.
    reflexivity. }
  split; [reflexivity|].
  split.
  { unfold rt_cond_unbind. apply Z.eqb_neq in Hcond. rewrite Hcond. reflexivity. }
  split; [exact Hfind|].
  split; [unfold rt_cond_signal; rewrite Hfind; reflexivity|].
  split; [unfold rt_cond_broadcast; rewrite Hfind; reflexivity|].
  split; [unfold rt_cond_inquire; rewrite Hfind; reflexivity|].
  split.
  { unfold rt_cond_delete. destruct async; [reflexivity|].
    rewrite Hfind. reflexivity. }
  split.
  { unfold rt_cond_wait_until. destruct (timeout =? TM_NONBLOCK); [reflexivity|].
    rewrite Hfind. reflexivity. }
  split; [|split; reflexivity].
  intros c Hc. unfold h', find_alchemy_cond.
  cbn [rt_cond_handle ccb_at with_rt_cond_handle]. rewrite updz_other by exact Hc.
  reflexivity.
Qed.

End CondFacts.


Lemma cond_unbind_invalidates_descriptor_witness :
  let h := mk_cond_heap (fun _ => 4096) (fun _ => mk_alchemy_cond 2257775595 3) [] in
  let h' := with_rt_cond_handle 512 0 h in
  find_alchemy_cond 8 2257775595 (fun a => a) 512 h = inl 4096
  /\ rt_cond_unbind 512 h = Some (0, h')
  /\ rt_cond_signal 8 2257775595 (fun a => a) (fun _ _ => 0) 512 h'
     = (- EINVAL, h')
  /\ rt_cond_delete 8 2257775595 (fun a => a) (fun _ _ => 0) (fun _ h0 => h0)
       true 512 h'
     = (- EPERM, h').
Proof.
  cbv zeta. split; [reflexivity|].
  destruct (cond_unbind_invalidates_descriptor 8 2257775595 0 18446744073709551615
              (fun a => a) (fun _ _ => 0) (fun m _ => inl m) (fun t => t)
              (fun _ h0 => h0) true 512 1024 0
              (mk_cond_heap (fun _ => 4096) (fun _ => mk_alchemy_cond 2257775595 3) []))
    as [_ [Hu [_ [Hs [_ [_ [Hd _]]]]]]]; [reflexivity | discriminate |].
  split; [exact Hu|]. split; [exact Hs | exact Hd].
Defined.
